(** * PicoWiFiManager: the persistent configuration store and the
      connection lifecycle orchestrator

    A shallow embedding of [src/StorageManager.{h,cpp}], of the state
    machine of [src/PicoWiFiManager.{h,cpp}], of the life of the portal
    in [src/ConfigPortal.{h,cpp}] and of [src/NetworkScanner.{h,cpp}],
    with the properties the specification states about them and further
    properties the code has.

    Conventions.
    - A [uint8_t] or [char] is a [Byte.byte]; a [uint32_t], [uint16_t] or a
      numeric [uint8_t] is an [N] taken modulo its width where the code
      wraps.
    - A [bool] member that travels through the EEPROM is kept as the byte
      that represents it; a test [if (b)] is a test on a non-zero byte.
    - A [const char*] argument is an [option (list byte)]: [None] is the
      null pointer, [Some p] points at the characters [p], which a NUL
      follows; the C string it denotes is [c_str p].
    - Target ABI: 32-bit little-endian ARM (RP2040 / RP2350), natural
      alignment. [sizeof(StorageData)] is 236.
    - An Arduino [String] is the [list byte] of its characters; an
      [int32_t] or [int] is a [Z].
    - A function of a library the code calls ([std::sort], the radio, the
      clock) is an argument of the function that calls it.
    - The padding bytes of the record are part of it ([Padding]): the
      checksum reads them.  Where the code copies a whole object (a
      temporary, a struct argument), what the padding of that object holds
      is an argument of the function too. *)

From Stdlib Require Import List NArith ZArith Bool Lia Arith.
From Stdlib Require Import Sorting.Permutation Sorting.Sorted.
From Stdlib Require Import Strings.Byte.
From Stdlib Require Strings.String.
Import Strings.String.StringSyntax.
Import ListNotations.

Delimit Scope string_scope with string.

Set Implicit Arguments.

(* ===================================================================== *)
(** ** Bytes and little-endian words *)

Module Bytes.

Definition uint8 (n : N) : byte :=
  match Byte.of_N (n mod 256) with
  | Some b => b
  | None => x00
  end.

(** The four bytes of a [uint32_t], least significant first. *)
Definition le32 (n : N) : list byte :=
  [ uint8 n; uint8 (N.shiftr n 8); uint8 (N.shiftr n 16); uint8 (N.shiftr n 24) ].

Definition le16 (n : N) : list byte :=
  [ uint8 n; uint8 (N.shiftr n 8) ].

(** The unsigned integer a little-endian byte sequence denotes. *)
Fixpoint le_decode (bs : list byte) : N :=
  match bs with
  | [] => 0
  | b :: bs' => (Byte.to_N b + 256 * le_decode bs')%N
  end.

(** [len] bytes of [m] from offset [off]. *)
Definition slice (off len : nat) (m : list byte) : list byte :=
  firstn len (skipn off m).

Definition byte_at (off : nat) (m : list byte) : byte := nth off m x00.

(** [if (b)] on a [bool] held as a byte. *)
Definition truthy (b : byte) : bool := negb (Byte.eqb b x00).

Definition c_true : byte := x01.
Definition c_false : byte := x00.

End Bytes.

(* ===================================================================== *)
(** ** The C string functions the code calls *)

Module CString.

(** The characters before the first NUL. *)
Fixpoint c_str (p : list byte) : list byte :=
  match p with
  | [] => []
  | c :: p' => if Byte.eqb c x00 then [] else c :: c_str p'
  end.

Definition strlen (p : list byte) : nat := length (c_str p).

Definition memset (c : byte) (n : nat) : list byte := repeat c n.

(** [strncpy(dst, src, n)]: the [n] bytes written to [dst]: the string,
    cut at [n] characters, then NUL up to [n]. *)
Definition strncpy (src : list byte) (n : nat) : list byte :=
  let s := firstn n (c_str src) in
  s ++ repeat x00 (n - length s).

(** A character array of [size] bytes after
    [strncpy(a, src, size - 1); a[size - 1] = '\0';]. *)
Definition bounded_copy (src : list byte) (size : nat) : list byte :=
  strncpy src (size - 1) ++ [x00].

End CString.

(* ===================================================================== *)
(** ** StorageManager *)

Module Storage.
Import Bytes CString.

Definition STORAGE_VERSION : N := 1.
Definition STORAGE_MAGIC : N := 0x50494345.

Definition MAX_SSID_LENGTH : nat := 32.
Definition MAX_PASSWORD_LENGTH : nat := 64.
Definition MAX_HOSTNAME_LENGTH : nat := 32.

Record WiFiCredentials := {
  ssid : list byte;          (* char ssid[MAX_SSID_LENGTH] *)
  password : list byte;      (* char password[MAX_PASSWORD_LENGTH] *)
  valid : byte               (* bool *)
}.

Definition WiFiCredentials_new : WiFiCredentials :=
  {| ssid := memset x00 MAX_SSID_LENGTH;
     password := memset x00 MAX_PASSWORD_LENGTH;
     valid := c_false |}.

(** [WiFiCredentials::clear] *)
Definition clear (_ : WiFiCredentials) : WiFiCredentials :=
  {| ssid := memset x00 MAX_SSID_LENGTH;
     password := memset x00 MAX_PASSWORD_LENGTH;
     valid := c_false |}.

Record NetworkConfig := {
  useStaticIP : byte;        (* bool *)
  staticIP : N;
  gateway : N;
  subnet : N;
  primaryDNS : N;
  secondaryDNS : N
}.

Definition NetworkConfig_new : NetworkConfig :=
  {| useStaticIP := c_false; staticIP := 0; gateway := 0; subnet := 0;
     primaryDNS := 0; secondaryDNS := 0 |}.

Record DeviceConfig := {
  hostname : list byte;      (* char hostname[MAX_HOSTNAME_LENGTH] *)
  autoReconnect : byte;      (* bool *)
  maxReconnectAttempts : N;  (* uint8_t *)
  connectTimeout : N         (* uint16_t *)
}.

(** "pico2w" *)
Definition default_hostname : list byte := [x70; x69; x63; x6f; x32; x77].

Definition DeviceConfig_new : DeviceConfig :=
  {| hostname := bounded_copy default_hostname MAX_HOSTNAME_LENGTH;
     autoReconnect := c_true;
     maxReconnectAttempts := 3;
     connectTimeout := 30 |}.

(** The bytes the ABI leaves between members.  Their values are not
    specified by the language: a constructor and an assignment to a scalar
    member leave them as the object's memory held them, a copy of a whole
    object (the implicit assignment of a struct, [EEPROM.get]) brings those
    of its source.  The checksum loop reads them. *)
Record Padding := {
  pad_version : list byte;   (* 3 bytes after [version] *)
  pad_wifi : list byte;      (* 3 bytes after [wifi] *)
  pad_network : list byte    (* 3 bytes after [network.useStaticIP] *)
}.

Definition zero_padding : Padding :=
  {| pad_version := repeat x00 3; pad_wifi := repeat x00 3;
     pad_network := repeat x00 3 |}.

Record StorageData := {
  magic : N;                 (* uint32_t, offset 0 *)
  version : N;               (* uint8_t, offset 4 *)
  checksum : N;              (* uint32_t, offset 8 *)
  wifi : WiFiCredentials;    (* offset 12, 97 bytes *)
  network : NetworkConfig;   (* offset 112, 24 bytes *)
  device : DeviceConfig;     (* offset 136, 36 bytes *)
  reserved : list byte;      (* uint8_t reserved[64], offset 172 *)
  padding : Padding
}.

Definition sizeof_StorageData : nat := 236.
Definition sizeof_checksum : nat := 4.

(** [StorageData::StorageData()], in memory whose padding holds [p]. *)
Definition StorageData_new (p : Padding) : StorageData :=
  {| magic := STORAGE_MAGIC;
     version := STORAGE_VERSION;
     checksum := 0;
     wifi := WiFiCredentials_new;
     network := NetworkConfig_new;
     device := DeviceConfig_new;
     reserved := memset x00 64;
     padding := p |}.

(** Member updates. *)
Definition set_checksum (c : N) (d : StorageData) : StorageData :=
  {| magic := magic d; version := version d; checksum := c; wifi := wifi d;
     network := network d; device := device d; reserved := reserved d;
     padding := padding d |}.

Definition set_wifi (w : WiFiCredentials) (d : StorageData) : StorageData :=
  {| magic := magic d; version := version d; checksum := checksum d; wifi := w;
     network := network d; device := device d; reserved := reserved d;
     padding := padding d |}.

(** [network = n]: the assignment copies the 24 bytes of the object
    assigned; [pad] is what the three padding bytes of that object hold. *)
Definition set_network (n : NetworkConfig) (pad : list byte) (d : StorageData)
  : StorageData :=
  {| magic := magic d; version := version d; checksum := checksum d; wifi := wifi d;
     network := n; device := device d; reserved := reserved d;
     padding := {| pad_version := pad_version (padding d);
                   pad_wifi := pad_wifi (padding d);
                   pad_network := pad |} |}.

Definition set_device (x : DeviceConfig) (d : StorageData) : StorageData :=
  {| magic := magic d; version := version d; checksum := checksum d; wifi := wifi d;
     network := network d; device := x; reserved := reserved d;
     padding := padding d |}.

(** *** The object as the bytes a [const uint8_t] pointer to it reads *)

Definition WiFiCredentials_bytes (w : WiFiCredentials) : list byte :=
  ssid w ++ password w ++ [valid w].

Definition NetworkConfig_bytes (pad : list byte) (n : NetworkConfig) : list byte :=
  [useStaticIP n] ++ pad ++ le32 (staticIP n) ++ le32 (gateway n)
    ++ le32 (subnet n) ++ le32 (primaryDNS n) ++ le32 (secondaryDNS n).

Definition DeviceConfig_bytes (x : DeviceConfig) : list byte :=
  hostname x ++ [autoReconnect x; uint8 (maxReconnectAttempts x)]
    ++ le16 (connectTimeout x).

Definition to_bytes (d : StorageData) : list byte :=
  le32 (magic d) ++ [uint8 (version d)] ++ pad_version (padding d)
    ++ le32 (checksum d)
    ++ WiFiCredentials_bytes (wifi d) ++ pad_wifi (padding d)
    ++ NetworkConfig_bytes (pad_network (padding d)) (network d)
    ++ DeviceConfig_bytes (device d)
    ++ reserved d.

(** The object a byte-wise copy of [m] into a [StorageData] yields. *)
Definition of_bytes (m : list byte) : StorageData :=
  {| magic := le_decode (slice 0 4 m);
     version := Byte.to_N (byte_at 4 m);
     checksum := le_decode (slice 8 4 m);
     wifi := {| ssid := slice 12 32 m;
                password := slice 44 64 m;
                valid := byte_at 108 m |};
     network := {| useStaticIP := byte_at 112 m;
                   staticIP := le_decode (slice 116 4 m);
                   gateway := le_decode (slice 120 4 m);
                   subnet := le_decode (slice 124 4 m);
                   primaryDNS := le_decode (slice 128 4 m);
                   secondaryDNS := le_decode (slice 132 4 m) |};
     device := {| hostname := slice 136 32 m;
                  autoReconnect := byte_at 168 m;
                  maxReconnectAttempts := Byte.to_N (byte_at 169 m);
                  connectTimeout := le_decode (slice 170 2 m) |};
     reserved := slice 172 64 m;
     padding := {| pad_version := slice 5 3 m;
                   pad_wifi := slice 109 3 m;
                   pad_network := slice 113 3 m |} |}.

(** *** The EEPROM emulation of the Arduino core

    The [EEPROM] object is the Arduino-Pico core's, not the repository's.
    [cells] is the emulated EEPROM, [size] what [EEPROM.begin] was given
    (0 before).  [get] and [put] copy [sizeof(T)] bytes, are bounds-checked
    against [size] and do nothing out of range; an erased cell reads 0xFF.
    The code commits after every [put], so the cells stand for the flash
    contents too. *)

Record EEPROMClass := {
  size : nat;
  cells : list byte
}.

Definition EEPROM_START_ADDRESS : nat := 0.

Definition EEPROM_begin (n : nat) (e : EEPROMClass) : EEPROMClass :=
  {| size := n; cells := firstn n (cells e ++ repeat xff n) |}.

(** [EEPROM.get(address, t)]: [None] when out of range ([t] is left as it was). *)
Definition EEPROM_get (address : nat) (e : EEPROMClass) : option (list byte) :=
  if address + sizeof_StorageData <=? size e
  then Some (slice address sizeof_StorageData (cells e))
  else None.

(** [EEPROM.put(address, t); EEPROM.commit();] with [t] the bytes [img]. *)
Definition EEPROM_put (address : nat) (img : list byte) (e : EEPROMClass) : EEPROMClass :=
  if address + sizeof_StorageData <=? size e
  then {| size := size e;
          cells := firstn address (cells e) ++ img
                     ++ skipn (address + sizeof_StorageData) (cells e) |}
  else e.

(** *** The manager *)

Record StorageManager := {
  _initialized : bool;
  _eepromSize : nat;
  _data : StorageData;
  EEPROM : EEPROMClass       (* the global [EEPROM] object *)
}.

Definition set_data (d : StorageData) (s : StorageManager) : StorageManager :=
  {| _initialized := _initialized s; _eepromSize := _eepromSize s;
     _data := d; EEPROM := EEPROM s |}.

(** [StorageManager::StorageManager()], in memory whose padding holds [p],
    with the EEPROM object [e]. *)
Definition StorageManager_new (p : Padding) (e : EEPROMClass) : StorageManager :=
  {| _initialized := false; _eepromSize := 512;
     _data := StorageData_new p; EEPROM := e |}.

Definition xor_byte (checksum : N) (b : byte) : N := N.lxor checksum (Byte.to_N b).

Definition calculateChecksum (data : StorageData) : N :=
  let ptr := to_bytes data in
  let size := sizeof_StorageData - sizeof_checksum in
  fold_left xor_byte (firstn size ptr) 0%N.

Definition isValidSSID (ssid : list byte) : bool :=
  let len := strlen ssid in
  if (len =? 0) || (31 <? len) then false
  else forallb (fun c => negb ((Byte.to_N c <? 32)%N || (126 <? Byte.to_N c)%N))
               (firstn len ssid).

Definition isValidPassword (password : option (list byte)) : bool :=
  match password with
  | None => true
  | Some p => negb (63 <? strlen p)
  end.

Definition validateData (data : StorageData) : bool :=
  if negb (magic data =? STORAGE_MAGIC)%N then false
  else if negb (version data =? STORAGE_VERSION)%N then false
  else
    let expectedChecksum := calculateChecksum data in
    if negb (checksum data =? expectedChecksum)%N then false
    else if truthy (valid (wifi data))
         then (if negb (isValidSSID (ssid (wifi data))) then false else true)
         else true.

(** [initializeDefaults]: [_data = StorageData()] copies a temporary,
    padding included; [tmp] is what the padding of the temporary holds. *)
Definition initializeDefaults (tmp : Padding) (s : StorageManager) : StorageManager :=
  let d := StorageData_new tmp in
  set_data (set_checksum 0 d) s.

Definition loadFromEEPROM (s : StorageManager) : bool * StorageManager :=
  let s' := match EEPROM_get EEPROM_START_ADDRESS (EEPROM s) with
            | Some m => set_data (of_bytes m) s
            | None => s
            end in
  (validateData (_data s'), s').

Definition saveToEEPROM (s : StorageManager) : bool * StorageManager :=
  let d := set_checksum (calculateChecksum (_data s)) (_data s) in
  (true,
   {| _initialized := _initialized s; _eepromSize := _eepromSize s;
      _data := d;
      EEPROM := EEPROM_put EEPROM_START_ADDRESS (to_bytes d) (EEPROM s) |}).

(** [begin]; [tmp] is the padding of the temporary of
    [initializeDefaults]. *)
Definition begin (eepromSize : nat) (tmp : Padding) (s : StorageManager)
  : bool * StorageManager :=
  let s1 := {| _initialized := _initialized s; _eepromSize := eepromSize;
               _data := _data s;
               EEPROM := EEPROM_begin eepromSize (EEPROM s) |} in
  let (loaded, s2) := loadFromEEPROM s1 in
  let s3 := if negb loaded
            then snd (saveToEEPROM (initializeDefaults tmp s2))
            else s2 in
  (true,
   {| _initialized := true; _eepromSize := _eepromSize s3;
      _data := _data s3; EEPROM := EEPROM s3 |}).

Definition format (tmp : Padding) (s : StorageManager) : StorageManager :=
  snd (saveToEEPROM (initializeDefaults tmp s)).

Definition saveWiFiCredentials (ssid password : option (list byte))
           (s : StorageManager) : bool * StorageManager :=
  if negb (_initialized s) then (false, s)
  else
    match ssid with
    | None => (false, s)
    | Some ssid_chars =>
      let w := {| ssid := bounded_copy ssid_chars MAX_SSID_LENGTH;
                  password :=
                    match password with
                    | Some pw => bounded_copy pw MAX_PASSWORD_LENGTH
                    | None => memset x00 MAX_PASSWORD_LENGTH
                    end;
                  valid := c_true |} in
      saveToEEPROM (set_data (set_wifi w (_data s)) s)
    end.

Definition loadWiFiCredentials (s : StorageManager) : bool * option WiFiCredentials :=
  if negb (_initialized s) then (false, None)
  else (truthy (valid (wifi (_data s))), Some (wifi (_data s))).

Definition hasWiFiCredentials (s : StorageManager) : bool :=
  _initialized s && truthy (valid (wifi (_data s))).

Definition clearWiFiCredentials (s : StorageManager) : StorageManager :=
  snd (saveToEEPROM (set_data (set_wifi (clear (wifi (_data s))) (_data s)) s)).

(** [saveNetworkConfig(config)]; [pad] is the padding of [config]. *)
Definition saveNetworkConfig (config : NetworkConfig) (pad : list byte)
           (s : StorageManager) : bool * StorageManager :=
  if negb (_initialized s) then (false, s)
  else saveToEEPROM (set_data (set_network config pad (_data s)) s).

(** [clearNetworkConfig]; [pad] is the padding of the temporary
    [NetworkConfig()]. *)
Definition clearNetworkConfig (pad : list byte) (s : StorageManager) : StorageManager :=
  snd (saveToEEPROM (set_data (set_network NetworkConfig_new pad (_data s)) s)).

Definition saveDeviceConfig (config : DeviceConfig) (s : StorageManager)
  : bool * StorageManager :=
  if negb (_initialized s) then (false, s)
  else saveToEEPROM (set_data (set_device config (_data s)) s).

Definition clearDeviceConfig (s : StorageManager) : StorageManager :=
  snd (saveToEEPROM (set_data (set_device DeviceConfig_new (_data s)) s)).

(** [saveAll(wifi, network, device)]; [pad] is the padding of [network]. *)
Definition saveAll (w : WiFiCredentials) (n : NetworkConfig) (pad : list byte)
           (x : DeviceConfig) (s : StorageManager) : bool * StorageManager :=
  if negb (_initialized s) then (false, s)
  else saveToEEPROM
         (set_data (set_device x (set_network n pad (set_wifi w (_data s)))) s).

(** [clearAll]; [pad] is the padding of the temporary [NetworkConfig()]. *)
Definition clearAll (pad : list byte) (s : StorageManager) : StorageManager :=
  let d1 := set_wifi (clear (wifi (_data s))) (_data s) in
  let d2 := set_network NetworkConfig_new pad d1 in
  let d3 := set_device DeviceConfig_new d2 in
  snd (saveToEEPROM (set_data d3 s)).

Definition isValid (s : StorageManager) : bool :=
  _initialized s && validateData (_data s).

Definition isCorrupted (s : StorageManager) : bool :=
  _initialized s && negb (validateData (_data s)).

Definition getChecksum (s : StorageManager) : N := checksum (_data s).

Definition performIntegrityCheck (s : StorageManager) : bool :=
  if negb (_initialized s) then false else validateData (_data s).

Definition repairIfNeeded (tmp : Padding) (s : StorageManager)
  : bool * StorageManager :=
  if negb (_initialized s) then (false, s)
  else if negb (validateData (_data s))
       then saveToEEPROM (initializeDefaults tmp s)
       else (true, s).

(** An erased EEPROM sector, before [EEPROM.begin]. *)
Definition erased : EEPROMClass := {| size := 0; cells := [] |}.

(** The load operations: the reference argument is assigned only past the
    guard, [None] stands for an argument left as it was. *)
Definition loadNetworkConfig (s : StorageManager) : bool * option NetworkConfig :=
  if negb (_initialized s) then (false, None)
  else (true, Some (network (_data s))).

Definition loadDeviceConfig (s : StorageManager) : bool * option DeviceConfig :=
  if negb (_initialized s) then (false, None)
  else (true, Some (device (_data s))).

Definition loadAll (s : StorageManager)
  : bool * option (WiFiCredentials * NetworkConfig * DeviceConfig) :=
  if negb (_initialized s) then (false, None)
  else (true, Some (wifi (_data s), network (_data s), device (_data s))).

Definition getUsedSpace (_ : StorageManager) : nat := sizeof_StorageData.

Definition getTotalSpace (s : StorageManager) : nat := _eepromSize s.

Definition isValidHostname (hostname : option (list byte)) : bool :=
  match hostname with
  | None => false
  | Some h =>
    let len := strlen h in
    if (len =? 0) || (31 <? len) then false else true
  end.

Definition isValidIP (ip : N) : bool := negb (ip =? 0)%N.

End Storage.

(* ===================================================================== *)
(** ** PicoWiFiManager *)

Module Manager.
Import Bytes CString.

Inductive ConnectionStatus :=
| DISCONNECTED | CONNECTING | CONNECTED | CONFIG_MODE | ERROR.

Definition status_eqb (a b : ConnectionStatus) : bool :=
  match a, b with
  | DISCONNECTED, DISCONNECTED | CONNECTING, CONNECTING
  | CONNECTED, CONNECTED | CONFIG_MODE, CONFIG_MODE | ERROR, ERROR => true
  | _, _ => false
  end.

Record PicoWiFiConfig := {
  deviceName : list byte;        (* char deviceName[32] *)
  apPassword : list byte;        (* char apPassword[64] *)
  connectTimeout : N;            (* uint16_t, seconds *)
  maxReconnectAttempts : N;      (* uint8_t *)
  autoReconnect : bool;
  resetPin : N                   (* uint8_t, 255 = no button *)
}.

(** "Pico2W", "picowifi123" *)
Definition PicoWiFiConfig_new : PicoWiFiConfig :=
  {| deviceName := [x50; x69; x63; x6f; x32; x57];
     apPassword := [x70; x69; x63; x6f; x77; x69; x66; x69; x31; x32; x33];
     connectTimeout := 30;
     maxReconnectAttempts := 3;
     autoReconnect := true;
     resetPin := 2 |}.

(** What the manager does to the world outside it, in order. *)
Inductive Event :=
| StatusChanged (status : ConnectionStatus)   (* _onStatusChange(status) *)
| ConfigModeStarted                           (* _onConfigStart() *)
| ConfigModeEnded                             (* _onConfigEnd() *)
| Connected                                   (* _onConnect() *)
| WiFi_disconnect
| WiFi_begin (ssid : list byte) (password : option (list byte))
| WiFi_softAP (ssid : list byte) (password : option (list byte))
| WiFi_softAPdisconnect
| Restart.                                    (* rp2040.restart() *)

(** The part of [ConfigPortal] the manager depends on. *)
Record ConfigPortal := {
  _active : bool
}.

Record PicoWiFiManager := {
  _config : PicoWiFiConfig;
  _status : ConnectionStatus;
  _portal : ConfigPortal;
  _storage : option Storage.StorageManager;   (* nullptr until begin() *)
  _isInitialized : bool;
  _configMode : bool;
  _lastReconnectAttempt : N;                  (* uint32_t *)
  _reconnectAttempts : N;                     (* uint8_t *)
  (* whether a callable is stored in the std::function *)
  _onConfigStart : bool;
  _onConfigEnd : bool;
  _onConnect : bool;
  _onStatusChange : bool;
  (* the statics of checkResetButton *)
  pressStart : N;                             (* uint32_t *)
  pressed : bool;
  (* the effects so far, oldest first *)
  trace : list Event
}.

Definition PicoWiFiManager_new (config : PicoWiFiConfig) : PicoWiFiManager :=
  {| _config := config; _status := DISCONNECTED;
     _portal := {| _active := false |}; _storage := None;
     _isInitialized := false; _configMode := false;
     _lastReconnectAttempt := 0; _reconnectAttempts := 0;
     _onConfigStart := false; _onConfigEnd := false;
     _onConnect := false; _onStatusChange := false;
     pressStart := 0; pressed := false; trace := [] |}.

(** Member updates. *)
Definition emit (e : Event) (m : PicoWiFiManager) : PicoWiFiManager :=
  {| _config := _config m; _status := _status m; _portal := _portal m;
     _storage := _storage m; _isInitialized := _isInitialized m;
     _configMode := _configMode m;
     _lastReconnectAttempt := _lastReconnectAttempt m;
     _reconnectAttempts := _reconnectAttempts m;
     _onConfigStart := _onConfigStart m; _onConfigEnd := _onConfigEnd m;
     _onConnect := _onConnect m; _onStatusChange := _onStatusChange m;
     pressStart := pressStart m; pressed := pressed m;
     trace := trace m ++ [e] |}.

Definition set_status (st : ConnectionStatus) (m : PicoWiFiManager) : PicoWiFiManager :=
  {| _config := _config m; _status := st; _portal := _portal m;
     _storage := _storage m; _isInitialized := _isInitialized m;
     _configMode := _configMode m;
     _lastReconnectAttempt := _lastReconnectAttempt m;
     _reconnectAttempts := _reconnectAttempts m;
     _onConfigStart := _onConfigStart m; _onConfigEnd := _onConfigEnd m;
     _onConnect := _onConnect m; _onStatusChange := _onStatusChange m;
     pressStart := pressStart m; pressed := pressed m;
     trace := trace m |}.

Definition set_portal (p : ConfigPortal) (m : PicoWiFiManager) : PicoWiFiManager :=
  {| _config := _config m; _status := _status m; _portal := p;
     _storage := _storage m; _isInitialized := _isInitialized m;
     _configMode := _configMode m;
     _lastReconnectAttempt := _lastReconnectAttempt m;
     _reconnectAttempts := _reconnectAttempts m;
     _onConfigStart := _onConfigStart m; _onConfigEnd := _onConfigEnd m;
     _onConnect := _onConnect m; _onStatusChange := _onStatusChange m;
     pressStart := pressStart m; pressed := pressed m;
     trace := trace m |}.

Definition set_storage (s : option Storage.StorageManager) (m : PicoWiFiManager)
  : PicoWiFiManager :=
  {| _config := _config m; _status := _status m; _portal := _portal m;
     _storage := s; _isInitialized := _isInitialized m;
     _configMode := _configMode m;
     _lastReconnectAttempt := _lastReconnectAttempt m;
     _reconnectAttempts := _reconnectAttempts m;
     _onConfigStart := _onConfigStart m; _onConfigEnd := _onConfigEnd m;
     _onConnect := _onConnect m; _onStatusChange := _onStatusChange m;
     pressStart := pressStart m; pressed := pressed m;
     trace := trace m |}.

Definition set_isInitialized (b : bool) (m : PicoWiFiManager) : PicoWiFiManager :=
  {| _config := _config m; _status := _status m; _portal := _portal m;
     _storage := _storage m; _isInitialized := b;
     _configMode := _configMode m;
     _lastReconnectAttempt := _lastReconnectAttempt m;
     _reconnectAttempts := _reconnectAttempts m;
     _onConfigStart := _onConfigStart m; _onConfigEnd := _onConfigEnd m;
     _onConnect := _onConnect m; _onStatusChange := _onStatusChange m;
     pressStart := pressStart m; pressed := pressed m;
     trace := trace m |}.

Definition set_configMode (b : bool) (m : PicoWiFiManager) : PicoWiFiManager :=
  {| _config := _config m; _status := _status m; _portal := _portal m;
     _storage := _storage m; _isInitialized := _isInitialized m;
     _configMode := b;
     _lastReconnectAttempt := _lastReconnectAttempt m;
     _reconnectAttempts := _reconnectAttempts m;
     _onConfigStart := _onConfigStart m; _onConfigEnd := _onConfigEnd m;
     _onConnect := _onConnect m; _onStatusChange := _onStatusChange m;
     pressStart := pressStart m; pressed := pressed m;
     trace := trace m |}.

Definition set_reconnect (last attempts : N) (m : PicoWiFiManager) : PicoWiFiManager :=
  {| _config := _config m; _status := _status m; _portal := _portal m;
     _storage := _storage m; _isInitialized := _isInitialized m;
     _configMode := _configMode m;
     _lastReconnectAttempt := last;
     _reconnectAttempts := attempts;
     _onConfigStart := _onConfigStart m; _onConfigEnd := _onConfigEnd m;
     _onConnect := _onConnect m; _onStatusChange := _onStatusChange m;
     pressStart := pressStart m; pressed := pressed m;
     trace := trace m |}.

Definition set_button (start : N) (down : bool) (m : PicoWiFiManager) : PicoWiFiManager :=
  {| _config := _config m; _status := _status m; _portal := _portal m;
     _storage := _storage m; _isInitialized := _isInitialized m;
     _configMode := _configMode m;
     _lastReconnectAttempt := _lastReconnectAttempt m;
     _reconnectAttempts := _reconnectAttempts m;
     _onConfigStart := _onConfigStart m; _onConfigEnd := _onConfigEnd m;
     _onConnect := _onConnect m; _onStatusChange := _onStatusChange m;
     pressStart := start; pressed := down;
     trace := trace m |}.

(** [onStatusChange(callback)] and the like, with a non-empty callable. *)
Definition onStatusChange (m : PicoWiFiManager) : PicoWiFiManager :=
  {| _config := _config m; _status := _status m; _portal := _portal m;
     _storage := _storage m; _isInitialized := _isInitialized m;
     _configMode := _configMode m;
     _lastReconnectAttempt := _lastReconnectAttempt m;
     _reconnectAttempts := _reconnectAttempts m;
     _onConfigStart := _onConfigStart m; _onConfigEnd := _onConfigEnd m;
     _onConnect := _onConnect m; _onStatusChange := true;
     pressStart := pressStart m; pressed := pressed m;
     trace := trace m |}.

(** [uint32_t] arithmetic. *)
Definition two32 : N := 4294967296.
Definition sub32 (a b : N) : N := ((a mod two32) + two32 - (b mod two32)) mod two32.

(** A call that may end in [rp2040.restart()]. *)
Inductive Outcome :=
| Running (m : PicoWiFiManager)
| Restarted (m : PicoWiFiManager).

Definition state_of (o : Outcome) : PicoWiFiManager :=
  match o with Running m | Restarted m => m end.

Definition and_then (o : Outcome) (k : PicoWiFiManager -> Outcome) : Outcome :=
  match o with
  | Running m => k m
  | Restarted m => Restarted m
  end.

Definition setStatus (status : ConnectionStatus) (m : PicoWiFiManager) : PicoWiFiManager :=
  if negb (status_eqb (_status m) status) then
    let m1 := set_status status m in
    if _onStatusChange m1 then emit (StatusChanged status) m1 else m1
  else m.

(** A password argument as the radio calls take it:
    [password && strlen(password) > 0]. *)
Definition nonempty (password : option (list byte)) : option (list byte) :=
  match password with
  | Some p => if 0 <? strlen p then Some (c_str p) else None
  | None => None
  end.

(** [ConfigPortal::start]; [softAP] is what [WiFi.softAP] returns. *)
Definition portal_start (ssid : list byte) (password : option (list byte))
           (softAP : bool) (m : PicoWiFiManager) : bool * PicoWiFiManager :=
  let m1 := emit WiFi_disconnect m in
  let m2 := emit (WiFi_softAP (c_str ssid) (nonempty password)) m1 in
  if negb softAP then (false, m2)
  else (true, set_portal {| _active := true |} m2).

(** [ConfigPortal::stop] *)
Definition portal_stop (m : PicoWiFiManager) : PicoWiFiManager :=
  if _active (_portal m)
  then emit WiFi_softAPdisconnect (set_portal {| _active := false |} m)
  else m.

Definition startConfigPortal_as (ssid : list byte) (password : option (list byte))
           (softAP : bool) (m : PicoWiFiManager) : bool * PicoWiFiManager :=
  let m1 := if _onConfigStart m then emit ConfigModeStarted m else m in
  let m2 := set_configMode true m1 in
  let m3 := setStatus CONFIG_MODE m2 in
  let (started, m4) := portal_start ssid password softAP m3 in
  if started then (true, m4)
  else
    let m5 := set_configMode false m4 in
    (false, setStatus ERROR m5).

Definition startConfigPortal (softAP : bool) (m : PicoWiFiManager)
  : bool * PicoWiFiManager :=
  startConfigPortal_as (deviceName (_config m)) (Some (apPassword (_config m))) softAP m.

Definition stopConfigPortal (m : PicoWiFiManager) : PicoWiFiManager :=
  if negb (_configMode m) then m
  else
    let m1 := portal_stop m in
    let m2 := set_configMode false m1 in
    if _onConfigEnd m2 then emit ConfigModeEnded m2 else m2.

(** [joined]: whether [WiFi.status()] is [WL_CONNECTED] when the wait of
    at most [connectTimeout] seconds ends. *)
Definition connectWiFi (ssid password : option (list byte)) (joined : bool)
           (m : PicoWiFiManager) : bool * PicoWiFiManager :=
  match ssid with
  | None => (false, m)
  | Some s =>
    if strlen s =? 0 then (false, m)
    else
      let m1 := setStatus CONNECTING m in
      let m2 := emit WiFi_disconnect m1 in
      let m3 := emit (WiFi_begin (c_str s) (nonempty password)) m2 in
      if joined then
        let m4 := setStatus CONNECTED m3 in
        let m5 := set_reconnect (_lastReconnectAttempt m4) 0 m4 in
        (true, if _onConnect m5 then emit Connected m5 else m5)
      else (false, setStatus DISCONNECTED m3)
  end.

(** [reset]: does not return.  [pad] is the padding of the temporary of
    [clearAll]. *)
Definition reset (pad : list byte) (m : PicoWiFiManager) : Outcome :=
  let m1 := stopConfigPortal m in
  let m2 := emit WiFi_disconnect m1 in
  let m3 := match _storage m2 with
            | Some s => set_storage (Some (Storage.clearAll pad s)) m2
            | None => m2
            end in
  Restarted (emit Restart m3).

(** What one pass of [loop] reads from outside. *)
Inductive Request :=
| ConnectRequest (ssid password : list byte)  (* POST /connect *)
| ResetRequest.                               (* GET /reset *)

Record Tick := {
  http_request : option Request;  (* what the portal's web server serves *)
  portal_join_succeeds : bool;    (* the join a ConnectRequest starts *)
  portal_timed_out : bool;        (* _timeout > 0 && millis() - _startTime > _timeout *)
  pin_low : bool;                 (* digitalRead(resetPin) == LOW *)
  millis_button : N;              (* millis() in checkResetButton *)
  link_up : bool;                 (* WiFi.status() == WL_CONNECTED *)
  millis_reconnect : N;           (* millis() in handleReconnection *)
  join_succeeds : bool;           (* the join handleReconnection starts *)
  softAP_succeeds : bool;         (* WiFi.softAP(...) *)
  temporary : list byte           (* the padding of the temporary of clearAll *)
}.

Definition handleReconnection (t : Tick) (m : PicoWiFiManager) : PicoWiFiManager :=
  if link_up t || _configMode m then m
  else
    let now := millis_reconnect t in
    if (sub32 now (_lastReconnectAttempt m) <? 10000)%N then m
    else if (maxReconnectAttempts (_config m) <=? _reconnectAttempts m)%N then
      snd (startConfigPortal (softAP_succeeds t) m)
    else
      let m1 := set_reconnect (now mod two32)
                              ((_reconnectAttempts m + 1) mod 256)%N m in
      match _storage m1 with
      | Some s =>
        match Storage.loadWiFiCredentials s with
        | (true, Some credentials) =>
          if truthy (Storage.valid credentials)
          then snd (connectWiFi (Some (Storage.ssid credentials))
                                (Some (Storage.password credentials))
                                (join_succeeds t) m1)
          else m1
        | _ => m1
        end
      | None => m1
      end.

Definition checkResetButton (t : Tick) (m : PicoWiFiManager) : Outcome :=
  if (resetPin (_config m) =? 255)%N then Running m
  else
    let currentState := pin_low t in
    if currentState && negb (pressed m) then
      Running (set_button (millis_button t mod two32) true m)
    else if negb currentState && pressed m then
      let m1 := set_button (pressStart m) false m in
      let pressDuration := sub32 (millis_button t) (pressStart m1) in
      if (3000 <? pressDuration)%N then reset (temporary t) m1
      else if (100 <? pressDuration)%N then
        (if negb (_configMode m1)
         then Running (snd (startConfigPortal (softAP_succeeds t) m1))
         else Running m1)
      else Running m1
    else Running m.

(** The callback [begin] gives the portal for a connect request. *)
Definition portal_onConnect (ssid password : list byte) (joined : bool)
           (m : PicoWiFiManager) : PicoWiFiManager :=
  let (connected, m1) := connectWiFi (Some ssid) (Some password) joined m in
  if connected then
    let m2 := match _storage m1 with
              | Some s =>
                set_storage
                  (Some (snd (Storage.saveWiFiCredentials (Some ssid) (Some password) s)))
                  m1
              | None => m1
              end in
    setStatus CONNECTED (stopConfigPortal m2)
  else m1.

(** [ConfigPortal::handle]: serve a request, then check the timeout. *)
Definition portal_handle (t : Tick) (m : PicoWiFiManager) : Outcome :=
  if _active (_portal m) then
    and_then
      (match http_request t with
       | Some (ConnectRequest ssid password) =>
         if length (c_str ssid) =? 0 then Running m
         else Running (portal_onConnect ssid password (portal_join_succeeds t) m)
       | Some ResetRequest => reset (temporary t) m
       | None => Running m
       end)
      (fun m1 => Running (if portal_timed_out t then portal_stop m1 else m1))
  else Running m.

(** [loop].  The manager never creates its own [_server]; [updateLED] and
    [yield] touch the LED pin and the scheduler only. *)
Definition loop (t : Tick) (m : PicoWiFiManager) : Outcome :=
  if negb (_isInitialized m) then Running m
  else
    and_then (portal_handle t m) (fun m1 =>
    and_then (checkResetButton t m1) (fun m2 =>
    Running (if negb (_configMode m2) && autoReconnect (_config m2)
             then handleReconnection t m2
             else m2))).

(** The loop over the ticks [ts], until a restart. *)
Fixpoint run (ts : list Tick) (m : PicoWiFiManager) : Outcome :=
  match ts with
  | [] => Running m
  | t :: ts' => and_then (loop t m) (run ts')
  end.

(** [begin], with the storage object [new StorageManager()] yields and
    the padding [tmp] of the temporary of [StorageManager::begin]. *)
Definition begin (tmp : Storage.Padding) (fresh : Storage.StorageManager)
           (m : PicoWiFiManager) : bool * PicoWiFiManager :=
  if _isInitialized m then (true, m)
  else
    let (ok, s) := Storage.begin 512 tmp fresh in
    let m1 := set_storage (Some s) m in
    if negb ok then (false, m1)
    else
      let m2 := setStatus DISCONNECTED m1 in
      (true, set_isInitialized true m2).

(** [autoConnect(ssid, password)] *)
Definition autoConnect_to (ssid password : option (list byte))
           (tmp : Storage.Padding) (fresh : Storage.StorageManager)
           (joined softAP : bool) (m : PicoWiFiManager) : bool * PicoWiFiManager :=
  let (ok, m1) := if negb (_isInitialized m) then begin tmp fresh m else (true, m) in
  if negb ok then (false, m1)
  else
    let (connected, m2) := connectWiFi ssid password joined m1 in
    if connected then (true, m2)
    else startConfigPortal softAP m2.

(** [autoConnect()] *)
Definition autoConnect (tmp : Storage.Padding) (fresh : Storage.StorageManager)
           (joined softAP : bool) (m : PicoWiFiManager) : bool * PicoWiFiManager :=
  let (ok, m1) := if negb (_isInitialized m) then begin tmp fresh m else (true, m) in
  if negb ok then (false, m1)
  else
    match _storage m1 with
    | Some s =>
      match Storage.loadWiFiCredentials s with
      | (true, Some credentials) =>
        if truthy (Storage.valid credentials)
        then autoConnect_to (Some (Storage.ssid credentials))
                            (Some (Storage.password credentials))
                            tmp fresh joined softAP m1
        else startConfigPortal softAP m1
      | _ => startConfigPortal softAP m1
      end
    | None => startConfigPortal softAP m1
    end.

(** Counting effects in a trace. *)
Definition is_join (e : Event) : bool :=
  match e with WiFi_begin _ _ => true | _ => false end.

Definition is_portal_start (e : Event) : bool :=
  match e with WiFi_softAP _ _ => true | _ => false end.

Definition is_status (st : ConnectionStatus) (e : Event) : bool :=
  match e with StatusChanged st' => status_eqb st st' | _ => false end.

Definition is_notification (e : Event) : bool :=
  match e with StatusChanged _ => true | _ => false end.

Definition count (p : Event -> bool) (tr : list Event) : nat :=
  length (filter p tr).

(** The callback setters, with a non-empty callable. *)
Definition onConfigModeStart (m : PicoWiFiManager) : PicoWiFiManager :=
  {| _config := _config m; _status := _status m; _portal := _portal m;
     _storage := _storage m; _isInitialized := _isInitialized m;
     _configMode := _configMode m;
     _lastReconnectAttempt := _lastReconnectAttempt m;
     _reconnectAttempts := _reconnectAttempts m;
     _onConfigStart := true; _onConfigEnd := _onConfigEnd m;
     _onConnect := _onConnect m; _onStatusChange := _onStatusChange m;
     pressStart := pressStart m; pressed := pressed m;
     trace := trace m |}.

Definition onConfigModeEnd (m : PicoWiFiManager) : PicoWiFiManager :=
  {| _config := _config m; _status := _status m; _portal := _portal m;
     _storage := _storage m; _isInitialized := _isInitialized m;
     _configMode := _configMode m;
     _lastReconnectAttempt := _lastReconnectAttempt m;
     _reconnectAttempts := _reconnectAttempts m;
     _onConfigStart := _onConfigStart m; _onConfigEnd := true;
     _onConnect := _onConnect m; _onStatusChange := _onStatusChange m;
     pressStart := pressStart m; pressed := pressed m;
     trace := trace m |}.

Definition onConnect (m : PicoWiFiManager) : PicoWiFiManager :=
  {| _config := _config m; _status := _status m; _portal := _portal m;
     _storage := _storage m; _isInitialized := _isInitialized m;
     _configMode := _configMode m;
     _lastReconnectAttempt := _lastReconnectAttempt m;
     _reconnectAttempts := _reconnectAttempts m;
     _onConfigStart := _onConfigStart m; _onConfigEnd := _onConfigEnd m;
     _onConnect := true; _onStatusChange := _onStatusChange m;
     pressStart := pressStart m; pressed := pressed m;
     trace := trace m |}.

Definition set_config (c : PicoWiFiConfig) (m : PicoWiFiManager) : PicoWiFiManager :=
  {| _config := c; _status := _status m; _portal := _portal m;
     _storage := _storage m; _isInitialized := _isInitialized m;
     _configMode := _configMode m;
     _lastReconnectAttempt := _lastReconnectAttempt m;
     _reconnectAttempts := _reconnectAttempts m;
     _onConfigStart := _onConfigStart m; _onConfigEnd := _onConfigEnd m;
     _onConnect := _onConnect m; _onStatusChange := _onStatusChange m;
     pressStart := pressStart m; pressed := pressed m;
     trace := trace m |}.

Definition setConfig (config : PicoWiFiConfig) (m : PicoWiFiManager) : PicoWiFiManager :=
  set_config config m.


Definition getStatus (m : PicoWiFiManager) : ConnectionStatus := _status m.

Definition isConfigMode (m : PicoWiFiManager) : bool := _configMode m.

(** [isConnected]; [link] is whether [WiFi.status()] is [WL_CONNECTED]. *)
Definition isConnected (link : bool) (m : PicoWiFiManager) : bool :=
  status_eqb (_status m) CONNECTED && link.

End Manager.

(* ===================================================================== *)
(** ** The status LED *)

Module LED.
Import Manager.

(** The members [updateLED] reads and writes. *)
Record Lamp := {
  ledPin : N;              (* _config.ledPin, 255 = no LED *)
  _lastLEDUpdate : N;      (* unsigned long, 32 bits *)
  _ledState : bool
}.

(** [digitalWrite(pin, level)]; [true] is HIGH. *)
Record Write := {
  pin : N;
  level : bool
}.

(** The end of [updateLED], past the [switch]. *)
Definition blink (interval now : N) (l : Lamp) : Lamp * list Write :=
  if (interval <=? sub32 now (_lastLEDUpdate l))%N then
    let state := negb (_ledState l) in
    ({| ledPin := ledPin l; _lastLEDUpdate := (now mod two32)%N;
        _ledState := state |},
     [{| pin := ledPin l; level := state |}])
  else (l, []).

(** [updateLED], with what [millis()] returns. *)
Definition updateLED (status : ConnectionStatus) (now : N) (l : Lamp)
  : Lamp * list Write :=
  if (ledPin l =? 255)%N then (l, [])
  else
    match status with
    | CONNECTED => (l, [{| pin := ledPin l; level := true |}])
    | CONNECTING => blink 200 now l
    | CONFIG_MODE => blink 100 now l
    | ERROR => blink 1000 now l
    | DISCONNECTED => (l, [{| pin := ledPin l; level := false |}])
    end.

End LED.

(* ===================================================================== *)
(** ** ConfigPortal: the life of the portal *)

Module Portal.
Import Bytes CString Manager.

(** The members that decide whether the portal is up.  The pages the
    portal serves while it is up are in [Manager.portal_handle]. *)
Record ConfigPortal := {
  _server : bool;          (* whether the pointer is set *)
  _dnsServer : bool;
  _active : bool;
  _timeout : N;            (* uint32_t, milliseconds *)
  _startTime : N           (* uint32_t *)
}.

Definition ConfigPortal_new : ConfigPortal :=
  {| _server := false; _dnsServer := false; _active := false;
     _timeout := 300000; _startTime := 0 |}.

(** [start]; [softAP] is what [WiFi.softAP] returns, [now] what [millis()]
    returns once the servers are up. *)
Definition start (ssid : list byte) (password : option (list byte))
           (softAP : bool) (now : N) (p : ConfigPortal)
  : bool * ConfigPortal * list Event :=
  let radio := [WiFi_disconnect; WiFi_softAP (c_str ssid) (nonempty password)] in
  if negb softAP then (false, p, radio)
  else
    (true,
     {| _server := true; _dnsServer := true; _active := true;
        _timeout := _timeout p; _startTime := (now mod two32)%N |},
     radio).

Definition stop (p : ConfigPortal) : ConfigPortal * list Event :=
  if _active p then
    ({| _server := _server p; _dnsServer := _dnsServer p; _active := false;
        _timeout := _timeout p; _startTime := _startTime p |},
     [WiFi_softAPdisconnect])
  else (p, []).

(** The test at the end of [handle]. *)
Definition expired (now : N) (p : ConfigPortal) : bool :=
  (0 <? _timeout p)%N && (_timeout p <? sub32 now (_startTime p))%N.

(** [handle] on a pass in which the web server has no request to serve;
    [now] is what [millis()] returns. *)
Definition handle (now : N) (p : ConfigPortal) : ConfigPortal * list Event :=
  if _active p && _server p then
    if expired now p then stop p else (p, [])
  else (p, []).

Definition setTimeout (seconds : N) (p : ConfigPortal) : ConfigPortal :=
  {| _server := _server p; _dnsServer := _dnsServer p; _active := _active p;
     _timeout := ((seconds * 1000) mod two32)%N; _startTime := _startTime p |}.

Definition isActive (p : ConfigPortal) : bool := _active p.

End Portal.

(* ===================================================================== *)
(** ** NetworkScanner *)

Module Scan.
Import Bytes.

Definition text (s : String.string) : list byte := String.list_byte_of_string s.

(** [wl_enc_type], by the names the code uses; [ENC_TYPE_other] is any
    value that is none of these. *)
Inductive wl_enc_type :=
| ENC_TYPE_NONE | ENC_TYPE_WEP | ENC_TYPE_TKIP | ENC_TYPE_CCMP | ENC_TYPE_AUTO
| ENC_TYPE_other (code : N).

Record ScannedNetwork := {
  ssid : list byte;          (* String *)
  rssi : Z;                  (* int32_t *)
  channel : N;               (* uint8_t *)
  encType : wl_enc_type;     (* uint8_t *)
  bssid : list byte;         (* String *)
  hidden : bool
}.

Definition ScannedNetwork_new : ScannedNetwork :=
  {| ssid := []; rssi := -100; channel := 0; encType := ENC_TYPE_NONE;
     bssid := []; hidden := false |}.

Definition getSecurityString (n : ScannedNetwork) : list byte :=
  match encType n with
  | ENC_TYPE_NONE => text "Open"%string
  | ENC_TYPE_WEP => text "WEP"%string
  | ENC_TYPE_TKIP => text "WPA"%string
  | ENC_TYPE_CCMP => text "WPA2"%string
  | ENC_TYPE_AUTO => text "WPA/WPA2"%string
  | ENC_TYPE_other _ => text "Secured"%string
  end.

Definition isSecure (n : ScannedNetwork) : bool :=
  match encType n with
  | ENC_TYPE_NONE => false
  | _ => true
  end.

Definition getSignalQuality (n : ScannedNetwork) : Z :=
  if (rssi n <=? -100)%Z then 0%Z
  else if (-50 <=? rssi n)%Z then 100%Z
  else (2 * (rssi n + 100))%Z.

Record ScanConfig := {
  showHidden : bool;
  removeDuplicates : bool;
  minSignalQuality : Z;      (* int8_t *)
  maxResults : nat;          (* uint8_t *)
  cacheTimeout : N;          (* uint32_t, milliseconds *)
  sortBySignal : bool;
  async : bool;
  channelStart : N;
  channelEnd : N
}.

Definition ScanConfig_new : ScanConfig :=
  {| showHidden := false; removeDuplicates := true; minSignalQuality := 10;
     maxResults := 20; cacheTimeout := 30000; sortBySignal := true;
     async := true; channelStart := 0; channelEnd := 0 |}.

End Scan.

Module Scanner.
Import Bytes Scan.

(** The callbacks the scanner invokes. *)
Inductive Notice :=
| ScanComplete (networkCount : nat)     (* _onScanComplete(count) *)
| ScanError (error : list byte).        (* _onScanError(error) *)

Record NetworkScanner := {
  _config : ScanConfig;
  _networks : list ScannedNetwork;
  _lastScanTime : N;                    (* uint32_t *)
  _scanInProgress : bool;
  _asyncScanStarted : bool;
  _lastError : list byte;
  (* whether a callable is stored in the std::function *)
  _onScanComplete : bool;
  _onScanError : bool;
  (* the callbacks invoked so far, oldest first *)
  notices : list Notice
}.

Definition NetworkScanner_new : NetworkScanner :=
  {| _config := ScanConfig_new; _networks := []; _lastScanTime := 0;
     _scanInProgress := false; _asyncScanStarted := false; _lastError := [];
     _onScanComplete := false; _onScanError := false; notices := [] |}.

(** What the radio and the clock give one scan. *)
Record Air := {
  networkCount : Z;                        (* WiFi.scanNetworks(showHidden) *)
  WiFi_SSID : nat -> list byte;            (* WiFi.SSID(i) *)
  WiFi_RSSI : nat -> Z;                    (* WiFi.RSSI(i) *)
  WiFi_channel : nat -> N;                 (* WiFi.channel(i) *)
  WiFi_encryptionType : nat -> wl_enc_type;
  WiFi_BSSID : list byte;                  (* WiFi.BSSID(bssid): six bytes *)
  millis : N                               (* millis() when the scan is over *)
}.

(** Member updates. *)
Definition set_config (c : ScanConfig) (sc : NetworkScanner) : NetworkScanner :=
  {| _config := c; _networks := _networks sc; _lastScanTime := _lastScanTime sc;
     _scanInProgress := _scanInProgress sc;
     _asyncScanStarted := _asyncScanStarted sc; _lastError := _lastError sc;
     _onScanComplete := _onScanComplete sc; _onScanError := _onScanError sc;
     notices := notices sc |}.

Definition set_scanInProgress (b : bool) (sc : NetworkScanner) : NetworkScanner :=
  {| _config := _config sc; _networks := _networks sc;
     _lastScanTime := _lastScanTime sc; _scanInProgress := b;
     _asyncScanStarted := _asyncScanStarted sc; _lastError := _lastError sc;
     _onScanComplete := _onScanComplete sc; _onScanError := _onScanError sc;
     notices := notices sc |}.

Definition set_lastError (e : list byte) (sc : NetworkScanner) : NetworkScanner :=
  {| _config := _config sc; _networks := _networks sc;
     _lastScanTime := _lastScanTime sc; _scanInProgress := _scanInProgress sc;
     _asyncScanStarted := _asyncScanStarted sc; _lastError := e;
     _onScanComplete := _onScanComplete sc; _onScanError := _onScanError sc;
     notices := notices sc |}.

Definition set_networks (l : list ScannedNetwork) (time : N) (sc : NetworkScanner)
  : NetworkScanner :=
  {| _config := _config sc; _networks := l; _lastScanTime := time;
     _scanInProgress := _scanInProgress sc;
     _asyncScanStarted := _asyncScanStarted sc; _lastError := _lastError sc;
     _onScanComplete := _onScanComplete sc; _onScanError := _onScanError sc;
     notices := notices sc |}.

Definition notify (n : Notice) (sc : NetworkScanner) : NetworkScanner :=
  {| _config := _config sc; _networks := _networks sc;
     _lastScanTime := _lastScanTime sc; _scanInProgress := _scanInProgress sc;
     _asyncScanStarted := _asyncScanStarted sc; _lastError := _lastError sc;
     _onScanComplete := _onScanComplete sc; _onScanError := _onScanError sc;
     notices := notices sc ++ [n] |}.

(** [onScanComplete(callback)], [onScanError(callback)], with a non-empty
    callable. *)
Definition onScanComplete (sc : NetworkScanner) : NetworkScanner :=
  {| _config := _config sc; _networks := _networks sc;
     _lastScanTime := _lastScanTime sc; _scanInProgress := _scanInProgress sc;
     _asyncScanStarted := _asyncScanStarted sc; _lastError := _lastError sc;
     _onScanComplete := true; _onScanError := _onScanError sc;
     notices := notices sc |}.

Definition onScanError (sc : NetworkScanner) : NetworkScanner :=
  {| _config := _config sc; _networks := _networks sc;
     _lastScanTime := _lastScanTime sc; _scanInProgress := _scanInProgress sc;
     _asyncScanStarted := _asyncScanStarted sc; _lastError := _lastError sc;
     _onScanComplete := _onScanComplete sc; _onScanError := true;
     notices := notices sc |}.

(** *** The [String] operations the code calls *)

(** [a.equals(b)] *)
Fixpoint equals (a b : list byte) : bool :=
  match a, b with
  | [], [] => true
  | x :: a', y :: b' => Byte.eqb x y && equals a' b'
  | _, _ => false
  end.

(** [a < b]: the order of [strcmp], on unsigned characters. *)
Fixpoint less (a b : list byte) : bool :=
  match a, b with
  | _, [] => false
  | [], _ :: _ => true
  | x :: a', y :: b' =>
    if (Byte.to_N x <? Byte.to_N y)%N then true
    else if (Byte.to_N y <? Byte.to_N x)%N then false
    else less a' b'
  end.

Definition toUpperCase (s : list byte) : list byte :=
  map (fun c => if (97 <=? Byte.to_N c)%N && (Byte.to_N c <=? 122)%N
                then uint8 (Byte.to_N c - 32)
                else c) s.

(** A hexadecimal digit in lower case. *)
Definition hex_digit (d : N) : byte :=
  if (d <? 10)%N then uint8 (48 + d) else uint8 (87 + d).

(** [String(b, HEX)] for a [uint8_t]. *)
Definition String_HEX (b : byte) : list byte :=
  let n := Byte.to_N b in
  if (n <? 16)%N then [hex_digit n]
  else [hex_digit (n / 16); hex_digit (n mod 16)].

(** What one turn of the loop over [bssid] appends. *)
Definition octet (j : nat) (b : byte) : list byte :=
  (if 0 <? j then [x3a] else [])
    ++ (if (Byte.to_N b <? 16)%N then [x30] else [])
    ++ String_HEX b.

Definition bssid_string (bssid : list byte) : list byte :=
  toUpperCase (flat_map (fun j => octet j (nth j bssid x00)) (seq 0 6)).

(** *** The scanner *)

Definition setConfig (config : ScanConfig) (sc : NetworkScanner) : NetworkScanner :=
  set_config config sc.

Definition validateSSID (ssid : list byte) : bool :=
  if (length ssid =? 0) || (32 <? length ssid) then false
  else forallb (fun c => negb ((Byte.to_N c <? 32)%N || (126 <? Byte.to_N c)%N))
               ssid.

Definition shouldIncludeNetwork (sc : NetworkScanner) (network : ScannedNetwork)
  : bool :=
  if hidden network && negb (showHidden (_config sc)) then false
  else if (getSignalQuality network <? minSignalQuality (_config sc))%Z then false
  else if negb (validateSSID (ssid network)) then false
  else true.

Definition filterResults (sc : NetworkScanner) (networks : list ScannedNetwork)
  : list ScannedNetwork :=
  filter (shouldIncludeNetwork sc) networks.

(** [std::unique]: of each run of consecutive elements the predicate
    holds equal, the first. *)
Fixpoint unique_after {A} (same : A -> A -> bool) (kept : A) (l : list A) : list A :=
  match l with
  | [] => []
  | x :: l' =>
    if same kept x then unique_after same kept l'
    else x :: unique_after same x l'
  end.

Definition unique {A} (same : A -> A -> bool) (l : list A) : list A :=
  match l with
  | [] => []
  | x :: l' => x :: unique_after same x l'
  end.

Definition removeDuplicates (sc : NetworkScanner) (networks : list ScannedNetwork)
  : list ScannedNetwork :=
  if negb (Scan.removeDuplicates (_config sc)) then networks
  else unique (fun a b => equals (ssid a) (ssid b)) networks.

Definition compareBySignal (a b : ScannedNetwork) : bool := (rssi b <? rssi a)%Z.

Definition compareBySSID (a b : ScannedNetwork) : bool := less (ssid a) (ssid b).

Definition isScanComplete (sc : NetworkScanner) : bool := negb (_scanInProgress sc).

Definition isScanInProgress (sc : NetworkScanner) : bool := _scanInProgress sc.

Definition getNetworkCount (sc : NetworkScanner) : Z :=
  Z.of_nat (length (_networks sc)).

Definition getNetwork (index : Z) (sc : NetworkScanner) : ScannedNetwork :=
  if (0 <=? index)%Z && (index <? Z.of_nat (length (_networks sc)))%Z
  then nth (Z.to_nat index) (_networks sc) ScannedNetwork_new
  else ScannedNetwork_new.

(** [findNetwork]: [None] stands for a reference argument left as it was. *)
Fixpoint find_first (ssid : list byte) (networks : list ScannedNetwork)
  : bool * option ScannedNetwork :=
  match networks with
  | [] => (false, None)
  | net :: rest =>
    if equals (Scan.ssid net) ssid then (true, Some net)
    else find_first ssid rest
  end.

Definition findNetwork (ssid : list byte) (sc : NetworkScanner)
  : bool * option ScannedNetwork :=
  find_first ssid (_networks sc).

Definition isNetworkVisible (ssid : list byte) (sc : NetworkScanner) : bool :=
  fst (findNetwork ssid sc).

Definition getNetworkRSSI (ssid : list byte) (sc : NetworkScanner) : Z :=
  match findNetwork ssid sc with
  | (true, Some network) => rssi network
  | _ => (-100)%Z
  end.

Definition clearCache (sc : NetworkScanner) : NetworkScanner :=
  set_networks [] 0 sc.

Definition isCacheValid (now : N) (sc : NetworkScanner) : bool :=
  (Manager.sub32 now (_lastScanTime sc) <? cacheTimeout (_config sc))%N.

Definition getCacheAge (now : N) (sc : NetworkScanner) : N :=
  Manager.sub32 now (_lastScanTime sc).

Definition isAvailable (_ : NetworkScanner) : bool := true.

Definition getLastError (sc : NetworkScanner) : list byte := _lastError sc.

Definition setError (error : list byte) (sc : NetworkScanner) : NetworkScanner :=
  let sc1 := set_lastError error sc in
  if _onScanError sc1 then notify (ScanError error) sc1 else sc1.

Definition clearError (sc : NetworkScanner) : NetworkScanner := set_lastError [] sc.

(** The network the body of the loop of [performScan] builds at index [i]. *)
Definition scanned (air : Air) (i : nat) : ScannedNetwork :=
  let s := WiFi_SSID air i in
  {| ssid := s;
     rssi := WiFi_RSSI air i;
     channel := WiFi_channel air i;
     encType := WiFi_encryptionType air i;
     bssid := bssid_string (WiFi_BSSID air);
     hidden := (length s =? 0) |}.

(** The loop of [performScan] from index [i], with [left] indices to go
    and [networks] collected so far. *)
Fixpoint collect (sc : NetworkScanner) (air : Air) (i left : nat)
         (networks : list ScannedNetwork) : list ScannedNetwork :=
  match left with
  | 0 => networks
  | S left' =>
    if length networks <? maxResults (_config sc) then
      let network := scanned air i in
      collect sc air (S i) left'
              (if shouldIncludeNetwork sc network then networks ++ [network]
               else networks)
    else networks
  end.

Section Sorting.

(** [std::sort(first, last, comp)], as the vector it leaves. *)
Variable std_sort :
  (ScannedNetwork -> ScannedNetwork -> bool) -> list ScannedNetwork
  -> list ScannedNetwork.

Definition sortResults (sc : NetworkScanner) (networks : list ScannedNetwork)
  : list ScannedNetwork :=
  if sortBySignal (_config sc) then std_sort compareBySignal networks
  else std_sort compareBySSID networks.

Definition performScan (air : Air) (sc : NetworkScanner) : bool * NetworkScanner :=
  if (networkCount air <? 0)%Z then
    (false, set_scanInProgress false (setError (text "Scan failed"%string) sc))
  else
    let found := collect sc air 0 (Z.to_nat (networkCount air)) [] in
    let found1 := if Scan.removeDuplicates (_config sc)
                  then removeDuplicates sc found else found in
    let found2 := if sortBySignal (_config sc)
                  then sortResults sc found1 else found1 in
    let sc1 := set_networks found2 (millis air mod Manager.two32)%N sc in
    let sc2 := set_scanInProgress false sc1 in
    (true,
     if _onScanComplete sc2 then notify (ScanComplete (length found2)) sc2
     else sc2).

Definition startScan (air : Air) (sc : NetworkScanner) : bool * NetworkScanner :=
  if _scanInProgress sc then (false, sc)
  else performScan air (set_lastError [] (set_scanInProgress true sc)).

Definition startAsyncScan (air : Air) (sc : NetworkScanner) : bool * NetworkScanner :=
  startScan air sc.

(** [getResults]; [now] is what [millis()] returns in [isCacheValid]. *)
Definition getResults (forceRescan : bool) (now : N) (air : Air)
           (sc : NetworkScanner) : list ScannedNetwork * NetworkScanner :=
  let sc1 := if forceRescan || negb (isCacheValid now sc)
             then snd (startScan air sc) else sc in
  (_networks sc1, sc1).

End Sorting.

End Scanner.

Module NetworkUtils.
Import Bytes Scan.

Definition formatBSSID (bssid : list byte) : list byte := Scanner.toUpperCase bssid.

Definition formatSignalStrength (rssi : Z) : list byte :=
  if (-50 <=? rssi)%Z then text "Excellent"%string
  else if (-60 <=? rssi)%Z then text "Good"%string
  else if (-70 <=? rssi)%Z then text "Fair"%string
  else if (-80 <=? rssi)%Z then text "Weak"%string
  else text "Very Weak"%string.

Definition getChannelInfo (channel : N) : list byte :=
  if (1 <=? channel)%N && (channel <=? 14)%N then text "2.4 GHz"%string
  else text "Unknown"%string.

Definition isValidSSID (ssid : list byte) : bool :=
  (0 <? length ssid) && (length ssid <=? 32).

End NetworkUtils.

(* ===================================================================== *)
(** * Vocabulary of the properties, and devices to try them on *)

Section StorageVocabulary.
Import Bytes CString Storage.

(** The XOR of a byte sequence. *)
Definition xors (l : list byte) : N := fold_left xor_byte l 0%N.

(** What of the first 232 bytes is not the checksum member, XORed. *)
Definition others (d : StorageData) : N := calculateChecksum (set_checksum 0 d).

(** The bytes [m] with the one at offset [i] replaced by [b]. *)
Definition poke (i : nat) (b : byte) (m : list byte) : list byte :=
  firstn i m ++ b :: skipn (S i) m.

(** The EEPROM with the byte at [address] replaced. *)
Definition corrupt (address : nat) (b : byte) (e : EEPROMClass) : EEPROMClass :=
  {| size := size e; cells := poke address b (cells e) |}.

(** Padding that holds 0xFF, as the memory of the temporaries of the
    devices below does. *)
Definition ff_padding : Padding :=
  {| pad_version := repeat xff 3; pad_wifi := repeat xff 3;
     pad_network := repeat xff 3 |}.

(** A power cycle: a new manager over what the EEPROM holds. *)
Definition power_cycle (e : EEPROMClass) : StorageManager :=
  snd (begin 512 ff_padding
             (StorageManager_new zero_padding {| size := 0; cells := cells e |})).

(** A store opened on an erased 512-byte EEPROM. *)
Definition opened : StorageManager :=
  snd (begin 512 ff_padding (StorageManager_new zero_padding erased)).

(** "home", "secret" *)
Definition home : list byte := [x68; x6f; x6d; x65].

Definition secret : list byte := [x73; x65; x63; x72; x65; x74].

(** ... then given credentials. *)
Definition configured : StorageManager :=
  snd (saveWiFiCredentials (Some home) (Some secret) opened).

(** An address a.b.c.d as the [uint32_t] the record holds. *)
Definition ip (a b c d : N) : N := (a + 256 * (b + 256 * (c + 256 * d)))%N.

Definition static_address : NetworkConfig :=
  {| useStaticIP := c_true;
     staticIP := ip 192 168 1 74;
     gateway := ip 192 168 1 1;
     subnet := ip 255 255 255 0;
     primaryDNS := ip 8 8 8 8;
     secondaryDNS := ip 8 8 4 4 |}.

(** A store whose record happens to validate: the bytes the checksum
    loop covers, the checksum's own apart, cancel out. *)
Definition healthy : StorageManager :=
  snd (saveNetworkConfig static_address (repeat xff 3) configured).

End StorageVocabulary.

Section ManagerVocabulary.
Import Manager.

(** The calls of a sequence of [setStatus] calls whose status differs from
    the one current when the call is made. *)
Fixpoint changes (current : ConnectionStatus) (calls : list ConnectionStatus)
  : list ConnectionStatus :=
  match calls with
  | [] => []
  | st :: rest =>
    if status_eqb current st then changes current rest
    else st :: changes st rest
  end.

Definition setStatus_each (calls : list ConnectionStatus) (m : PicoWiFiManager)
  : PicoWiFiManager :=
  fold_left (fun m' st => setStatus st m') calls m.

(** The members no call of the reconnection policy or of the portal
    changes. *)
Definition same_setup (m m' : PicoWiFiManager) : Prop :=
  _config m' = _config m
  /\ _storage m' = _storage m
  /\ _isInitialized m' = _isInitialized m
  /\ pressed m' = pressed m
  /\ pressStart m' = pressStart m
  /\ _onStatusChange m' = _onStatusChange m.

(** [m'] has emitted [ev] since [m]. *)
Definition emitted (m m' : PicoWiFiManager) (ev : list Event) : Prop :=
  trace m' = trace m ++ ev.

(** A pass of the loop in which nobody uses the portal or the button, the
    link is down, a join fails and the access point can be raised. *)
Definition failing (t : Tick) : Prop :=
  http_request t = None
  /\ pin_low t = false
  /\ link_up t = false
  /\ join_succeeds t = false
  /\ softAP_succeeds t = true.

(** Valid credentials with a non-empty ssid are stored. *)
Definition has_credentials (m : PicoWiFiManager) : Prop :=
  exists s, _storage m = Some s
            /\ Storage._initialized s = true
            /\ Bytes.truthy (Storage.valid (Storage.wifi (Storage._data s))) = true
            /\ CString.strlen (Storage.ssid (Storage.wifi (Storage._data s))) <> 0.

Definition ready (m : PicoWiFiManager) : Prop :=
  _isInitialized m = true
  /\ autoReconnect (_config m) = true
  /\ pressed m = false
  /\ (maxReconnectAttempts (_config m) < 256)%N
  /\ has_credentials m.

(** The pass reaches [handleReconnection] at least 10 s after the last
    attempt. *)
Definition due (t : Tick) (last : N) : Prop :=
  (10000 <= sub32 (millis_reconnect t) last)%N.

(** Each pass is due with respect to the one before. *)
Fixpoint spaced (last : N) (ts : list Tick) : Prop :=
  match ts with
  | [] => True
  | t :: rest => due t last /\ spaced (millis_reconnect t mod two32) rest
  end.

Fixpoint last_attempt (last : N) (ts : list Tick) : N :=
  match ts with
  | [] => last
  | t :: rest => last_attempt (millis_reconnect t mod two32) rest
  end.

(** The link is down and the network does not answer. *)
Definition outage (now : N) : Tick :=
  {| http_request := None; portal_join_succeeds := false;
     portal_timed_out := false; pin_low := false; millis_button := now;
     link_up := false; millis_reconnect := now;
     join_succeeds := false; softAP_succeeds := true;
     temporary := repeat xff 3 |}.

(** The link is down, the network does not answer and the access point
    cannot be raised. *)
Definition ap_down (now : N) : Tick :=
  {| http_request := None; portal_join_succeeds := false;
     portal_timed_out := false; pin_low := false; millis_button := now;
     link_up := false; millis_reconnect := now;
     join_succeeds := false; softAP_succeeds := false;
     temporary := repeat xff 3 |}.

(** The user submits "home" / "secret" in the portal and the join works. *)
Definition provisioning (now : N) : Tick :=
  {| http_request := Some (ConnectRequest home secret);
     portal_join_succeeds := true;
     portal_timed_out := false; pin_low := false; millis_button := now;
     link_up := true; millis_reconnect := now;
     join_succeeds := false; softAP_succeeds := true;
     temporary := repeat xff 3 |}.

(** The portal's timeout has run out; nothing else happens. *)
Definition portal_timeout (now : N) : Tick :=
  {| http_request := None; portal_join_succeeds := false;
     portal_timed_out := true; pin_low := false; millis_button := now;
     link_up := false; millis_reconnect := now;
     join_succeeds := false; softAP_succeeds := true;
     temporary := repeat xff 3 |}.

(** The button is held down, or up, at time [now]; the link is up. *)
Definition button (down : bool) (now : N) : Tick :=
  {| http_request := None; portal_join_succeeds := false;
     portal_timed_out := false; pin_low := down; millis_button := now;
     link_up := true; millis_reconnect := now;
     join_succeeds := false; softAP_succeeds := true;
     temporary := repeat xff 3 |}.

(** A new device: [begin], no credentials, so the portal; an observer of
    the status is registered. *)
Definition unboxed : PicoWiFiManager :=
  snd (startConfigPortal true
         (snd (begin ff_padding
                     (Storage.StorageManager_new Storage.zero_padding Storage.erased)
                     (onStatusChange (PicoWiFiManager_new PicoWiFiConfig_new))))).

(** The same device once the user has entered the credentials. *)
Definition provisioned : PicoWiFiManager :=
  state_of (loop (provisioning 5000) unboxed).

(** ... and after two failed reconnection attempts. *)
Definition struggling : PicoWiFiManager :=
  state_of (run [outage 20000; outage 60000] provisioned).


End ManagerVocabulary.

Section StoreVocabulary.
Import Bytes CString Storage.

(** What the C types guarantee of a record: every integer fits its width,
    every array has its size. *)
Definition word (n : N) : Prop := (n < 4294967296)%N.

Definition well_formed_wifi (w : WiFiCredentials) : Prop :=
  length (ssid w) = MAX_SSID_LENGTH /\ length (password w) = MAX_PASSWORD_LENGTH.

Definition well_formed_network (n : NetworkConfig) : Prop :=
  word (staticIP n) /\ word (gateway n) /\ word (subnet n)
  /\ word (primaryDNS n) /\ word (secondaryDNS n).

Definition well_formed_device (x : DeviceConfig) : Prop :=
  length (hostname x) = MAX_HOSTNAME_LENGTH
  /\ (maxReconnectAttempts x < 256)%N /\ (connectTimeout x < 65536)%N.

Definition well_formed_padding (p : Padding) : Prop :=
  length (pad_version p) = 3 /\ length (pad_wifi p) = 3
  /\ length (pad_network p) = 3.

Definition well_formed (d : StorageData) : Prop :=
  word (magic d) /\ (version d < 256)%N /\ word (checksum d)
  /\ well_formed_wifi (wifi d) /\ well_formed_network (network d)
  /\ well_formed_device (device d)
  /\ length (reserved d) = 64 /\ well_formed_padding (padding d).

(** The EEPROM has room for the record and its first [sizeof(StorageData)]
    bytes are the bytes of the record in memory. *)
Definition mirrored (s : StorageManager) : Prop :=
  sizeof_StorageData <= size (EEPROM s)
  /\ slice EEPROM_START_ADDRESS sizeof_StorageData (cells (EEPROM s))
     = to_bytes (_data s).

(** The operations of the public interface that write. *)
Inductive Call :=
| SaveWiFiCredentials (ssid password : option (list byte))
| ClearWiFiCredentials
| SaveNetworkConfig (config : NetworkConfig) (pad : list byte)
| ClearNetworkConfig (pad : list byte)
| SaveDeviceConfig (config : DeviceConfig)
| ClearDeviceConfig
| SaveAll (w : WiFiCredentials) (n : NetworkConfig) (pad : list byte)
          (x : DeviceConfig)
| ClearAll (pad : list byte)
| Format (tmp : Padding)
| RepairIfNeeded (tmp : Padding).

Definition call (c : Call) (s : StorageManager) : StorageManager :=
  match c with
  | SaveWiFiCredentials ssid password => snd (saveWiFiCredentials ssid password s)
  | ClearWiFiCredentials => clearWiFiCredentials s
  | SaveNetworkConfig config pad => snd (saveNetworkConfig config pad s)
  | ClearNetworkConfig pad => clearNetworkConfig pad s
  | SaveDeviceConfig config => snd (saveDeviceConfig config s)
  | ClearDeviceConfig => clearDeviceConfig s
  | SaveAll w n pad x => snd (saveAll w n pad x s)
  | ClearAll pad => clearAll pad s
  | Format tmp => format tmp s
  | RepairIfNeeded tmp => snd (repairIfNeeded tmp s)
  end.

Definition calls (cs : list Call) (s : StorageManager) : StorageManager :=
  fold_left (fun s' c => call c s') cs s.

(** The structs a call passes are well formed, and so is the padding of
    the objects it copies. *)
Definition proper (c : Call) : Prop :=
  match c with
  | SaveNetworkConfig config pad => well_formed_network config /\ length pad = 3
  | ClearNetworkConfig pad => length pad = 3
  | SaveDeviceConfig config => well_formed_device config
  | SaveAll w n pad x =>
    (well_formed_wifi w /\ well_formed_network n /\ well_formed_device x)
    /\ length pad = 3
  | ClearAll pad => length pad = 3
  | Format tmp => well_formed_padding tmp
  | RepairIfNeeded tmp => well_formed_padding tmp
  | _ => True
  end.

(** What holds of a store from [begin] on: it is open, the EEPROM, of
    size [n], mirrors the record in memory, the record is well formed with
    the right magic and version, and the EEPROM past the record is [tail]. *)
Definition settled (n : nat) (tail : list byte) (s : StorageManager) : Prop :=
  _initialized s = true
  /\ mirrored s
  /\ well_formed (_data s)
  /\ magic (_data s) = STORAGE_MAGIC
  /\ version (_data s) = STORAGE_VERSION
  /\ size (EEPROM s) = n
  /\ skipn sizeof_StorageData (cells (EEPROM s)) = tail.

(** An erased EEPROM: every cell reads 0xFF. *)
Definition blank (e : EEPROMClass) : Prop :=
  Forall (fun b => b = xff) (cells e).

(** A power cycle: a new manager, its padding holding [p], over what the
    EEPROM holds; [tmp] is the padding of the temporary of [begin]. *)
Definition reboot (tmp p : Padding) (e : EEPROMClass) : StorageManager :=
  snd (begin 512 tmp (StorageManager_new p {| size := 0; cells := cells e |})).

(** The bytes [m] with those at offsets [i] and [j] exchanged. *)
Definition swap (i j : nat) (m : list byte) : list byte :=
  poke j (nth i m x00) (poke i (nth j m x00) m).

(** The padding bytes the checksum loop reads. *)
Definition padding_bytes (p : Padding) : list byte :=
  pad_version p ++ pad_wifi p ++ pad_network p.

(** A printable ASCII character, as [isValidSSID] tests it. *)
Definition printable (c : byte) : Prop := (32 <= Byte.to_N c <= 126)%N.

End StoreVocabulary.

Section LoopVocabulary.
Import Manager.

(** The attempt counter has not passed the configured maximum. *)
Definition within_limit (m : PicoWiFiManager) : Prop :=
  (_reconnectAttempts m <= maxReconnectAttempts (_config m))%N.

(** [m'] has the configuration of [m], and its attempt counter or a
    counter of 0. *)
Definition counter_kept (m m' : PicoWiFiManager) : Prop :=
  _config m' = _config m
  /\ (_reconnectAttempts m' = _reconnectAttempts m \/ _reconnectAttempts m' = 0%N).

(** Nobody uses the portal's pages during the pass. *)
Definition unattended (t : Tick) : Prop := http_request t = None.

(** No join is started and no access point raised among the events. *)
Definition radio_silent (ev : list Event) : Prop :=
  count is_join ev = 0 /\ count is_portal_start ev = 0.

(** An ssid argument [connectWiFi] goes on with. *)
Definition usable (ssid : option (list byte)) : bool :=
  match ssid with
  | Some s => negb (CString.strlen s =? 0)
  | None => false
  end.

End LoopVocabulary.

Section LampVocabulary.
Import Manager LED.

(** The blink interval of a status, [None] for a status the LED does not
    blink in. *)
Definition interval_of (status : ConnectionStatus) : option N :=
  match status with
  | CONNECTING => Some 200%N
  | CONFIG_MODE => Some 100%N
  | ERROR => Some 1000%N
  | CONNECTED | DISCONNECTED => None
  end.

(** [updateLED] called at each of [times] in turn while the status stays
    the same: the lamp at the end, and the writes, each with the time of
    its call. *)
Fixpoint watch (status : ConnectionStatus) (times : list N) (l : Lamp)
  : Lamp * list (N * Write) :=
  match times with
  | [] => (l, [])
  | now :: rest =>
    let (l1, ws) := updateLED status now l in
    let (l2, ws') := watch status rest l1 in
    (l2, map (pair now) ws ++ ws')
  end.

(** Each write comes at least [interval] after the one before it, the
    first after [last]. *)
Fixpoint apart (interval last : N) (ws : list (N * Write)) : Prop :=
  match ws with
  | [] => True
  | (now, _) :: rest =>
    (interval <= sub32 now last)%N /\ apart interval (now mod two32)%N rest
  end.

(** The levels written alternate, beginning with [first]. *)
Fixpoint alternate (first : bool) (ws : list (N * Write)) : Prop :=
  match ws with
  | [] => True
  | (_, w) :: rest => level w = first /\ alternate (negb first) rest
  end.

End LampVocabulary.

Section PortalVocabulary.
Import Manager Portal.

(** [handle] called at each of [times] in turn. *)
Fixpoint handles (times : list N) (p : ConfigPortal) : ConfigPortal * list Event :=
  match times with
  | [] => (p, [])
  | now :: rest =>
    let (p1, ev) := handle now p in
    let (p2, ev') := handles rest p1 in
    (p2, ev ++ ev')
  end.

End PortalVocabulary.

Section ScanVocabulary.
Import Bytes Scan Scanner.

(** A strict weak ordering, which [std::sort] requires of its comparison. *)
Definition strict_weak (cmp : ScannedNetwork -> ScannedNetwork -> bool) : Prop :=
  (forall a, cmp a a = false)
  /\ (forall a b c, cmp a b = true -> cmp b c = true -> cmp a c = true)
  /\ (forall a b c, cmp a b = false -> cmp b c = false -> cmp a c = false).

(** What [std::sort] guarantees: the elements it was given, no one of them
    before one the comparison puts before it. *)
Definition sorts
           (srt : (ScannedNetwork -> ScannedNetwork -> bool)
                  -> list ScannedNetwork -> list ScannedNetwork) : Prop :=
  forall cmp l,
    Permutation l (srt cmp l)
    /\ (strict_weak cmp ->
        StronglySorted (fun a b => cmp b a = false) (srt cmp l)).

(** A sort to try the scanner with. *)
Fixpoint insert (cmp : ScannedNetwork -> ScannedNetwork -> bool)
         (x : ScannedNetwork) (l : list ScannedNetwork) : list ScannedNetwork :=
  match l with
  | [] => [x]
  | y :: l' => if cmp x y then x :: y :: l' else y :: insert cmp x l'
  end.

Fixpoint insertion_sort (cmp : ScannedNetwork -> ScannedNetwork -> bool)
         (l : list ScannedNetwork) : list ScannedNetwork :=
  match l with
  | [] => []
  | x :: l' => insert cmp x (insertion_sort cmp l')
  end.

(** No two neighbours have the same ssid. *)
Fixpoint no_twins (l : list ScannedNetwork) : Prop :=
  match l with
  | [] => True
  | a :: rest =>
    match rest with
    | [] => True
    | b :: _ => ssid a <> ssid b /\ no_twins rest
    end
  end.

(** The scanner with [showHidden] set to [b]. *)
Definition with_showHidden (b : bool) (sc : NetworkScanner) : NetworkScanner :=
  setConfig {| showHidden := b;
               Scan.removeDuplicates := Scan.removeDuplicates (_config sc);
               minSignalQuality := minSignalQuality (_config sc);
               maxResults := maxResults (_config sc);
               cacheTimeout := cacheTimeout (_config sc);
               sortBySignal := sortBySignal (_config sc);
               async := async (_config sc);
               channelStart := channelStart (_config sc);
               channelEnd := channelEnd (_config sc) |} sc.

(** A digit or a capital A to F. *)
Definition upper_hex (c : byte) : Prop :=
  (48 <= Byte.to_N c <= 57)%N \/ (65 <= Byte.to_N c <= 70)%N.

(** What a scan finds in a street: "home" twice, from two access points,
    a hidden network and "cafe" between them, and a network too weak to
    keep. *)
Definition street : Air :=
  {| networkCount := 5;
     WiFi_SSID := fun i => nth i [text "home"%string; []; text "cafe"%string;
                                  text "home"%string; text "far"%string] [];
     WiFi_RSSI := fun i => nth i [-60; -45; -70; -40; -97]%Z 0%Z;
     WiFi_channel := fun i => nth i [1; 6; 6; 11; 3]%N 0%N;
     WiFi_encryptionType := fun _ => ENC_TYPE_CCMP;
     WiFi_BSSID := [x00; x1a; x2b; x3c; x4d; xfe];
     millis := 42000 |}.

(** The radio fails to scan. *)
Definition jammed : Air :=
  {| networkCount := -1;
     WiFi_SSID := fun _ => []; WiFi_RSSI := fun _ => 0%Z;
     WiFi_channel := fun _ => 0%N;
     WiFi_encryptionType := fun _ => ENC_TYPE_NONE;
     WiFi_BSSID := []; millis := 50000 |}.

End ScanVocabulary.

(* ===================================================================== *)
(** * Properties *)

(** ** C strings *)

Section CStringFacts.
Import CString.

Lemma c_str_no_nul (p : list byte) : Forall (fun c => c <> x00) (c_str p).
Proof.
  induction p as [|c p IH]; simpl; [constructor|].
  destruct (Byte.eqb c x00) eqn:E; constructor; auto.
  intros ->. discriminate.
Qed.

Lemma c_str_app_nul (l r : list byte) :
  Forall (fun c => c <> x00) l -> c_str (l ++ x00 :: r) = l.
Proof.
  induction 1 as [|c l Hc _ IH]; simpl; [reflexivity|].
  destruct (Byte.eqb c x00) eqn:E.
  - apply Byte.byte_dec_bl in E. contradiction.
  - now rewrite IH.
Qed.

Lemma c_str_idem (p : list byte) : c_str (c_str p) = c_str p.
Proof.
  induction p as [|c p IH]; simpl; [reflexivity|].
  destruct (Byte.eqb c x00) eqn:E; simpl; [reflexivity|].
  now rewrite E, IH.
Qed.

Lemma Forall_firstn {A} (P : A -> Prop) (n : nat) (l : list A) :
  Forall P l -> Forall P (firstn n l).
Proof.
  intros H. revert n. induction H; intros [|n]; simpl; constructor; auto.
Qed.

(** What a character array holds, as a string, after
    [strncpy(a, src, size - 1); a[size - 1] = 0]. *)
Lemma c_str_bounded_copy (src : list byte) (size : nat) :
  c_str (bounded_copy src size) = firstn (size - 1) (c_str src).
Proof.
  unfold bounded_copy, strncpy.
  set (s := firstn (size - 1) (c_str src)).
  assert (Hs : Forall (fun c => c <> x00) s)
    by (apply Forall_firstn, c_str_no_nul).
  rewrite <- app_assoc.
  destruct (size - 1 - length s) as [|k]; simpl.
  - now apply c_str_app_nul.
  - now apply c_str_app_nul.
Qed.

Lemma length_bounded_copy (src : list byte) (size : nat) :
  0 < size -> length (bounded_copy src size) = size.
Proof.
  intros H. unfold bounded_copy, strncpy.
  rewrite !length_app, repeat_length, length_firstn. simpl. lia.
Qed.

End CStringFacts.

(* ===================================================================== *)
(** ** The storage facade *)

Section StorageFacade.
Import Bytes CString Storage.

Lemma saveToEEPROM_ok (s : StorageManager) : fst (saveToEEPROM s) = true.
Proof. reflexivity. Qed.

Lemma saveToEEPROM_initialized (s : StorageManager) :
  _initialized (snd (saveToEEPROM s)) = _initialized s.
Proof. reflexivity. Qed.

(** What [saveToEEPROM] leaves on a medium with room for the record. *)
Lemma saveToEEPROM_cells (s : StorageManager) :
  sizeof_StorageData <= size (EEPROM s) ->
  cells (EEPROM (snd (saveToEEPROM s)))
  = to_bytes (_data (snd (saveToEEPROM s)))
      ++ skipn sizeof_StorageData (cells (EEPROM s)).
Proof.
  intros H. unfold saveToEEPROM. cbn [snd EEPROM _data].
  unfold EEPROM_put, EEPROM_START_ADDRESS. cbn [Nat.add].
  destruct (Nat.leb_spec sizeof_StorageData (size (EEPROM s))); [reflexivity | lia].
Qed.

(** C3, as stated, fails: an empty ssid, and one of 33 bytes, are accepted
    and overwrite the stored credentials. *)
Lemma saveWiFiCredentials_accepts_empty_and_long_ssid :
  fst (saveWiFiCredentials (Some []) (Some [x78]) configured) = true
  /\ wifi (_data (snd (saveWiFiCredentials (Some []) (Some [x78]) configured)))
     <> wifi (_data configured)
  /\ cells (EEPROM (snd (saveWiFiCredentials (Some []) (Some [x78]) configured)))
     <> cells (EEPROM configured)
  /\ fst (saveWiFiCredentials (Some (repeat x61 33)) (Some [x78]) configured) = true
  /\ c_str (ssid (wifi (_data (snd (saveWiFiCredentials (Some (repeat x61 33))
                                                        (Some [x78]) configured)))))
     = repeat x61 31.
Proof.
  repeat split; try reflexivity.
  - intros H. apply (f_equal ssid) in H. vm_compute in H. discriminate.
  - intros H. apply (f_equal (fun l => nth 12 l x00)) in H. vm_compute in H. discriminate.
Qed.

(** C3, amended: [saveWiFiCredentials] fails exactly when the store was
    not opened or the ssid pointer is null, and then changes neither the
    record in memory nor the EEPROM; any other ssid is accepted and kept
    up to its first 31 bytes. *)
Theorem saveWiFiCredentials_rejects_only_unopened_or_null
        (ssid_arg password_arg : option (list byte)) (s : StorageManager) :
  let r := saveWiFiCredentials ssid_arg password_arg s in
  (fst r = false <-> (_initialized s = false \/ ssid_arg = None))
  /\ (fst r = false -> snd r = s)
  /\ (forall p, fst r = true -> ssid_arg = Some p ->
        c_str (ssid (wifi (_data (snd r)))) = firstn 31 (c_str p)).
Proof.
  unfold saveWiFiCredentials.
  destruct ssid_arg as [p|]; destruct (_initialized s) eqn:Hi; simpl;
    repeat split; intros; try discriminate; try reflexivity; auto;
    try (destruct H as [H|H]; discriminate).
  injection H0 as <-. apply (c_str_bounded_copy p MAX_SSID_LENGTH).
Qed.

(** C4, as stated, fails: on a store that was never opened, [format] and
    the four clear operations rewrite the checksum of the record in
    memory. *)
Lemma unopened_clear_and_format_mutate :
  let s := StorageManager_new zero_padding erased in
  _initialized s = false
  /\ getChecksum s = 0%N
  /\ getChecksum (format zero_padding s) = 82%N
  /\ getChecksum (clearWiFiCredentials s) = 82%N
  /\ getChecksum (clearNetworkConfig (repeat x00 3) s) = 82%N
  /\ getChecksum (clearDeviceConfig s) = 82%N
  /\ getChecksum (clearAll (repeat x00 3) s) = 82%N.
Proof. vm_compute. repeat split. Qed.

(** C4, amended: on a store that was never opened, the four save
    operations fail and change nothing, in memory or in the EEPROM.  The
    clear operations and [format] are not guarded: whether or not the
    store was opened they reset their part of the record and store the
    recomputed checksum.  ([pad] and [tmp] are the padding of the objects
    the operations copy.) *)
Theorem unopened_save_is_noop (s : StorageManager)
        (ssid_arg password_arg : option (list byte))
        (w : WiFiCredentials) (n : NetworkConfig) (x : DeviceConfig)
        (pad : list byte) (tmp : Padding) :
  _initialized s = false ->
  saveWiFiCredentials ssid_arg password_arg s = (false, s)
  /\ saveNetworkConfig n pad s = (false, s)
  /\ saveDeviceConfig x s = (false, s)
  /\ saveAll w n pad x s = (false, s)
  /\ wifi (_data (clearAll pad s)) = WiFiCredentials_new
  /\ network (_data (clearAll pad s)) = NetworkConfig_new
  /\ device (_data (clearAll pad s)) = DeviceConfig_new
  /\ wifi (_data (clearWiFiCredentials s)) = WiFiCredentials_new
  /\ network (_data (clearNetworkConfig pad s)) = NetworkConfig_new
  /\ device (_data (clearDeviceConfig s)) = DeviceConfig_new
  /\ _data (format tmp s)
     = set_checksum (calculateChecksum (StorageData_new tmp))
                    (StorageData_new tmp).
Proof.
  intros H.
  unfold saveWiFiCredentials, saveNetworkConfig, saveDeviceConfig, saveAll.
  rewrite H. simpl. destruct ssid_arg; repeat split; reflexivity.
Qed.

Lemma unopened_save_is_noop_witness :
  _initialized (StorageManager_new zero_padding erased) = false
  /\ saveWiFiCredentials (Some home) (Some secret)
                         (StorageManager_new zero_padding erased)
     = (false, StorageManager_new zero_padding erased).
Proof.
  split; [reflexivity|].
  exact (proj1 (unopened_save_is_noop (StorageManager_new zero_padding erased)
                  (Some home) (Some secret)
                  WiFiCredentials_new NetworkConfig_new DeviceConfig_new
                  (repeat x00 3) zero_padding eq_refl)).
Defined.

(** C9, as stated, fails: of a 64-byte password only 63 bytes are kept. *)
Lemma saveWiFiCredentials_cuts_64_byte_password :
  let r := saveWiFiCredentials (Some home) (Some (repeat x61 64)) opened in
  fst r = true
  /\ strlen (repeat x61 64) = 64
  /\ c_str (password (wifi (_data (snd r)))) = repeat x61 63
  /\ c_str (password (wifi (_data (snd r)))) <> firstn 64 (repeat x61 64).
Proof.
  vm_compute. repeat split. intros H. discriminate.
Qed.

(** C9, amended: for a non-null password, the stored password is the
    first 63 bytes of the one supplied (the 64th byte of the array is the
    terminating NUL); a password of 63 bytes or fewer is stored
    unmodified. *)
Theorem saveWiFiCredentials_truncates_password_at_63
        (ssid_chars pw : list byte) (s : StorageManager) :
  _initialized s = true ->
  let r := saveWiFiCredentials (Some ssid_chars) (Some pw) s in
  fst r = true
  /\ c_str (password (wifi (_data (snd r)))) = firstn 63 (c_str pw)
  /\ length (password (wifi (_data (snd r)))) = MAX_PASSWORD_LENGTH
  /\ (strlen pw <= 63 -> c_str (password (wifi (_data (snd r)))) = c_str pw).
Proof.
  intros H. unfold saveWiFiCredentials. rewrite H. simpl.
  assert (E : c_str (bounded_copy pw MAX_PASSWORD_LENGTH) = firstn 63 (c_str pw))
    by apply (c_str_bounded_copy pw MAX_PASSWORD_LENGTH).
  repeat split.
  - exact E.
  - apply length_bounded_copy. unfold MAX_PASSWORD_LENGTH. lia.
  - intros L. rewrite E. apply firstn_all2. exact L.
Qed.

Lemma saveWiFiCredentials_truncates_password_at_63_witness :
  _initialized opened = true
  /\ c_str (password (wifi (_data (snd (saveWiFiCredentials
                                          (Some home) (Some secret) opened)))))
     = firstn 63 (c_str secret).
Proof.
  split; [reflexivity|].
  exact (proj1 (proj2 (saveWiFiCredentials_truncates_password_at_63
                         home secret opened eq_refl))).
Defined.

(** C10: on an opened store, [saveWiFiCredentials] with a non-null ssid
    and a null password succeeds, stores an all-zero password, marks the
    credentials valid and, the EEPROM having room for the record, puts
    the whole record there. *)
Theorem saveWiFiCredentials_null_password
        (ssid_chars : list byte) (s : StorageManager) :
  _initialized s = true ->
  sizeof_StorageData <= size (EEPROM s) ->
  let r := saveWiFiCredentials (Some ssid_chars) None s in
  fst r = true
  /\ password (wifi (_data (snd r))) = repeat x00 64
  /\ c_str (password (wifi (_data (snd r)))) = []
  /\ valid (wifi (_data (snd r))) = c_true
  /\ hasWiFiCredentials (snd r) = true
  /\ cells (EEPROM (snd r))
     = to_bytes (_data (snd r)) ++ skipn sizeof_StorageData (cells (EEPROM s)).
Proof.
  intros Hi Hroom. unfold saveWiFiCredentials. rewrite Hi. cbn [negb].
  cbv zeta.
  repeat split; try reflexivity.
  - unfold hasWiFiCredentials. rewrite saveToEEPROM_initialized. cbn [_initialized set_data].
    rewrite Hi. reflexivity.
  - rewrite saveToEEPROM_cells; [reflexivity | exact Hroom].
Qed.

Lemma saveWiFiCredentials_null_password_witness :
  _initialized opened = true
  /\ sizeof_StorageData <= size (EEPROM opened)
  /\ fst (saveWiFiCredentials (Some home) None opened) = true.
Proof.
  assert (Hroom : sizeof_StorageData <= size (EEPROM opened))
    by (vm_compute; lia).
  split; [reflexivity|]. split; [exact Hroom|].
  exact (proj1 (saveWiFiCredentials_null_password home opened eq_refl Hroom)).
Defined.

End StorageFacade.

(* ===================================================================== *)
(** ** Status notifications *)

Section StatusNotifications.
Import Manager.

Lemma status_eqb_eq (a b : ConnectionStatus) : status_eqb a b = true <-> a = b.
Proof. destruct a, b; simpl; split; intros H; try reflexivity; discriminate. Qed.

Lemma status_eqb_refl (a : ConnectionStatus) : status_eqb a a = true.
Proof. now apply status_eqb_eq. Qed.

Lemma status_eqb_neq (a b : ConnectionStatus) : status_eqb a b = false <-> a <> b.
Proof.
  destruct (status_eqb a b) eqn:E.
  - apply status_eqb_eq in E. split; [discriminate | contradiction].
  - split; [|reflexivity]. intros _ H. apply status_eqb_eq in H. congruence.
Qed.

Lemma setStatus_same (m : PicoWiFiManager) : setStatus (_status m) m = m.
Proof. unfold setStatus. now rewrite status_eqb_refl. Qed.

Lemma setStatus_status (st : ConnectionStatus) (m : PicoWiFiManager) :
  _status (setStatus st m) = st.
Proof.
  unfold setStatus. destruct (status_eqb (_status m) st) eqn:E; simpl.
  - now apply status_eqb_eq.
  - destruct (_onStatusChange m); reflexivity.
Qed.

Lemma setStatus_observer (st : ConnectionStatus) (m : PicoWiFiManager) :
  _onStatusChange (setStatus st m) = _onStatusChange m.
Proof.
  unfold setStatus. destruct (status_eqb (_status m) st); simpl; [reflexivity|].
  destruct (_onStatusChange m) eqn:E; simpl; auto.
Qed.

(** C8: with an observer registered, a call of [setStatus] whose status
    differs from the current one invokes the observer once, with the new
    status; a call with the current status changes nothing; so a sequence
    of calls produces one notification per change, in order, and none
    besides. *)
Theorem setStatus_notifies_once_per_change
        (calls : list ConnectionStatus) (m : PicoWiFiManager) :
  _onStatusChange m = true ->
  (forall st, st <> _status m ->
              trace (setStatus st m) = trace m ++ [StatusChanged st])
  /\ (forall st, st = _status m -> setStatus st m = m)
  /\ trace (setStatus_each calls m)
     = trace m ++ map StatusChanged (changes (_status m) calls)
  /\ count is_notification (trace (setStatus_each calls m))
     = count is_notification (trace m) + length (changes (_status m) calls).
Proof.
  intros Hobs.
  assert (Hseq : forall cs m0, _onStatusChange m0 = true ->
            trace (setStatus_each cs m0)
            = trace m0 ++ map StatusChanged (changes (_status m0) cs)).
  { induction cs as [|st cs IH]; intros m0 H0; simpl.
    - now rewrite app_nil_r.
    - destruct (status_eqb (_status m0) st) eqn:E.
      + apply status_eqb_eq in E. subst st. rewrite setStatus_same. now apply IH.
      + rewrite IH by (now rewrite setStatus_observer).
        rewrite setStatus_status. unfold setStatus. rewrite E. simpl.
        rewrite H0. simpl. now rewrite <- app_assoc. }
  repeat split.
  - intros st Hne. unfold setStatus.
    assert (E : status_eqb (_status m) st = false)
      by (apply status_eqb_neq; congruence).
    rewrite E. simpl. now rewrite Hobs.
  - intros st ->. apply setStatus_same.
  - now apply Hseq.
  - rewrite Hseq by assumption. unfold count.
    rewrite filter_app, length_app. f_equal.
    induction (changes (_status m) calls) as [|c l IHl]; simpl; [reflexivity|].
    now rewrite IHl.
Qed.

Lemma setStatus_notifies_once_per_change_witness :
  _onStatusChange (onStatusChange (PicoWiFiManager_new PicoWiFiConfig_new)) = true
  /\ trace (setStatus_each [CONNECTING; CONNECTING; DISCONNECTED; DISCONNECTED;
                            CONFIG_MODE]
                           (onStatusChange (PicoWiFiManager_new PicoWiFiConfig_new)))
     = [StatusChanged CONNECTING; StatusChanged DISCONNECTED;
        StatusChanged CONFIG_MODE].
Proof.
  split; [reflexivity|].
  exact (proj1 (proj2 (proj2
    (setStatus_notifies_once_per_change
       [CONNECTING; CONNECTING; DISCONNECTED; DISCONNECTED; CONFIG_MODE]
       (onStatusChange (PicoWiFiManager_new PicoWiFiConfig_new)) eq_refl)))).
Defined.

End StatusNotifications.

(* ===================================================================== *)
(** ** What each call leaves alone, and what it emits *)

(** Splits a conjunction without unfolding what its parts are made of. *)
Ltac splits := repeat match goal with |- _ /\ _ => split end.

Ltac case_ifs :=
  repeat match goal with
         | |- context [if ?b then _ else _] => destruct b eqn:?; cbn
         end.

(** Closes the goals the frame lemmas split into: a member read back, a
    status the guard of [setStatus] found already set, or the events
    emitted. *)
Ltac frame_goal :=
  first
    [ reflexivity
    | assumption
    | match goal with
      | H : negb (Manager.status_eqb _ _) = false |- _ =>
        cbn in H; apply negb_false_iff in H; apply status_eqb_eq in H;
        cbn in H; congruence
      end
    | match goal with
      | H : negb (Manager.status_eqb _ _) = _ |- _ => cbn in H; discriminate H
      end
    | (exists []; now rewrite app_nil_r)
    | (rewrite <- ?app_assoc; eexists; repeat split; reflexivity) ].

Section Frames.
Import Manager.

Lemma same_setup_refl (m : PicoWiFiManager) : same_setup m m.
Proof. repeat split. Qed.

Lemma same_setup_trans (a b c : PicoWiFiManager) :
  same_setup a b -> same_setup b c -> same_setup a c.
Proof.
  unfold same_setup.
  intros (A1 & A2 & A3 & A4 & A5 & A6) (B1 & B2 & B3 & B4 & B5 & B6).
  repeat split; congruence.
Qed.

Lemma emitted_trans (a b c : PicoWiFiManager) (e1 e2 : list Event) :
  emitted a b e1 -> emitted b c e2 -> emitted a c (e1 ++ e2).
Proof. unfold emitted. intros H1 H2. now rewrite H2, H1, app_assoc. Qed.

Lemma count_app (p : Event -> bool) (e1 e2 : list Event) :
  count p (e1 ++ e2) = count p e1 + count p e2.
Proof. unfold count. now rewrite filter_app, length_app. Qed.

Lemma setStatus_frame (st : ConnectionStatus) (m : PicoWiFiManager) :
  same_setup m (setStatus st m)
  /\ _configMode (setStatus st m) = _configMode m
  /\ _portal (setStatus st m) = _portal m
  /\ _lastReconnectAttempt (setStatus st m) = _lastReconnectAttempt m
  /\ _reconnectAttempts (setStatus st m) = _reconnectAttempts m
  /\ exists ev, emitted m (setStatus st m) ev
                /\ count is_join ev = 0 /\ count is_portal_start ev = 0.
Proof.
  unfold setStatus, same_setup, emitted. case_ifs; repeat split; frame_goal.
Qed.

Lemma portal_stop_frame (m : PicoWiFiManager) :
  same_setup m (portal_stop m)
  /\ _configMode (portal_stop m) = _configMode m
  /\ _status (portal_stop m) = _status m
  /\ _lastReconnectAttempt (portal_stop m) = _lastReconnectAttempt m
  /\ _reconnectAttempts (portal_stop m) = _reconnectAttempts m
  /\ exists ev, emitted m (portal_stop m) ev
                /\ count is_join ev = 0 /\ count is_portal_start ev = 0
                /\ count (is_status CONFIG_MODE) ev = 0.
Proof.
  unfold portal_stop, same_setup, emitted. case_ifs; repeat split; frame_goal.
Qed.


(** [startConfigPortal] when the access point comes up. *)
Lemma startConfigPortal_started (m : PicoWiFiManager) :
  let m' := snd (startConfigPortal true m) in
  fst (startConfigPortal true m) = true
  /\ same_setup m m'
  /\ _configMode m' = true
  /\ _status m' = CONFIG_MODE
  /\ _active (_portal m') = true
  /\ _lastReconnectAttempt m' = _lastReconnectAttempt m
  /\ _reconnectAttempts m' = _reconnectAttempts m
  /\ exists ev, emitted m m' ev
                /\ count is_join ev = 0 /\ count is_portal_start ev = 1
                /\ count (is_status CONFIG_MODE) ev <= 1
                /\ (_onStatusChange m = true -> _status m <> CONFIG_MODE ->
                    count (is_status CONFIG_MODE) ev = 1).
Proof.
  unfold startConfigPortal, startConfigPortal_as, portal_start, setStatus,
    same_setup, emitted.
  cbv zeta. cbn.
  destruct (_onConfigStart m), (_onStatusChange m) eqn:Ho, (_status m) eqn:Hs;
    repeat (progress (cbn; rewrite ?Ho, ?Hs)); splits; try reflexivity;
    rewrite <- ?app_assoc; eexists;
    (split; [reflexivity|]); splits;
    try reflexivity; try (cbn; lia); intros; congruence.
Qed.

(** [startConfigPortal], whether or not the access point comes up. *)
Lemma startConfigPortal_frame (softAP : bool) (m : PicoWiFiManager) :
  let m' := snd (startConfigPortal softAP m) in
  same_setup m m'
  /\ _configMode m' = softAP
  /\ exists ev, emitted m m' ev
                /\ count is_join ev = 0 /\ count is_portal_start ev = 1.
Proof.
  unfold startConfigPortal, startConfigPortal_as, portal_start, setStatus,
    same_setup, emitted.
  destruct softAP; cbn; case_ifs; repeat split; frame_goal.
Qed.

(** A join that fails. *)
Lemma connectWiFi_failed (s : list byte) (pw : option (list byte))
      (m : PicoWiFiManager) :
  CString.strlen s <> 0 ->
  let m' := snd (connectWiFi (Some s) pw false m) in
  fst (connectWiFi (Some s) pw false m) = false
  /\ same_setup m m'
  /\ _configMode m' = _configMode m
  /\ _status m' = DISCONNECTED
  /\ _lastReconnectAttempt m' = _lastReconnectAttempt m
  /\ _reconnectAttempts m' = _reconnectAttempts m
  /\ exists ev, emitted m m' ev
                /\ count is_join ev = 1 /\ count is_portal_start ev = 0
                /\ count (is_status CONFIG_MODE) ev = 0.
Proof.
  intros Hs. unfold connectWiFi.
  destruct (Nat.eqb_spec (CString.strlen s) 0) as [E|_]; [contradiction|].
  unfold setStatus, same_setup, emitted. cbn.
  case_ifs; repeat split; frame_goal.
Qed.

(** A join that succeeds. *)
Lemma connectWiFi_joined (ssid_arg pw : option (list byte)) (m : PicoWiFiManager) :
  fst (connectWiFi ssid_arg pw true m) = true ->
  let m' := snd (connectWiFi ssid_arg pw true m) in
  same_setup m m'
  /\ _configMode m' = _configMode m
  /\ _status m' = CONNECTED
  /\ _lastReconnectAttempt m' = _lastReconnectAttempt m
  /\ _reconnectAttempts m' = 0%N.
Proof.
  unfold connectWiFi. destruct ssid_arg as [s|]; [|discriminate].
  destruct (CString.strlen s =? 0); [discriminate|]. intros _.
  unfold setStatus, same_setup. cbn.
  case_ifs; repeat split; frame_goal.
Qed.

End Frames.

(* ===================================================================== *)
(** ** The reconnection policy *)

Section Reconnection.
Import Manager.

Lemma spaced_app (ts1 ts2 : list Tick) (last : N) :
  spaced last (ts1 ++ ts2)
  <-> spaced last ts1 /\ spaced (last_attempt last ts1) ts2.
Proof.
  revert last. induction ts1 as [|t ts1 IH]; intros last; simpl.
  - tauto.
  - rewrite IH. tauto.
Qed.

Lemma ready_same_setup (m m' : PicoWiFiManager) :
  ready m -> same_setup m m' -> ready m'.
Proof.
  unfold ready, has_credentials, same_setup.
  intros (R1 & R2 & R3 & R4 & s & R5 & R6) (S1 & S2 & S3 & S4 & S5 & S6).
  rewrite S1, S2, S3, S4. repeat split; auto. exists s. auto.
Qed.

Lemma run_app (ts1 ts2 : list Tick) (m m1 : PicoWiFiManager) :
  run ts1 m = Running m1 -> run (ts1 ++ ts2) m = run ts2 m1.
Proof.
  revert m. induction ts1 as [|t ts1 IH]; intros m; simpl.
  - now intros [= ->].
  - destruct (loop t m) as [m'|m']; simpl; [apply IH | discriminate].
Qed.

(** The portal's part of a pass when no request arrives. *)
Lemma portal_handle_quiet (t : Tick) (m : PicoWiFiManager) :
  http_request t = None ->
  exists m1, portal_handle t m = Running m1
    /\ same_setup m m1
    /\ _configMode m1 = _configMode m
    /\ _status m1 = _status m
    /\ _lastReconnectAttempt m1 = _lastReconnectAttempt m
    /\ _reconnectAttempts m1 = _reconnectAttempts m
    /\ exists ev, emitted m m1 ev
                  /\ count is_join ev = 0 /\ count is_portal_start ev = 0
                  /\ count (is_status CONFIG_MODE) ev = 0.
Proof.
  intros H. unfold portal_handle. rewrite H.
  destruct (_active (_portal m)); [destruct (portal_timed_out t)|]; cbn.
  - exists (portal_stop m). split; [reflexivity|]. apply portal_stop_frame.
  - exists m. repeat split. exists []. unfold emitted. now rewrite app_nil_r.
  - exists m. repeat split. exists []. unfold emitted. now rewrite app_nil_r.
Qed.

Lemma checkResetButton_idle (t : Tick) (m : PicoWiFiManager) :
  pin_low t = false -> pressed m = false -> checkResetButton t m = Running m.
Proof.
  intros H1 H2. unfold checkResetButton. rewrite H1, H2. cbn.
  now destruct (resetPin (_config m) =? 255)%N.
Qed.

(** A due pass below the limit: one join, which fails. *)
Lemma handleReconnection_attempt (t : Tick) (m : PicoWiFiManager) :
  ready m -> failing t -> _configMode m = false ->
  due t (_lastReconnectAttempt m) ->
  (_reconnectAttempts m < maxReconnectAttempts (_config m))%N ->
  let m' := handleReconnection t m in
  same_setup m m'
  /\ _configMode m' = false
  /\ _lastReconnectAttempt m' = (millis_reconnect t mod two32)%N
  /\ _reconnectAttempts m' = (_reconnectAttempts m + 1)%N
  /\ _status m' = DISCONNECTED
  /\ exists ev, emitted m m' ev
                /\ count is_join ev = 1 /\ count is_portal_start ev = 0
                /\ count (is_status CONFIG_MODE) ev = 0.
Proof.
  intros (R1 & R2 & R3 & R4 & s & R5 & R6 & R7 & R8) (F1 & F2 & F3 & F4 & F5)
         Hcm Hdue Hlt.
  unfold due in Hdue. unfold handleReconnection.
  rewrite F3, Hcm. cbn [orb].
  destruct (N.ltb_spec (sub32 (millis_reconnect t) (_lastReconnectAttempt m)) 10000);
    [lia|].
  destruct (N.leb_spec (maxReconnectAttempts (_config m)) (_reconnectAttempts m));
    [lia|].
  cbv zeta. cbn [_storage set_reconnect]. rewrite R5.
  unfold Storage.loadWiFiCredentials. rewrite R6. cbn [negb]. rewrite R7, F4.
  set (m1 := set_reconnect _ _ m).
  destruct (@connectWiFi_failed _
              (Some (Storage.password (Storage.wifi (Storage._data s)))) m1 R8)
    as (_ & C2 & C3 & C4 & C5 & C6 & ev & C7 & C8 & C9 & C10).
  splits.
  - exact C2.
  - now rewrite C3.
  - now rewrite C5.
  - rewrite C6. subst m1. cbn [_reconnectAttempts set_reconnect].
    apply N.mod_small. lia.
  - exact C4.
  - exists ev. splits; assumption.
Qed.

(** A due pass at the limit: the setup portal is started instead. *)
Lemma handleReconnection_gives_up (t : Tick) (m : PicoWiFiManager) :
  failing t -> _configMode m = false ->
  due t (_lastReconnectAttempt m) ->
  (maxReconnectAttempts (_config m) <= _reconnectAttempts m)%N ->
  handleReconnection t m = snd (startConfigPortal true m).
Proof.
  intros (F1 & F2 & F3 & F4 & F5) Hcm Hdue Hle.
  unfold due in Hdue. unfold handleReconnection.
  rewrite F3, Hcm, F5. cbn [orb].
  destruct (N.ltb_spec (sub32 (millis_reconnect t) (_lastReconnectAttempt m)) 10000);
    [lia|].
  destruct (N.leb_spec (maxReconnectAttempts (_config m)) (_reconnectAttempts m));
    [reflexivity|lia].
Qed.

(** The whole pass, up to [handleReconnection]. *)
Lemma loop_quiet (t : Tick) (m : PicoWiFiManager) :
  ready m -> failing t ->
  exists m1, same_setup m m1
    /\ _configMode m1 = _configMode m
    /\ _status m1 = _status m
    /\ _lastReconnectAttempt m1 = _lastReconnectAttempt m
    /\ _reconnectAttempts m1 = _reconnectAttempts m
  /\ (exists ev, emitted m m1 ev
                 /\ count is_join ev = 0 /\ count is_portal_start ev = 0
                 /\ count (is_status CONFIG_MODE) ev = 0)
  /\ loop t m = Running (if negb (_configMode m1) then handleReconnection t m1
                           else m1).
Proof.
  intros R F. pose proof R as (R1 & R2 & R3 & R4 & R5).
  pose proof F as (F1 & F2 & F3 & F4 & F5).
  destruct (portal_handle_quiet t m F1)
    as (m1 & P1 & P2 & P3 & P4 & P5 & P6 & P7).
  exists m1. splits; auto.
  unfold loop. rewrite R1, P1. cbn [negb and_then].
  rewrite checkResetButton_idle; auto.
  - cbn [and_then]. destruct P2 as (-> & _). now rewrite R2, andb_true_r.
  - destruct P2 as (_ & _ & _ & -> & _). exact R3.
Qed.

(** Attempts while the limit is not reached. *)
Lemma run_attempts (ts : list Tick) : forall m : PicoWiFiManager,
  ready m -> _configMode m = false -> Forall failing ts ->
  spaced (_lastReconnectAttempt m) ts ->
  (_reconnectAttempts m + N.of_nat (length ts)
   <= maxReconnectAttempts (_config m))%N ->
  exists m' ev,
    run ts m = Running m'
    /\ ready m'
    /\ _config m' = _config m
    /\ _configMode m' = false
    /\ _reconnectAttempts m' = (_reconnectAttempts m + N.of_nat (length ts))%N
    /\ _lastReconnectAttempt m' = last_attempt (_lastReconnectAttempt m) ts
    /\ emitted m m' ev
    /\ count is_join ev = length ts
    /\ count is_portal_start ev = 0
    /\ count (is_status CONFIG_MODE) ev = 0
    /\ _onStatusChange m' = _onStatusChange m
    /\ (_status m <> CONFIG_MODE -> _status m' <> CONFIG_MODE).
Proof.
  induction ts as [|t ts IH]; intros m R Hcm HF Hsp Hle.
  - exists m, []. cbn. rewrite N.add_0_r. unfold emitted.
    rewrite app_nil_r. splits; auto.
  - inversion HF as [|? ? Ft HF']; subst. destruct Hsp as (Hdue & Hsp).
    cbn [length] in Hle. rewrite Nat2N.inj_succ in Hle.
    destruct (loop_quiet R Ft)
      as (m1 & Q1 & Q2 & Q3 & Q4 & Q5 & (ev1 & Q6 & Q7 & Q8 & Q8') & Q9).
    assert (R1 : ready m1) by (eapply ready_same_setup; eauto).
    rewrite Q2, Hcm in Q9. cbn [negb] in Q9.
    assert (Hc1 : _config m1 = _config m) by apply Q1.
    destruct (@handleReconnection_attempt t m1 R1 Ft)
      as (A1 & A2 & A3 & A4 & A4' & ev2 & A5 & A6 & A7 & A7').
    { congruence. } { now rewrite Q4. } { rewrite Q5, Hc1. lia. }
    set (m2 := handleReconnection t m1) in *.
    assert (R2 : ready m2) by (eapply ready_same_setup; eauto).
    assert (Hc2 : _config m2 = _config m) by (destruct A1 as (-> & _); exact Hc1).
    destruct (IH m2 R2 A2 HF')
      as (m' & ev3 & I1 & I2 & I3 & I4 & I5 & I6 & I7 & I8 & I9 & I10 & I11 & I12).
    { now rewrite A3. } { rewrite A4, Q5, Hc2. lia. }
    exists m', (ev1 ++ ev2 ++ ev3). cbn [run]. rewrite Q9. cbn [and_then].
    splits; auto.
    + congruence.
    + rewrite I5, A4, Q5. cbn [length]. rewrite Nat2N.inj_succ. lia.
    + rewrite I6, A3. reflexivity.
    + eapply emitted_trans; [exact Q6|]. eapply emitted_trans; eauto.
    + rewrite !count_app, Q7, A6, I8. reflexivity.
    + rewrite !count_app, Q8, A7, I9. reflexivity.
    + rewrite !count_app, Q8', A7', I10. reflexivity.
    + rewrite I11. destruct A1 as (_ & _ & _ & _ & _ & ->).
      destruct Q1 as (_ & _ & _ & _ & _ & ->). reflexivity.
    + intros _. apply I12. rewrite A4'. discriminate.
Qed.

(** In config mode no pass starts a join or the portal. *)
Lemma run_config_mode (ts : list Tick) : forall m : PicoWiFiManager,
  ready m -> _configMode m = true -> Forall failing ts ->
  exists m' ev,
    run ts m = Running m'
    /\ ready m'
    /\ _configMode m' = true
    /\ _status m' = _status m
    /\ _reconnectAttempts m' = _reconnectAttempts m
    /\ emitted m m' ev
    /\ count is_join ev = 0
    /\ count is_portal_start ev = 0
    /\ count (is_status CONFIG_MODE) ev = 0.
Proof.
  induction ts as [|t ts IH]; intros m R Hcm HF.
  - exists m, []. cbn. unfold emitted. rewrite app_nil_r. splits; auto.
  - inversion HF as [|? ? Ft HF']; subst.
    destruct (loop_quiet R Ft)
      as (m1 & Q1 & Q2 & Q3 & Q4 & Q5 & (ev1 & Q6 & Q7 & Q8 & Q8') & Q9).
    assert (R1 : ready m1) by (eapply ready_same_setup; eauto).
    rewrite Q2, Hcm in Q9. cbn [negb] in Q9.
    destruct (IH m1 R1) as (m' & ev2 & I1 & I2 & I3 & I4 & I5 & I6 & I7 & I8 & I9);
      [congruence | assumption |].
    exists m', (ev1 ++ ev2). cbn [run]. rewrite Q9. cbn [and_then].
    splits; auto; try congruence.
    + eapply emitted_trans; eauto.
    + rewrite count_app, Q7, I7. reflexivity.
    + rewrite count_app, Q8, I8. reflexivity.
    + rewrite count_app, Q8', I9. reflexivity.
Qed.

(** From a counter at zero: [maxReconnectAttempts] spaced passes make one
    failed join each; the next due pass starts the setup portal; later
    passes, whenever they come, start nothing. *)
Lemma failures_from_zero (m : PicoWiFiManager) (ts1 ts2 : list Tick) (t : Tick) :
  ready m -> _configMode m = false -> _reconnectAttempts m = 0%N ->
  length ts1 = N.to_nat (maxReconnectAttempts (_config m)) ->
  Forall failing (ts1 ++ t :: ts2) ->
  spaced (_lastReconnectAttempt m) (ts1 ++ [t]) ->
  exists m1 m2 m3 ev1 ev2 ev3,
    run ts1 m = Running m1
    /\ emitted m m1 ev1
    /\ count is_join ev1 = N.to_nat (maxReconnectAttempts (_config m))
    /\ count is_portal_start ev1 = 0
    /\ _configMode m1 = false
    /\ loop t m1 = Running m2
    /\ emitted m1 m2 ev2
    /\ count is_join ev2 = 0
    /\ count is_portal_start ev2 = 1
    /\ _configMode m2 = true
    /\ _status m2 = CONFIG_MODE
    /\ run ts2 m2 = Running m3
    /\ emitted m2 m3 ev3
    /\ count is_join ev3 = 0
    /\ count is_portal_start ev3 = 0
    /\ _configMode m3 = true
    /\ _status m3 = CONFIG_MODE
    /\ run (ts1 ++ t :: ts2) m = Running m3
    (* notifications of CONFIG_MODE to the observer *)
    /\ count (is_status CONFIG_MODE) ev1 = 0
    /\ count (is_status CONFIG_MODE) ev2 <= 1
    /\ (_onStatusChange m = true -> _status m <> CONFIG_MODE ->
        count (is_status CONFIG_MODE) ev2 = 1)
    /\ count (is_status CONFIG_MODE) ev3 = 0.
Proof.
  intros R Hcm H0 Hlen HF Hsp.
  apply Forall_app in HF. destruct HF as (HF1 & HF2).
  inversion HF2 as [|? ? Ft HF3]; subst.
  apply spaced_app in Hsp. destruct Hsp as (Hsp1 & Hdue & _).
  destruct (@run_attempts ts1 m R Hcm HF1 Hsp1)
    as (m1 & ev1 & A1 & A2 & A3 & A4 & A5 & A6 & A7 & A8 & A9 & A10 & A11 & A12).
  { rewrite H0, Hlen, N2Nat.id. lia. }
  destruct (loop_quiet A2 Ft)
    as (m1' & Q1 & Q2 & Q3 & Q4 & Q5 & (ev2a & Q6 & Q7 & Q8 & Q8') & Q9).
  rewrite Q2, A4 in Q9. cbn [negb] in Q9.
  rewrite handleReconnection_gives_up in Q9; auto.
  2:{ congruence. } 2:{ rewrite Q4, A6. exact Hdue. }
  2:{ destruct Q1 as (-> & _). rewrite Q5, A5, A3, H0, Hlen, N2Nat.id. lia. }
  destruct (startConfigPortal_started m1')
    as (_ & S2 & S3 & S4 & _ & _ & _ & ev2b & S8 & S9 & S10 & S11 & S12).
  set (m2 := snd (startConfigPortal true m1')) in *.
  assert (R2 : ready m2).
  { eapply ready_same_setup; [exact A2|]. eapply same_setup_trans; eauto. }
  destruct (@run_config_mode ts2 m2 R2 S3 HF3)
    as (m3 & ev3 & C1 & C2 & C3 & C4 & C5 & C6 & C7 & C8 & C9).
  exists m1, m2, m3, ev1, (ev2a ++ ev2b), ev3.
  splits; auto.
  - rewrite A8. exact Hlen.
  - eapply emitted_trans; eauto.
  - rewrite count_app, Q7, S9. reflexivity.
  - rewrite count_app, Q8, S10. reflexivity.
  - congruence.
  - rewrite (@run_app ts1 (t :: ts2) m m1 A1). cbn [run]. rewrite Q9.
    cbn [and_then]. exact C1.
  - rewrite count_app, Q8'. exact S11.
  - intros Ho Hs. rewrite count_app, Q8'. apply S12.
    + destruct Q1 as (_ & _ & _ & _ & _ & ->). now rewrite A11.
    + rewrite Q3. now apply A12.
Qed.

End Reconnection.

(* ===================================================================== *)
(** ** Giving up, and starting over *)

Section GivingUp.
Import Manager.

(** C5, as stated, fails: when [WiFi.softAP] fails, the pass that gives up
    enters CONFIG_MODE and leaves it at once with status ERROR, and every
    later pass does so again.  Here, after the three failed joins, four
    passes 1 ms apart enter CONFIG_MODE four times. *)
Lemma reconnection_gives_up_again_without_access_point :
  let m1 := state_of (run (map outage [20000; 60000; 100000]%N) provisioned) in
  let m2 := state_of (run (map ap_down [140000; 140001; 140002; 140003]%N) m1) in
  autoReconnect (_config provisioned) = true
  /\ _configMode provisioned = false
  /\ maxReconnectAttempts (_config provisioned) = 3%N
  /\ run (map outage [20000; 60000; 100000]%N) provisioned = Running m1
  /\ count is_join (trace m1) = count is_join (trace provisioned) + 3
  /\ _reconnectAttempts m1 = 3%N
  /\ run (map ap_down [140000; 140001; 140002; 140003]%N) m1 = Running m2
  /\ count (is_status CONFIG_MODE) (trace m2)
     = count (is_status CONFIG_MODE) (trace m1) + 4
  /\ count is_portal_start (trace m2) = count is_portal_start (trace m1) + 4
  /\ count is_join (trace m2) = count is_join (trace m1)
  /\ _status m2 = ERROR
  /\ _configMode m2 = false.
Proof. vm_compute. repeat split. Qed.

(** C5, amended: with [autoReconnect] set and outside config mode, once
    [maxReconnectAttempts] joins in a row have failed, each at least 10 s
    after the attempt before, the next due pass of the loop starts the
    setup portal and, the access point coming up ([failing] has
    [WiFi.softAP] succeed), enters CONFIG_MODE; that happens once (one
    [WiFi.softAP], one notification of CONFIG_MODE to a registered
    observer), and in config mode no later pass starts a join. *)
Theorem reconnection_gives_up_once
        (m : PicoWiFiManager) (ts1 ts2 : list Tick) (t : Tick) :
  ready m -> _configMode m = false -> _reconnectAttempts m = 0%N ->
  length ts1 = N.to_nat (maxReconnectAttempts (_config m)) ->
  Forall failing (ts1 ++ t :: ts2) ->
  spaced (_lastReconnectAttempt m) (ts1 ++ [t]) ->
  exists m1 m2 m3 ev1 ev2 ev3,
    (* the failed attempts *)
    run ts1 m = Running m1
    /\ emitted m m1 ev1
    /\ count is_join ev1 = N.to_nat (maxReconnectAttempts (_config m))
    /\ count is_portal_start ev1 = 0
    /\ _configMode m1 = false
    (* giving up *)
    /\ loop t m1 = Running m2
    /\ emitted m1 m2 ev2
    /\ count is_join ev2 = 0
    /\ count is_portal_start ev2 = 1
    /\ _configMode m2 = true
    /\ _status m2 = CONFIG_MODE
    (* in config mode *)
    /\ run ts2 m2 = Running m3
    /\ emitted m2 m3 ev3
    /\ count is_join ev3 = 0
    /\ count is_portal_start ev3 = 0
    /\ _configMode m3 = true
    /\ _status m3 = CONFIG_MODE
    /\ run (ts1 ++ t :: ts2) m = Running m3
    (* notifications of CONFIG_MODE to the observer *)
    /\ count (is_status CONFIG_MODE) ev1 = 0
    /\ count (is_status CONFIG_MODE) ev2 <= 1
    /\ (_onStatusChange m = true -> _status m <> CONFIG_MODE ->
        count (is_status CONFIG_MODE) ev2 = 1)
    /\ count (is_status CONFIG_MODE) ev3 = 0.
Proof. intros. now apply failures_from_zero. Qed.

Lemma reconnection_gives_up_once_witness :
  exists m3,
    run (map outage [20000; 60000; 100000; 140000; 140100; 200000]%N) provisioned
    = Running m3
    /\ _configMode m3 = true
    /\ _status m3 = CONFIG_MODE
    /\ count is_join (trace m3) = 1 + 3
    /\ count is_portal_start (trace m3) = 1 + 1
    /\ count (is_status CONFIG_MODE) (trace m3) = 1 + 1.
Proof.
  destruct (@reconnection_gives_up_once provisioned
              (map outage [20000; 60000; 100000]%N)
              (map outage [140100; 200000]%N)
              (outage 140000))
    as (m1 & m2 & m3 & ev1 & ev2 & ev3 & H).
  - unfold ready, has_credentials.
    splits; [vm_compute; reflexivity .. |].
    exists configured. splits; [vm_compute; reflexivity .. |].
    vm_compute. discriminate.
  - vm_compute. reflexivity.
  - vm_compute. reflexivity.
  - vm_compute. reflexivity.
  - repeat (constructor; [unfold failing; repeat split|]). constructor.
  - vm_compute. repeat split; discriminate.
  - exists m3.
    destruct H as (_ & E1 & J1 & P1 & _ & _ & E2 & J2 & P2 & _ & _ & _
                     & E3 & J3 & P3 & C3 & S3 & Hrun & N1 & _ & N2 & N3).
    splits; [exact Hrun | exact C3 | exact S3 | | |].
    + unfold emitted in *. rewrite E3, E2, E1, !count_app, J1, J2, J3.
      reflexivity.
    + unfold emitted in *. rewrite E3, E2, E1, !count_app, P1, P2, P3.
      reflexivity.
    + unfold emitted in *. rewrite E3, E2, E1, !count_app, N1, N3.
      rewrite N2; [reflexivity | reflexivity | vm_compute; discriminate].
Defined.

(** C6: a join that succeeds sets the attempt counter to 0, whatever it
    was; a following series of failures takes [maxReconnectAttempts]
    attempts again before the setup portal is started. *)
Theorem successful_join_resets_counter
        (m : PicoWiFiManager) (ssid_arg pw : option (list byte))
        (ts1 ts2 : list Tick) (t : Tick) :
  fst (connectWiFi ssid_arg pw true m) = true ->
  let m0 := snd (connectWiFi ssid_arg pw true m) in
  _reconnectAttempts m0 = 0%N
  /\ _status m0 = CONNECTED
  /\ (ready m -> _configMode m = false ->
      length ts1 = N.to_nat (maxReconnectAttempts (_config m)) ->
      Forall failing (ts1 ++ t :: ts2) ->
      spaced (_lastReconnectAttempt m) (ts1 ++ [t]) ->
      exists m1 m2 ev1 ev2,
        run ts1 m0 = Running m1
        /\ emitted m0 m1 ev1
        /\ count is_join ev1 = N.to_nat (maxReconnectAttempts (_config m))
        /\ count is_portal_start ev1 = 0
        /\ _configMode m1 = false
        /\ loop t m1 = Running m2
        /\ emitted m1 m2 ev2
        /\ count is_join ev2 = 0
        /\ count is_portal_start ev2 = 1
        /\ _configMode m2 = true
        /\ _status m2 = CONFIG_MODE).
Proof.
  intros Hok m0.
  destruct (connectWiFi_joined ssid_arg pw m Hok) as (J1 & J2 & J3 & J4 & J5).
  fold m0 in J1, J2, J3, J4, J5.
  splits; [exact J5 | exact J3 |].
  intros R Hcm Hlen HF Hsp.
  assert (Hc : _config m0 = _config m) by apply J1.
  destruct (@failures_from_zero m0 ts1 ts2 t)
    as (m1 & m2 & m3 & ev1 & ev2 & ev3 & H); try assumption.
  - eapply ready_same_setup; eauto.
  - congruence.
  - now rewrite Hc.
  - now rewrite J4.
  - rewrite Hc in H. exists m1, m2, ev1, ev2.
    destruct H as (H1 & H2 & H3 & H4 & H5 & H6 & H7 & H8 & H9 & H10 & H11 & _).
    splits; assumption.
Qed.

Lemma successful_join_resets_counter_witness :
  _reconnectAttempts struggling = 2%N
  /\ fst (connectWiFi (Some home) (Some secret) true struggling) = true
  /\ _reconnectAttempts (snd (connectWiFi (Some home) (Some secret) true struggling))
     = 0%N
  /\ exists m1 m2,
       run (map outage [100000; 140000; 180000]%N)
           (snd (connectWiFi (Some home) (Some secret) true struggling))
       = Running m1
       /\ _configMode m1 = false
       /\ loop (outage 220000) m1 = Running m2
       /\ _configMode m2 = true
       /\ count is_join (trace m2)
          = count is_join
              (trace (snd (connectWiFi (Some home) (Some secret) true struggling)))
            + 3.
Proof.
  destruct (@successful_join_resets_counter struggling
              (Some home) (Some secret)
              (map outage [100000; 140000; 180000]%N) [] (outage 220000) eq_refl)
    as (H0 & _ & Hrun).
  splits; [reflexivity | reflexivity | exact H0 |].
  destruct Hrun as (m1 & m2 & ev1 & ev2 & R1 & E1 & J1 & _ & C1 & R2 & E2 & J2 & _ & C2 & _).
  - unfold ready, has_credentials.
    splits; [vm_compute; reflexivity .. |].
    exists configured. splits; [vm_compute; reflexivity .. |].
    vm_compute. discriminate.
  - vm_compute. reflexivity.
  - vm_compute. reflexivity.
  - repeat (constructor; [unfold failing; repeat split|]). constructor.
  - vm_compute. repeat split; discriminate.
  - exists m1, m2. splits; try assumption.
    unfold emitted in *. rewrite E2, E1, !count_app, J1, J2.
    replace (N.to_nat (maxReconnectAttempts (_config struggling))) with 3
      by (vm_compute; reflexivity).
    now rewrite Nat.add_0_r.
Defined.

End GivingUp.

(* ===================================================================== *)
(** ** The reset button *)

Section ResetButton.
Import Manager.






End ResetButton.

(* ===================================================================== *)
(** ** The checksum and what it covers *)

Section Integrity.
Import Bytes CString Storage.

(** The loop of [calculateChecksum] runs over bytes 0..231: the checksum
    member (bytes 8..11) is inside, the last four bytes of [reserved]
    (232..235) are outside. *)
Lemma checksum_range :
  sizeof_StorageData - sizeof_checksum = 232
  /\ length (to_bytes (_data healthy)) = sizeof_StorageData
  /\ slice 8 4 (to_bytes (_data healthy)) = le32 (checksum (_data healthy))
  /\ slice 232 4 (to_bytes (_data healthy)) = skipn 60 (reserved (_data healthy)).
Proof. vm_compute. repeat split. Qed.

(** C2 at a failing input: the record [saveWiFiCredentials("home",
    "secret")] persists on a store opened over an erased EEPROM.  The
    call succeeds and the EEPROM holds the record, but read back it does
    not validate: the stored checksum is 24, the one [validateData]
    recomputes, over a range that now contains the 24, is 173.  The
    default record [begin] had written does not validate either. *)
Theorem written_record_does_not_validate :
  fst (saveWiFiCredentials (Some home) (Some secret) opened) = true
  /\ EEPROM_get 0 (EEPROM configured) = Some (to_bytes (_data configured))
  /\ of_bytes (to_bytes (_data configured)) = _data configured
  /\ checksum (_data configured) = 24%N
  /\ calculateChecksum (_data configured) = 173%N
  /\ validateData (_data configured) = false
  /\ fst (loadFromEEPROM configured) = false
  /\ isValid configured = false
  /\ isValid opened = false
  /\ hasWiFiCredentials configured = true
  /\ hasWiFiCredentials (power_cycle (EEPROM configured)) = false.
Proof. vm_compute. repeat split. Qed.

(** C1 at a failing input: [healthy] validates, in memory and read back.
    With the last byte of the persisted record (offset 235, in
    [reserved], outside the checksum member) changed from 0x00 to 0x5A,
    the record still validates and the next [begin] keeps it, corrupted
    byte included.  With the first byte changed instead, validation does
    fail and [begin] writes the default record, which does not validate. *)
Theorem corruption_outside_checksum_range_undetected :
  validateData (_data healthy) = true
  /\ fst (loadFromEEPROM healthy) = true
  /\ nth 235 (cells (EEPROM healthy)) x00 = x00
  /\ (let e := corrupt 235 x5a (EEPROM healthy) in
      option_map (fun m => validateData (of_bytes m)) (EEPROM_get 0 e) = Some true
      /\ cells (EEPROM (power_cycle e)) = cells e
      /\ nth 63 (reserved (_data (power_cycle e))) x00 = x5a
      /\ wifi (_data (power_cycle e)) = wifi (_data healthy))
  /\ (let e := corrupt 0 x00 (EEPROM healthy) in
      option_map (fun m => validateData (of_bytes m)) (EEPROM_get 0 e) = Some false
      /\ wifi (_data (power_cycle e)) = WiFiCredentials_new
      /\ slice 0 236 (cells (EEPROM (power_cycle e)))
         = to_bytes (_data (power_cycle e))
      /\ validateData (_data (power_cycle e)) = false).
Proof. vm_compute. repeat split. Qed.

End Integrity.

(* ===================================================================== *)
(** ** When a written record validates *)

Section ChecksumAlgebra.
Import Bytes CString Storage.

Lemma fold_xor_byte (l : list byte) (a : N) :
  fold_left xor_byte l a = N.lxor a (xors l).
Proof.
  unfold xors. revert a. induction l as [|b l IH]; intros a; cbn [fold_left].
  - now rewrite N.lxor_0_r.
  - rewrite IH, (IH (xor_byte 0 b)). unfold xor_byte.
    now rewrite N.lxor_0_l, N.lxor_assoc.
Qed.

Lemma xors_app (l1 l2 : list byte) : xors (l1 ++ l2) = N.lxor (xors l1) (xors l2).
Proof. unfold xors at 1. rewrite fold_left_app. apply fold_xor_byte. Qed.

Lemma log2_below_256 (a : N) : (a < 256 -> N.log2 a < 8)%N.
Proof.
  intros Ha. destruct (N.eq_dec a 0) as [->|Hn]; [simpl; lia|].
  apply N.log2_lt_pow2; [lia | exact Ha].
Qed.

Lemma lxor_below_256 (a b : N) : (a < 256 -> b < 256 -> N.lxor a b < 256)%N.
Proof.
  intros Ha Hb.
  destruct (N.eq_dec (N.lxor a b) 0) as [E|E]; [rewrite E; lia|].
  change 256%N with (2 ^ 8)%N. apply N.log2_lt_pow2; [lia|].
  pose proof (N.log2_lxor a b) as H.
  pose proof (log2_below_256 Ha). pose proof (log2_below_256 Hb). lia.
Qed.

Lemma xors_below_256 (l : list byte) : (xors l < 256)%N.
Proof.
  induction l as [|b l IH].
  - unfold xors. simpl. lia.
  - change (b :: l) with ([b] ++ l). rewrite xors_app.
    apply lxor_below_256; [|exact IH].
    unfold xors, xor_byte. cbn [fold_left]. rewrite N.lxor_0_l.
    pose proof (Byte.to_N_bounded b). lia.
Qed.

Lemma to_N_uint8 (n : N) : Byte.to_N (uint8 n) = (n mod 256)%N.
Proof.
  unfold uint8. destruct (Byte.of_N (n mod 256)) as [b|] eqn:E.
  - now apply Byte.to_of_N.
  - apply Byte.of_N_None_iff in E.
    pose proof (N.mod_upper_bound n 256). lia.
Qed.

Lemma uint8_small (n : N) : (n < 256)%N -> Byte.to_N (uint8 n) = n.
Proof. intros H. rewrite to_N_uint8. now apply N.mod_small. Qed.

(** The bytes of a checksum the loop produced XOR to the checksum. *)
Lemma xors_le32_small (c : N) : (c < 256)%N -> xors (le32 c) = c.
Proof.
  intros H. unfold le32.
  assert (Z8 : forall k, (8 <= k)%N -> N.shiftr c k = 0%N).
  { intros k Hk. rewrite N.shiftr_div_pow2. apply N.div_small.
    apply N.lt_le_trans with (2 ^ 8)%N; [exact H|].
    apply N.pow_le_mono_r; lia. }
  rewrite !Z8 by lia. unfold xors, xor_byte. cbn [fold_left].
  rewrite uint8_small by exact H.
  change (Byte.to_N (uint8 0)) with 0%N.
  now rewrite N.lxor_0_l, !N.lxor_0_r.
Qed.

Lemma calculateChecksum_below_256 (d : StorageData) : (calculateChecksum d < 256)%N.
Proof. apply xors_below_256. Qed.

(** The loop XORs the checksum member in with the rest. *)
Lemma calculateChecksum_split (d : StorageData) :
  length (pad_version (padding d)) = 3 ->
  calculateChecksum d = N.lxor (others d) (xors (le32 (checksum d))).
Proof.
  intros Hpad.
  assert (Hsplit : forall c,
            calculateChecksum (set_checksum c d)
            = N.lxor (N.lxor (xors (le32 (magic d) ++ [uint8 (version d)]
                                      ++ pad_version (padding d)))
                             (xors (le32 c)))
                     (xors (firstn 220
                              (WiFiCredentials_bytes (wifi d) ++ pad_wifi (padding d)
                               ++ NetworkConfig_bytes (pad_network (padding d)) (network d)
                               ++ DeviceConfig_bytes (device d) ++ reserved d)))).
  { intros c. unfold calculateChecksum, to_bytes.
    cbn [magic version checksum wifi network device reserved padding set_checksum].
    change (sizeof_StorageData - sizeof_checksum) with 232.
    fold (xors (firstn 232
      (le32 (magic d) ++ [uint8 (version d)] ++ pad_version (padding d) ++ le32 c
       ++ WiFiCredentials_bytes (wifi d) ++ pad_wifi (padding d)
       ++ NetworkConfig_bytes (pad_network (padding d)) (network d)
       ++ DeviceConfig_bytes (device d) ++ reserved d))).
    rewrite (app_assoc [uint8 (version d)]), (app_assoc (le32 (magic d))).
    rewrite (app_assoc _ (le32 c)).
    rewrite firstn_app, firstn_all2.
    2:{ rewrite !length_app. cbn [length le32]. lia. }
    rewrite !length_app. cbn [length le32]. rewrite Hpad.
    change (232 - (4 + (1 + 3) + 4)) with 220.
    rewrite !xors_app. reflexivity. }
  unfold others.
  assert (E : d = set_checksum (checksum d) d) by (destruct d; reflexivity).
  rewrite E at 1. rewrite !Hsplit.
  change (xors (le32 0)) with 0%N. rewrite N.lxor_0_r.
  rewrite !N.lxor_assoc. f_equal. apply N.lxor_comm.
Qed.

(** X1: the record [saveToEEPROM] leaves in memory and on the EEPROM
    validates exactly when magic and version are right, the stored ssid
    is acceptable when marked valid, and the bytes the loop covers
    besides the checksum member XOR to zero. *)
Theorem written_record_validates_iff (s : StorageManager) :
  length (pad_version (padding (_data s))) = 3 ->
  validateData (_data (snd (saveToEEPROM s))) = true
  <-> (magic (_data s) = STORAGE_MAGIC
       /\ version (_data s) = STORAGE_VERSION
       /\ others (_data s) = 0%N
       /\ (truthy (valid (wifi (_data s))) = true ->
           isValidSSID (ssid (wifi (_data s))) = true)).
Proof.
  intros Hpad. unfold saveToEEPROM. cbn [snd _data].
  set (d := _data s) in *. set (c := calculateChecksum d).
  assert (Hc : (c < 256)%N) by apply calculateChecksum_below_256.
  assert (Hcalc : calculateChecksum (set_checksum c d) = N.lxor (others d) c).
  { rewrite calculateChecksum_split by exact Hpad.
    cbn [checksum set_checksum]. rewrite xors_le32_small by exact Hc.
    reflexivity. }
  unfold validateData. rewrite Hcalc.
  cbn [magic version checksum wifi set_checksum].
  destruct (N.eqb_spec (magic d) STORAGE_MAGIC) as [Hm|Hm]; cbn [negb];
    [|split; [discriminate | intros (H & _); contradiction]].
  destruct (N.eqb_spec (version d) STORAGE_VERSION) as [Hv|Hv]; cbn [negb];
    [|split; [discriminate | intros (_ & H & _); contradiction]].
  destruct (N.eqb_spec c (N.lxor (others d) c)) as [Hx|Hx]; cbn [negb].
  - assert (H0 : others d = 0%N).
    { assert (H : N.lxor (N.lxor (others d) c) c = 0%N)
        by (rewrite <- Hx; apply N.lxor_nilpotent).
      now rewrite N.lxor_assoc, N.lxor_nilpotent, N.lxor_0_r in H. }
    destruct (truthy (valid (wifi d))); [destruct (isValidSSID (ssid (wifi d)))|];
      cbn [negb].
    + split; [intros _; splits; auto | reflexivity].
    + split; [discriminate | intros (_ & _ & _ & H); discriminate (H eq_refl)].
    + split; [intros _; splits; auto; discriminate | reflexivity].
  - split; [discriminate|]. intros (_ & _ & H0 & _). exfalso. apply Hx.
    now rewrite H0, N.lxor_0_l.
Qed.

Lemma written_record_validates_iff_witness :
  length (pad_version (padding (_data configured))) = 3
  /\ others (_data configured) = 181%N
  /\ validateData (_data (snd (saveToEEPROM configured))) = false.
Proof.
  assert (Hpad : length (pad_version (padding (_data configured))) = 3)
    by reflexivity.
  splits; [exact Hpad | reflexivity |].
  destruct (validateData (_data (snd (saveToEEPROM configured)))) eqn:E;
    [|reflexivity].
  apply (written_record_validates_iff configured Hpad) in E.
  destruct E as (_ & _ & E & _). vm_compute in E. discriminate.
Defined.

End ChecksumAlgebra.

(* ===================================================================== *)
(** ** Which corruptions the checksum detects *)

Section Corruption.
Import Bytes CString Storage.

Lemma firstn_plus {A} (n k : nat) (l : list A) :
  firstn (n + k) l = firstn n l ++ firstn k (skipn n l).
Proof.
  revert l. induction n as [|n IH]; intros [|x l]; simpl; try reflexivity.
  - now rewrite firstn_nil.
  - now rewrite IH.
Qed.

Lemma slice_app (a n k : nat) (m : list byte) :
  slice a n m ++ slice (a + n) k m = slice a (n + k) m.
Proof.
  unfold slice. rewrite firstn_plus, skipn_skipn. now rewrite (Nat.add_comm n a).
Qed.

Lemma slice_join (a n b k : nat) (m : list byte) :
  b = a + n -> slice a n m ++ slice b k m = slice a (n + k) m.
Proof. intros ->. apply slice_app. Qed.

Lemma slice_one (a : nat) (m : list byte) :
  a < length m -> [byte_at a m] = slice a 1 m.
Proof.
  unfold slice, byte_at. revert a. induction m as [|x m IH]; intros a H.
  - simpl in H. lia.
  - destruct a as [|a]; simpl; [reflexivity|]. apply IH. simpl in H. lia.
Qed.

Lemma length_slice (a n : nat) (m : list byte) :
  a + n <= length m -> length (slice a n m) = n.
Proof. intros H. unfold slice. rewrite length_firstn, length_skipn. lia. Qed.

Lemma uint8_to_N (b : byte) : uint8 (Byte.to_N b) = b.
Proof.
  unfold uint8. pose proof (Byte.to_N_bounded b).
  rewrite N.mod_small by lia. now rewrite Byte.of_to_N.
Qed.

Lemma uint8_cons (b : byte) (r : N) : uint8 (Byte.to_N b + 256 * r) = b.
Proof.
  unfold uint8. pose proof (Byte.to_N_bounded b).
  replace ((Byte.to_N b + 256 * r) mod 256)%N with (Byte.to_N b).
  - now rewrite Byte.of_to_N.
  - rewrite (N.mul_comm 256 r), N.Div0.mod_add. symmetry.
    apply N.mod_small. lia.
Qed.

Lemma shiftr8_cons (b : byte) (r : N) : N.shiftr (Byte.to_N b + 256 * r) 8 = r.
Proof.
  pose proof (Byte.to_N_bounded b).
  rewrite N.shiftr_div_pow2. change (2 ^ 8)%N with 256%N.
  rewrite (N.mul_comm 256 r), N.div_add by lia.
  rewrite N.div_small by lia. lia.
Qed.

Lemma shiftr_8_8 (n : N) : N.shiftr n 16 = N.shiftr (N.shiftr n 8) 8.
Proof. now rewrite N.shiftr_shiftr. Qed.

Lemma shiftr_8_16 (n : N) : N.shiftr n 24 = N.shiftr (N.shiftr (N.shiftr n 8) 8) 8.
Proof. now rewrite !N.shiftr_shiftr. Qed.

Lemma le32_le_decode (l : list byte) : length l = 4 -> le32 (le_decode l) = l.
Proof.
  destruct l as [|a [|b [|c [|d [|? ?]]]]]; try discriminate. intros _.
  unfold le32. rewrite shiftr_8_16, shiftr_8_8. cbn [le_decode].
  rewrite !shiftr8_cons, !uint8_cons. reflexivity.
Qed.

Lemma le16_le_decode (l : list byte) : length l = 2 -> le16 (le_decode l) = l.
Proof.
  destruct l as [|a [|b [|? ?]]]; try discriminate. intros _.
  unfold le16. cbn [le_decode].
  rewrite !shiftr8_cons, !uint8_cons. reflexivity.
Qed.

(** Copying 236 bytes into the object and reading the object's bytes
    gives the same bytes: the layout of [to_bytes] and the offsets of
    [of_bytes] agree. *)
Lemma to_bytes_of_bytes (m : list byte) :
  length m = sizeof_StorageData -> to_bytes (of_bytes m) = m.
Proof.
  unfold sizeof_StorageData. intros H.
  unfold to_bytes, of_bytes, WiFiCredentials_bytes, NetworkConfig_bytes,
    DeviceConfig_bytes.
  cbn [magic version checksum wifi network device reserved padding
       ssid password valid useStaticIP staticIP gateway subnet primaryDNS
       secondaryDNS hostname autoReconnect maxReconnectAttempts connectTimeout
       pad_version pad_wifi pad_network].
  rewrite !le32_le_decode by (apply length_slice; lia).
  rewrite le16_le_decode by (apply length_slice; lia).
  rewrite !uint8_to_N.
  change [byte_at 168 m; byte_at 169 m]
    with ([byte_at 168 m] ++ [byte_at 169 m]).
  repeat match goal with
         | |- context [[byte_at ?a m]] => rewrite (@slice_one a m) by lia
         end.
  rewrite <- !app_assoc.
  repeat match goal with
         | |- context [slice ?a ?n m ++ slice ?b ?k m] =>
           rewrite (@slice_join a n b k m eq_refl); cbn [Nat.add]
         end.
  unfold slice. cbn [skipn]. apply firstn_all2. lia.
Qed.

Lemma length_poke (i : nat) (b : byte) (m : list byte) :
  i < length m -> length (poke i b m) = length m.
Proof.
  intros H. unfold poke. rewrite length_app, length_firstn. cbn [length].
  rewrite length_skipn. lia.
Qed.

Lemma nth_poke_other (i j : nat) (b d : byte) (m : list byte) :
  i < length m -> j <> i -> nth j (poke i b m) d = nth j m d.
Proof.
  intros Hi Hj. unfold poke.
  assert (Hl : length (firstn i m) = i) by (rewrite length_firstn; lia).
  destruct (Nat.lt_ge_cases j i) as [Hlt|Hge].
  - rewrite app_nth1 by lia. rewrite nth_firstn.
    destruct (Nat.ltb_spec j i); [reflexivity | lia].
  - rewrite app_nth2 by lia. rewrite Hl.
    destruct (j - i) as [|k] eqn:E; [lia|]. cbn [nth].
    rewrite nth_skipn. f_equal. lia.
Qed.

Lemma nth_slice (a n j : nat) (d : byte) (m : list byte) :
  j < n -> nth j (slice a n m) d = nth (a + j) m d.
Proof.
  intros H. unfold slice. rewrite nth_firstn.
  destruct (Nat.ltb_spec j n); [apply nth_skipn | lia].
Qed.

(** A slice that does not contain the replaced byte is unchanged. *)
Lemma slice_poke_outside (a n i : nat) (b : byte) (m : list byte) :
  i < length m -> i < a \/ a + n <= i ->
  slice a n (poke i b m) = slice a n m.
Proof.
  intros Hi Hout.
  assert (Hlen : length (slice a n (poke i b m)) = length (slice a n m)).
  { unfold slice. rewrite !length_firstn, !length_skipn, length_poke; auto. }
  apply (nth_ext _ _ x00 x00 Hlen). intros j Hj.
  assert (j < n) by (unfold slice in Hj; rewrite length_firstn in Hj; lia).
  rewrite !nth_slice by assumption. apply nth_poke_other; [assumption | lia].
Qed.

Lemma byte_at_poke_other (a i : nat) (b : byte) (m : list byte) :
  i < length m -> a <> i -> byte_at a (poke i b m) = byte_at a m.
Proof. intros. unfold byte_at. now apply nth_poke_other. Qed.

(** Replacing a byte inside a slice changes the XOR of the slice by the
    XOR of the old and the new byte. *)
Lemma xors_slice_poke (n i : nat) (b : byte) (m : list byte) :
  i < n -> n <= length m ->
  xors (slice 0 n (poke i b m))
  = N.lxor (xors (slice 0 n m))
           (N.lxor (Byte.to_N (nth i m x00)) (Byte.to_N b)).
Proof.
  intros Hi Hn. unfold slice, poke. rewrite !skipn_O.
  assert (Hl : length (firstn i m) = i) by (rewrite length_firstn; lia).
  assert (Hm : m = firstn i m ++ nth i m x00 :: skipn (S i) m).
  { symmetry. apply firstn_skipn_middle. apply nth_error_nth'. lia. }
  rewrite Hm at 3.
  rewrite !firstn_app, Hl, !(firstn_all2 (n := n) (firstn i m)) by lia.
  destruct (n - i) as [|k] eqn:E; [lia|]. cbn [firstn].
  change (b :: firstn k (skipn (S i) m))
    with ([b] ++ firstn k (skipn (S i) m)).
  change (nth i m x00 :: firstn k (skipn (S i) m))
    with ([nth i m x00] ++ firstn k (skipn (S i) m)).
  rewrite !xors_app.
  change (xors [b]) with (N.lxor 0 (Byte.to_N b)).
  change (xors [nth i m x00]) with (N.lxor 0 (Byte.to_N (nth i m x00))).
  rewrite !N.lxor_0_l.
  apply N.bits_inj. intros t. rewrite !N.lxor_spec.
  repeat match goal with
         | |- context [N.testbit ?x t] => destruct (N.testbit x t)
         end; reflexivity.
Qed.

(** [validateData] on an object copied from 236 bytes, in terms of the
    bytes. *)
Lemma calculateChecksum_of_bytes (m : list byte) :
  length m = sizeof_StorageData ->
  calculateChecksum (of_bytes m) = xors (slice 0 232 m).
Proof.
  intros H. unfold calculateChecksum. now rewrite to_bytes_of_bytes.
Qed.

Lemma validateData_checksum (d : StorageData) :
  validateData d = true -> checksum d = calculateChecksum d.
Proof.
  unfold validateData.
  destruct (magic d =? STORAGE_MAGIC)%N; [|discriminate].
  destruct (version d =? STORAGE_VERSION)%N; [|discriminate].
  cbn [negb].
  destruct (N.eqb_spec (checksum d) (calculateChecksum d)); [auto|discriminate].
Qed.

Lemma to_N_inj (a b : byte) : Byte.to_N a = Byte.to_N b -> a = b.
Proof.
  intros H. pose proof (Byte.of_to_N a) as Ha. rewrite H, Byte.of_to_N in Ha.
  now injection Ha.
Qed.

(** X2: replacing one byte of a persisted record that validates, at an
    offset the checksum loop covers (0..231) and outside the checksum
    member (8..11), by a different byte makes [validateData] fail. *)
Theorem covered_corruption_detected (m : list byte) (i : nat) (b : byte) :
  length m = sizeof_StorageData ->
  validateData (of_bytes m) = true ->
  i < 232 -> i < 8 \/ 12 <= i ->
  b <> nth i m x00 ->
  validateData (of_bytes (poke i b m)) = false.
Proof.
  unfold sizeof_StorageData. intros Hlen Hvalid Hi Hout Hb.
  destruct (validateData (of_bytes (poke i b m))) eqn:E; [exfalso|reflexivity].
  apply validateData_checksum in Hvalid, E.
  rewrite calculateChecksum_of_bytes in Hvalid by exact Hlen.
  rewrite calculateChecksum_of_bytes in E
    by (unfold sizeof_StorageData; rewrite length_poke; lia).
  rewrite xors_slice_poke in E by lia.
  cbn [checksum of_bytes] in Hvalid, E.
  rewrite slice_poke_outside in E by lia.
  rewrite Hvalid in E.
  assert (Z : N.lxor (Byte.to_N (nth i m x00)) (Byte.to_N b) = 0%N).
  { apply N.bits_inj. intros t.
    apply (f_equal (fun x => N.testbit x t)) in E.
    rewrite !N.lxor_spec in E. rewrite N.lxor_spec, N.bits_0.
    repeat match goal with
           | H : context [N.testbit ?x t] |- _ => destruct (N.testbit x t)
           end; try reflexivity; discriminate. }
  apply N.lxor_eq, to_N_inj in Z. congruence.
Qed.

Lemma covered_corruption_detected_witness :
  length (slice 0 236 (cells (EEPROM healthy))) = sizeof_StorageData
  /\ validateData (of_bytes (slice 0 236 (cells (EEPROM healthy)))) = true
  /\ validateData (of_bytes (poke 12 x48 (slice 0 236 (cells (EEPROM healthy)))))
     = false.
Proof.
  assert (Hlen : length (slice 0 236 (cells (EEPROM healthy))) = sizeof_StorageData)
    by reflexivity.
  assert (Hval : validateData (of_bytes (slice 0 236 (cells (EEPROM healthy)))) = true)
    by (vm_compute; reflexivity).
  splits; [exact Hlen | exact Hval |].
  apply (@covered_corruption_detected _ 12 x48 Hlen Hval).
  - lia.
  - right. lia.
  - vm_compute. discriminate.
Defined.

(** X3: replacing one of the last four bytes of the record (232..235, in
    [reserved]) never changes what [validateData] answers. *)
Theorem tail_corruption_undetected (m : list byte) (i : nat) (b : byte) :
  length m = sizeof_StorageData ->
  232 <= i < 236 ->
  validateData (of_bytes (poke i b m)) = validateData (of_bytes m).
Proof.
  unfold sizeof_StorageData. intros Hlen Hi.
  assert (Hlen' : length (poke i b m) = 236) by (rewrite length_poke; lia).
  unfold validateData.
  rewrite !calculateChecksum_of_bytes by assumption.
  cbn [magic version checksum wifi valid ssid of_bytes].
  rewrite !slice_poke_outside by lia.
  rewrite !byte_at_poke_other by lia.
  reflexivity.
Qed.

Lemma tail_corruption_undetected_witness :
  length (slice 0 236 (cells (EEPROM healthy))) = sizeof_StorageData
  /\ validateData (of_bytes (poke 235 x5a (slice 0 236 (cells (EEPROM healthy)))))
     = true.
Proof.
  assert (Hlen : length (slice 0 236 (cells (EEPROM healthy))) = sizeof_StorageData)
    by reflexivity.
  split; [exact Hlen|].
  rewrite (@tail_corruption_undetected _ 235 x5a Hlen) by lia.
  vm_compute. reflexivity.
Defined.

End Corruption.

(* ===================================================================== *)
(** ** Setup mode *)

Section SetupMode.
Import Manager.

(** X4: when the portal's own timeout stops the portal, the manager stays in
    config mode: its status and [_configMode] are unchanged, so the loop
    starts no reconnection, and a short press of the button (over 100 ms,
    up to 3000 ms) does not start the portal again. *)
Theorem portal_timeout_leaves_config_mode (m : PicoWiFiManager) (t up : Tick) :
  _isInitialized m = true -> _configMode m = true -> _active (_portal m) = true ->
  http_request t = None -> portal_timed_out t = true ->
  pin_low t = false -> pressed m = false ->
  exists m',
    loop t m = Running m'
    /\ _active (_portal m') = false
    /\ _configMode m' = true
    /\ _status m' = _status m
    /\ trace m' = trace m ++ [WiFi_softAPdisconnect]
    /\ forall held : PicoWiFiManager,
         _config held = _config m' -> _configMode held = _configMode m' ->
         _portal held = _portal m' ->
         pressed held = true -> pin_low up = false ->
         (100 < sub32 (millis_button up) (pressStart held) <= 3000)%N ->
         exists after,
           checkResetButton up held = Running after
           /\ _active (_portal after) = false
           /\ _configMode after = true
           /\ trace after = trace held.
Proof.
  intros Hi Hcm Ha Hreq Hto Hpin Hpr.
  exists (portal_stop m).
  assert (Hloop : loop t m = Running (portal_stop m)).
  { unfold loop, portal_handle. rewrite Hi, Ha, Hreq, Hto. cbn [negb and_then].
    rewrite checkResetButton_idle; [|exact Hpin|].
    - cbn [and_then]. unfold portal_stop. rewrite Ha.
      cbn [_configMode emit set_portal]. rewrite Hcm. reflexivity.
    - unfold portal_stop. now rewrite Ha. }
  unfold portal_stop in *. rewrite Ha in *.
  splits; try reflexivity; try assumption.
  intros held Hc Hm Hp Hd Hup (H1 & H2).
  cbn [_config _configMode _portal emit set_portal] in Hc, Hm, Hp.
  unfold checkResetButton. rewrite Hup, Hd. cbn [negb andb].
  destruct (resetPin (_config held) =? 255)%N.
  - exists held. rewrite Hp, Hm. splits; reflexivity || assumption.
  - cbv zeta. cbn [pressStart _configMode set_button]. rewrite Hm, Hcm.
    cbn [negb].
    destruct (N.ltb_spec 3000 (sub32 (millis_button up) (pressStart held)));
      [lia|].
    destruct (N.ltb_spec 100 (sub32 (millis_button up) (pressStart held)));
      [|lia].
    eexists. split; [reflexivity|].
    cbn [_portal _configMode trace set_button]. rewrite Hp, Hm.
    splits; reflexivity || assumption.
Qed.

Lemma portal_timeout_leaves_config_mode_witness :
  exists m',
    loop (portal_timeout 400000) unboxed = Running m'
    /\ _active (_portal m') = false
    /\ _configMode m' = true
    /\ _status m' = CONFIG_MODE.
Proof.
  destruct (@portal_timeout_leaves_config_mode
              unboxed (portal_timeout 400000) (button false 0))
    as (m' & H1 & H2 & H3 & H4 & _); try reflexivity.
  exists m'. splits; assumption.
Defined.

End SetupMode.

(* ===================================================================== *)
(** * Further properties of the store, the manager, the portal and the
      scanner *)

Section StoreLayout.
Import Bytes CString Storage.

Lemma div256_small (n : N) : (n < 256)%N -> (n / 256 = 0)%N.
Proof. intros H. now apply N.div_small. Qed.

Lemma le_decode_le32 (n : N) : word n -> le_decode (le32 n) = n.
Proof.
  unfold word. intros H. unfold le32. cbn [le_decode].
  rewrite !to_N_uint8, !N.shiftr_div_pow2.
  change (2 ^ 8)%N with 256%N. change (2 ^ 16)%N with (256 * 256)%N.
  change (2 ^ 24)%N with (256 * 256 * 256)%N.
  rewrite <- !N.Div0.div_div.
  pose proof (N.div_mod n 256). pose proof (N.div_mod (n / 256) 256).
  pose proof (N.div_mod (n / 256 / 256) 256).
  assert ((n / 256 / 256 / 256) < 256)%N.
  { apply N.Div0.div_lt_upper_bound. apply N.Div0.div_lt_upper_bound.
    apply N.Div0.div_lt_upper_bound. lia. }
  rewrite (N.mod_small (n / 256 / 256 / 256)) by assumption. lia.
Qed.

Lemma le_decode_le16 (n : N) : (n < 65536)%N -> le_decode (le16 n) = n.
Proof.
  intros H. unfold le16. cbn [le_decode].
  rewrite !to_N_uint8, !N.shiftr_div_pow2.
  change (2 ^ 8)%N with 256%N.
  pose proof (N.div_mod n 256).
  assert ((n / 256) < 256)%N by (apply N.Div0.div_lt_upper_bound; lia).
  rewrite (N.mod_small (n / 256)) by assumption. lia.
Qed.

Lemma le_decode_word (l : list byte) : length l = 4 -> word (le_decode l).
Proof.
  destruct l as [|a [|b [|c [|d [|? ?]]]]]; try discriminate. intros _.
  unfold word. cbn [le_decode].
  pose proof (Byte.to_N_bounded a). pose proof (Byte.to_N_bounded b).
  pose proof (Byte.to_N_bounded c). pose proof (Byte.to_N_bounded d). lia.
Qed.

Lemma le_decode_half (l : list byte) : length l = 2 -> (le_decode l < 65536)%N.
Proof.
  destruct l as [|a [|b [|? ?]]]; try discriminate. intros _.
  cbn [le_decode].
  pose proof (Byte.to_N_bounded a). pose proof (Byte.to_N_bounded b). lia.
Qed.

Lemma to_N_below_256 (b : byte) : (Byte.to_N b < 256)%N.
Proof. pose proof (Byte.to_N_bounded b). lia. Qed.

Lemma length_to_bytes (d : StorageData) :
  well_formed d -> length (to_bytes d) = sizeof_StorageData.
Proof.
  intros (_ & _ & _ & (W1 & W2) & _ & (D1 & _) & R & (P1 & P2 & P3)).
  unfold to_bytes, WiFiCredentials_bytes, NetworkConfig_bytes, DeviceConfig_bytes.
  rewrite !length_app. cbn [length le32 le16].
  rewrite W1, W2, D1, R, P1, P2, P3. reflexivity.
Qed.

Lemma well_formed_of_bytes (m : list byte) :
  length m = sizeof_StorageData -> well_formed (of_bytes m).
Proof.
  unfold sizeof_StorageData. intros H.
  unfold well_formed, well_formed_wifi, well_formed_network, well_formed_device,
    well_formed_padding, of_bytes.
  cbn [magic version checksum wifi network device reserved padding
       ssid password valid useStaticIP staticIP gateway subnet primaryDNS
       secondaryDNS hostname autoReconnect maxReconnectAttempts connectTimeout
       pad_version pad_wifi pad_network].
  repeat match goal with
         | |- _ /\ _ => split
         end;
    try (apply le_decode_word; apply length_slice; lia);
    try (apply length_slice; unfold MAX_SSID_LENGTH, MAX_PASSWORD_LENGTH,
           MAX_HOSTNAME_LENGTH; lia);
    try apply to_N_below_256.
  apply le_decode_half. apply length_slice. lia.
Qed.

Lemma app_same_length {A} (a a' b b' : list A) :
  length a = length a' -> a ++ b = a' ++ b' -> a = a' /\ b = b'.
Proof.
  revert a'. induction a as [|x a IH]; intros [|x' a'] L E; try discriminate.
  - now split.
  - cbn in E. injection E as -> E. injection L as L.
    destruct (IH a' L E) as [-> ->]. now split.
Qed.

Lemma le32_inj (a b : N) : word a -> word b -> le32 a = le32 b -> a = b.
Proof.
  intros Ha Hb E. apply (f_equal le_decode) in E.
  now rewrite !le_decode_le32 in E.
Qed.

Lemma uint8_inj (a b : N) : (a < 256)%N -> (b < 256)%N -> uint8 a = uint8 b -> a = b.
Proof.
  intros Ha Hb E. apply (f_equal Byte.to_N) in E.
  now rewrite !uint8_small in E.
Qed.

(** Two well-formed records with the same bytes are the same record. *)
Lemma to_bytes_inj (d d' : StorageData) :
  well_formed d -> well_formed d' -> to_bytes d = to_bytes d' -> d = d'.
Proof.
  destruct d as [mg vs ck [ss pw va] [us si gw sn pd sd] [hn ar mx ct] rs [p1 p2 p3]].
  destruct d' as [mg' vs' ck' [ss' pw' va'] [us' si' gw' sn' pd' sd'] [hn' ar' mx' ct']
                  rs' [p1' p2' p3']].
  unfold well_formed, well_formed_wifi, well_formed_network, well_formed_device,
    well_formed_padding, word, MAX_SSID_LENGTH, MAX_PASSWORD_LENGTH,
    MAX_HOSTNAME_LENGTH.
  cbn [magic version checksum wifi network device reserved padding
       ssid password valid useStaticIP staticIP gateway subnet primaryDNS
       secondaryDNS hostname autoReconnect maxReconnectAttempts connectTimeout
       pad_version pad_wifi pad_network].
  intros (A1 & A2 & A3 & (A4 & A5) & (A6 & A7 & A8 & A9 & A10) & (A11 & A12 & A13)
          & A14 & (A15 & A16 & A17)).
  intros (B1 & B2 & B3 & (B4 & B5) & (B6 & B7 & B8 & B9 & B10) & (B11 & B12 & B13)
          & B14 & (B15 & B16 & B17)).
  unfold to_bytes, WiFiCredentials_bytes, NetworkConfig_bytes, DeviceConfig_bytes.
  cbn [magic version checksum wifi network device reserved padding
       ssid password valid useStaticIP staticIP gateway subnet primaryDNS
       secondaryDNS hostname autoReconnect maxReconnectAttempts connectTimeout
       pad_version pad_wifi pad_network].
  rewrite <- !app_assoc. intros E.
  repeat match type of E with
         | ?a ++ _ = ?a' ++ _ =>
           let E1 := fresh "E" in
           apply app_same_length in E as [E1 E];
           [| first [reflexivity | congruence]]
         end.
  repeat match goal with
         | H : le32 _ = le32 _ |- _ => apply le32_inj in H; [|assumption|assumption]
         end.
  injection E1 as E1. injection E6 as E6. injection E8 as E8.
  injection E16 as E16 E18.
  apply uint8_inj in E1, E18; try assumption.
  apply (f_equal le_decode) in E17. rewrite !le_decode_le16 in E17 by assumption.
  subst. reflexivity.
Qed.

(** Reading the bytes of a well-formed record back gives the record. *)
Lemma of_bytes_to_bytes (d : StorageData) :
  well_formed d -> of_bytes (to_bytes d) = d.
Proof.
  intros W. pose proof (length_to_bytes W) as L.
  apply to_bytes_inj; [now apply well_formed_of_bytes | exact W |].
  now apply to_bytes_of_bytes.
Qed.

End StoreLayout.

Section StoreInvariant.
Import Bytes CString Storage.

Lemma well_formed_saved (d : StorageData) :
  well_formed d -> well_formed (set_checksum (calculateChecksum d) d).
Proof.
  intros (A1 & A2 & A3 & A4).
  unfold well_formed. cbn [magic version checksum wifi network device reserved
                            padding set_checksum].
  splits; try assumption.
  - unfold word. pose proof (calculateChecksum_below_256 d). lia.
  - apply A4. - apply A4. - apply A4. - apply A4. - apply A4.
Qed.

Lemma firstn_exact {A} (n : nat) (a b : list A) :
  length a = n -> firstn n (a ++ b) = a.
Proof.
  intros <-. rewrite firstn_app, Nat.sub_diag, firstn_all. cbn [firstn].
  apply app_nil_r.
Qed.

Lemma skipn_exact {A} (n : nat) (a b : list A) :
  length a = n -> skipn n (a ++ b) = b.
Proof.
  intros <-. rewrite skipn_app, Nat.sub_diag, skipn_all. reflexivity.
Qed.

Lemma saveToEEPROM_settled (n : nat) (s : StorageManager) :
  well_formed (_data s) -> size (EEPROM s) = n -> sizeof_StorageData <= n ->
  let s' := snd (saveToEEPROM s) in
  mirrored s' /\ well_formed (_data s')
  /\ size (EEPROM s') = n
  /\ skipn sizeof_StorageData (cells (EEPROM s'))
     = skipn sizeof_StorageData (cells (EEPROM s))
  /\ _initialized s' = _initialized s
  /\ magic (_data s') = magic (_data s)
  /\ version (_data s') = version (_data s).
Proof.
  intros W Hn Hroom.
  pose proof (well_formed_saved W) as W'.
  pose proof (length_to_bytes W') as L.
  unfold saveToEEPROM, mirrored. cbn [snd _data EEPROM _initialized].
  unfold EEPROM_put, EEPROM_START_ADDRESS. cbn [Nat.add].
  destruct (Nat.leb_spec sizeof_StorageData (size (EEPROM s))) as [_|]; [|lia].
  cbn [size cells firstn app]. unfold slice. rewrite skipn_O.
  rewrite firstn_exact, skipn_exact by exact L.
  splits; try reflexivity; try assumption. lia.
Qed.

Lemma write_settled (n : nat) (tail : list byte) (s : StorageManager)
      (d : StorageData) :
  settled n tail s -> well_formed d ->
  magic d = STORAGE_MAGIC -> version d = STORAGE_VERSION ->
  settled n tail (snd (saveToEEPROM (set_data d s))).
Proof.
  intros (I & (R & _) & _ & _ & _ & Hn & T) W M V.
  destruct (@saveToEEPROM_settled n (set_data d s)) as (B1 & B2 & B3 & B4 & B5 & B6 & B7);
    try assumption; try lia.
  unfold settled. rewrite B3, B4, B5, B6, B7. cbn [set_data EEPROM _initialized _data].
  splits; try reflexivity; try assumption.
Qed.

Lemma well_formed_set_wifi (w : WiFiCredentials) (d : StorageData) :
  well_formed d -> well_formed_wifi w -> well_formed (set_wifi w d).
Proof.
  intros (A1 & A2 & A3 & A4 & A5) W. unfold well_formed.
  cbn [magic version checksum wifi network device reserved padding set_wifi].
  splits; try assumption; apply A5.
Qed.

Lemma well_formed_set_network (n : NetworkConfig) (pad : list byte)
      (d : StorageData) :
  well_formed d -> well_formed_network n -> length pad = 3 ->
  well_formed (set_network n pad d).
Proof.
  intros (A1 & A2 & A3 & A4 & A5 & A6 & A7 & A8 & A9 & A10) W L.
  unfold well_formed, well_formed_padding.
  cbn [magic version checksum wifi network device reserved padding set_network
       pad_version pad_wifi pad_network].
  splits; try assumption; apply W.
Qed.

Lemma well_formed_set_device (x : DeviceConfig) (d : StorageData) :
  well_formed d -> well_formed_device x -> well_formed (set_device x d).
Proof.
  intros (A1 & A2 & A3 & A4 & A5 & A6 & A7) W. unfold well_formed.
  cbn [magic version checksum wifi network device reserved padding set_device].
  splits; try assumption; try apply A4; try apply A5; try apply W; apply A7.
Qed.

Lemma well_formed_defaults (p : Padding) :
  well_formed_padding p -> well_formed (set_checksum 0 (StorageData_new p)).
Proof.
  intros P. unfold well_formed, well_formed_wifi, well_formed_network,
    well_formed_device, word.
  cbn. splits; try reflexivity; try lia; apply P.
Qed.

Lemma well_formed_wifi_clear (w : WiFiCredentials) : well_formed_wifi (clear w).
Proof. split; reflexivity. Qed.

Lemma well_formed_network_new : well_formed_network NetworkConfig_new.
Proof. unfold well_formed_network, word. cbn. splits; lia. Qed.

Lemma well_formed_device_new : well_formed_device DeviceConfig_new.
Proof. unfold well_formed_device. cbn. splits; [reflexivity | lia | lia]. Qed.

Lemma call_settled (n : nat) (tail : list byte) (c : Call) (s : StorageManager) :
  proper c -> settled n tail s -> settled n tail (call c s).
Proof.
  intros P S. pose proof S as (I & _ & W & M & V & _).
  destruct c as [sa pa| |cfg pad|pad|cfg| |w nw pad x|pad|tmp|tmp];
    cbn [call proper] in *.
  - unfold saveWiFiCredentials. rewrite I. cbn [negb].
    destruct sa as [p|]; [|exact S].
    apply write_settled; try assumption.
    apply well_formed_set_wifi; [assumption|]. split; cbn [Storage.ssid Storage.password].
    + apply length_bounded_copy. unfold MAX_SSID_LENGTH. lia.
    + destruct pa; [apply length_bounded_copy; unfold MAX_PASSWORD_LENGTH; lia|].
      reflexivity.
  - apply write_settled; try assumption.
    apply well_formed_set_wifi; [assumption | apply well_formed_wifi_clear].
  - unfold saveNetworkConfig. rewrite I. cbn [negb]. destruct P as (P1 & P2).
    apply write_settled; try assumption. now apply well_formed_set_network.
  - apply write_settled; try assumption.
    apply well_formed_set_network;
      [assumption | apply well_formed_network_new | assumption].
  - unfold saveDeviceConfig. rewrite I. cbn [negb].
    apply write_settled; try assumption. now apply well_formed_set_device.
  - apply write_settled; try assumption.
    apply well_formed_set_device; [assumption | apply well_formed_device_new].
  - unfold saveAll. rewrite I. cbn [negb]. destruct P as ((P1 & P2 & P3) & P4).
    apply write_settled; try assumption.
    apply well_formed_set_device; [|assumption].
    apply well_formed_set_network; [|assumption|assumption].
    now apply well_formed_set_wifi.
  - unfold clearAll. cbv zeta. apply write_settled; try assumption.
    apply well_formed_set_device; [|apply well_formed_device_new].
    apply well_formed_set_network; [|apply well_formed_network_new|assumption].
    apply well_formed_set_wifi; [assumption | apply well_formed_wifi_clear].
  - unfold format, initializeDefaults. cbv zeta.
    apply write_settled; try assumption; try reflexivity.
    now apply well_formed_defaults.
  - unfold repairIfNeeded. rewrite I. cbn [negb].
    destruct (validateData (_data s)); cbn [negb snd]; [exact S|].
    unfold initializeDefaults. cbv zeta.
    apply write_settled; try assumption; try reflexivity.
    now apply well_formed_defaults.
Qed.

Lemma validateData_magic (d : StorageData) :
  validateData d = true -> magic d = STORAGE_MAGIC /\ version d = STORAGE_VERSION.
Proof.
  unfold validateData.
  destruct (N.eqb_spec (magic d) STORAGE_MAGIC); [|discriminate].
  destruct (N.eqb_spec (version d) STORAGE_VERSION); [|discriminate].
  now split.
Qed.

Lemma length_EEPROM_begin (n : nat) (e : EEPROMClass) :
  length (cells (EEPROM_begin n e)) = n /\ size (EEPROM_begin n e) = n.
Proof.
  unfold EEPROM_begin. cbn [cells size]. split; [|reflexivity].
  rewrite length_firstn, length_app, repeat_length. lia.
Qed.

Lemma begin_settled (n : nat) (tmp : Padding) (fresh : StorageManager) :
  sizeof_StorageData <= n -> well_formed_padding tmp ->
  settled n (skipn sizeof_StorageData (cells (EEPROM_begin n (EEPROM fresh))))
          (snd (begin n tmp fresh)).
Proof.
  intros Hroom Wt. destruct (length_EEPROM_begin n (EEPROM fresh)) as (Hl & Hs).
  unfold begin, loadFromEEPROM. cbn [EEPROM].
  unfold EEPROM_get, EEPROM_START_ADDRESS. cbn [Nat.add]. rewrite Hs.
  destruct (Nat.leb_spec sizeof_StorageData n) as [_|]; [|lia].
  set (e := EEPROM_begin n (EEPROM fresh)) in *.
  set (m := slice 0 sizeof_StorageData (cells e)).
  assert (Lm : length m = sizeof_StorageData)
    by (apply length_slice; lia).
  pose proof (well_formed_of_bytes m Lm) as Wm.
  cbn [set_data _data].
  destruct (validateData (of_bytes m)) eqn:V; cbn [negb snd].
  - destruct (validateData_magic _ V) as (Mg & Vs).
    unfold settled, mirrored.
    cbn [_initialized _data EEPROM set_data _eepromSize].
    rewrite to_bytes_of_bytes by exact Lm.
    splits; try reflexivity; try assumption; try lia.
  - unfold initializeDefaults. cbv zeta. cbn [_data set_data].
    destruct (@saveToEEPROM_settled n
                (set_data (set_checksum 0 (StorageData_new tmp))
                   (set_data (of_bytes m)
                      {| _initialized := _initialized fresh; _eepromSize := n;
                         _data := _data fresh; EEPROM := e |})))
      as (B1 & B2 & B3 & B4 & B5 & B6 & B7); try assumption.
    + cbn [_data set_data]. now apply well_formed_defaults.
    + unfold settled. cbn [_initialized _data EEPROM].
      cbn [_data set_data] in B6, B7. rewrite B6, B7.
      splits; try reflexivity; try assumption.
Qed.

Lemma calls_settled (n : nat) (tail : list byte) (cs : list Call) :
  Forall proper cs ->
  forall s, settled n tail s -> settled n tail (calls cs s).
Proof.
  unfold calls. induction 1 as [|c cs P _ IH]; intros s S; cbn [fold_left].
  - exact S.
  - apply IH. now apply call_settled.
Qed.

(** X6: whatever the EEPROM held and whatever is then saved, cleared,
    formatted or repaired, the record in the EEPROM is byte for byte the
    record in memory, magic and version are right, and nothing past the
    record is written; the record is well formed and mirrored, which is
    what the properties of a power cycle below ask for.  This holds
    whatever the padding of the objects the operations copy holds, three
    bytes to a gap. *)
Theorem eeprom_mirrors_memory (n : nat) (tmp : Padding) (fresh : StorageManager)
        (cs : list Call) :
  sizeof_StorageData <= n -> well_formed_padding tmp -> Forall proper cs ->
  let s0 := snd (begin n tmp fresh) in
  let s := calls cs s0 in
  _initialized s = true
  /\ slice 0 sizeof_StorageData (cells (EEPROM s)) = to_bytes (_data s)
  /\ EEPROM_get 0 (EEPROM s) = Some (to_bytes (_data s))
  /\ magic (_data s) = STORAGE_MAGIC
  /\ version (_data s) = STORAGE_VERSION
  /\ skipn sizeof_StorageData (cells (EEPROM s))
     = skipn sizeof_StorageData (cells (EEPROM s0))
  /\ well_formed (_data s)
  /\ mirrored s.
Proof.
  intros Hroom Wt P s0 s.
  pose proof (begin_settled fresh Hroom Wt) as S0. fold s0 in S0.
  pose proof (calls_settled P S0) as S. fold s in S.
  destruct S0 as (_ & _ & _ & _ & _ & _ & T0).
  destruct S as (I & (R & Mi) & W & M & V & Sz & T).
  assert (Mr : mirrored s) by (split; assumption).
  unfold EEPROM_START_ADDRESS in Mi.
  splits; try assumption.
  - unfold EEPROM_get. cbn [Nat.add].
    destruct (Nat.leb_spec sizeof_StorageData (size (EEPROM s))); [|lia].
    now rewrite Mi.
  - now rewrite T, T0.
Qed.

Lemma eeprom_mirrors_memory_witness :
  sizeof_StorageData <= 512
  /\ well_formed_padding ff_padding
  /\ Forall proper [SaveWiFiCredentials (Some home) (Some secret);
                    SaveNetworkConfig static_address [x01; x02; x03];
                    Format zero_padding; ClearAll [x04; x05; x06];
                    ClearWiFiCredentials]
  /\ EEPROM_get 0 (EEPROM (calls [SaveWiFiCredentials (Some home) (Some secret);
                                  SaveNetworkConfig static_address [x01; x02; x03];
                                  Format zero_padding; ClearAll [x04; x05; x06];
                                  ClearWiFiCredentials] opened))
     = Some (to_bytes (_data (calls [SaveWiFiCredentials (Some home) (Some secret);
                                     SaveNetworkConfig static_address [x01; x02; x03];
                                     Format zero_padding; ClearAll [x04; x05; x06];
                                     ClearWiFiCredentials] opened))).
Proof.
  assert (H1 : sizeof_StorageData <= 512) by (unfold sizeof_StorageData; lia).
  assert (H0 : well_formed_padding ff_padding) by (repeat split).
  assert (H2 : Forall proper [SaveWiFiCredentials (Some home) (Some secret);
                              SaveNetworkConfig static_address [x01; x02; x03];
                              Format zero_padding; ClearAll [x04; x05; x06];
                              ClearWiFiCredentials]).
  { repeat constructor; unfold word; vm_compute; reflexivity. }
  splits; [exact H1 | exact H0 | exact H2 |].
  exact (proj1 (proj2 (proj2
    (@eeprom_mirrors_memory 512 ff_padding (StorageManager_new zero_padding erased)
                            _ H1 H0 H2)))).
Defined.

(** X7: what [saveToEEPROM] writes, [loadFromEEPROM] reads back unchanged; its
    answer is what [validateData] says of the record written. *)
Theorem saved_record_loads_back (s : StorageManager) :
  well_formed (_data s) -> sizeof_StorageData <= size (EEPROM s) ->
  let s' := snd (saveToEEPROM s) in
  loadFromEEPROM s' = (validateData (_data s'), s')
  /\ of_bytes (to_bytes (_data s')) = _data s'
  /\ (checksum (_data s') < 256)%N.
Proof.
  intros W Hroom s'.
  destruct (@saveToEEPROM_settled (size (EEPROM s)) s W eq_refl Hroom)
    as ((R & Mi) & W' & Sz & _).
  fold s' in R, Mi, W', Sz. unfold EEPROM_START_ADDRESS in Mi.
  pose proof (of_bytes_to_bytes W') as Rt.
  splits.
  - unfold loadFromEEPROM, EEPROM_get, EEPROM_START_ADDRESS. cbn [Nat.add].
    destruct (Nat.leb_spec sizeof_StorageData (size (EEPROM s'))); [|lia].
    rewrite Mi, Rt. destruct s'; reflexivity.
  - exact Rt.
  - apply calculateChecksum_below_256.
Qed.

Lemma saved_record_loads_back_witness :
  well_formed (_data opened)
  /\ sizeof_StorageData <= size (EEPROM opened)
  /\ loadFromEEPROM configured = (false, configured).
Proof.
  assert (H1 : well_formed (_data opened)).
  { unfold well_formed, well_formed_wifi, well_formed_network, well_formed_device,
      well_formed_padding, word. vm_compute. splits; reflexivity. }
  assert (H2 : sizeof_StorageData <= size (EEPROM opened)) by (vm_compute; lia).
  splits; [exact H1 | exact H2 |].
  pose proof (proj1 (@saved_record_loads_back
                       (set_data (set_wifi {| ssid := bounded_copy home MAX_SSID_LENGTH;
                                              password := bounded_copy secret MAX_PASSWORD_LENGTH;
                                              valid := c_true |} (_data opened)) opened)
                       ltac:(vm_compute; splits; reflexivity) H2)) as H.
  exact H.
Defined.

(** X8: what a power cycle keeps: a mirrored record that validates comes back
    as it was; one that does not is replaced by the defaults, and the
    credentials, the network and the device configuration are gone.
    Neither depends on the padding of the new manager or of the temporary
    of [begin]. *)
Theorem reboot_keeps_record_iff_it_validates (tmp p : Padding) (s : StorageManager) :
  well_formed (_data s) -> mirrored s ->
  let s' := reboot tmp p (EEPROM s) in
  _initialized s' = true
  /\ (validateData (_data s) = true -> _data s' = _data s)
  /\ (validateData (_data s) = false ->
      wifi (_data s') = WiFiCredentials_new
      /\ network (_data s') = NetworkConfig_new
      /\ device (_data s') = DeviceConfig_new
      /\ hasWiFiCredentials s' = false).
Proof.
  intros W (R & Mi) s'. unfold EEPROM_START_ADDRESS in Mi.
  pose proof (length_to_bytes W) as L.
  assert (Hm : slice 0 sizeof_StorageData
                 (cells (EEPROM_begin 512 {| size := 0; cells := cells (EEPROM s) |}))
               = to_bytes (_data s)).
  { unfold EEPROM_begin. cbn [cells]. unfold slice in *. rewrite skipn_O in *.
    rewrite firstn_firstn.
    change (Nat.min sizeof_StorageData 512) with sizeof_StorageData.
    assert (Lc : sizeof_StorageData <= length (cells (EEPROM s))).
    { rewrite <- L, <- Mi. rewrite length_firstn. lia. }
    rewrite firstn_app.
    replace (sizeof_StorageData - length (cells (EEPROM s))) with 0 by lia.
    cbn [firstn]. rewrite app_nil_r. exact Mi. }
  subst s'. unfold reboot, begin, loadFromEEPROM.
  cbn [EEPROM StorageManager_new].
  unfold EEPROM_get, EEPROM_START_ADDRESS. cbn [Nat.add].
  change (size (EEPROM_begin 512 {| size := 0; cells := cells (EEPROM s) |})) with 512.
  change (sizeof_StorageData <=? 512) with true. cbv iota.
  rewrite Hm. cbn [set_data _data]. rewrite (of_bytes_to_bytes W).
  destruct (validateData (_data s)); cbn [negb snd _initialized _data].
  - splits; [reflexivity | reflexivity | discriminate].
  - splits; [reflexivity | discriminate |]. intros _.
    splits; reflexivity.
Qed.

Lemma reboot_keeps_record_iff_it_validates_witness :
  well_formed (_data configured)
  /\ mirrored configured
  /\ validateData (_data configured) = false
  /\ hasWiFiCredentials configured = true
  /\ hasWiFiCredentials (power_cycle (EEPROM configured)) = false.
Proof.
  assert (H1 : well_formed (_data configured)).
  { unfold well_formed, well_formed_wifi, well_formed_network, well_formed_device,
      well_formed_padding, word. vm_compute. splits; reflexivity. }
  assert (H2 : mirrored configured).
  { unfold mirrored. split; [vm_compute; lia | vm_compute; reflexivity]. }
  assert (H3 : validateData (_data configured) = false) by (vm_compute; reflexivity).
  splits; [exact H1 | exact H2 | exact H3 | reflexivity |].
  destruct (@reboot_keeps_record_iff_it_validates ff_padding zero_padding
              configured H1 H2) as (_ & _ & H).
  exact (proj2 (proj2 (proj2 (H H3)))).
Defined.

End StoreInvariant.

Section DefaultRecord.
Import Bytes CString Storage.

Lemma xors_firstn (n : nat) (l : list byte) :
  xors (firstn n l) = N.lxor (xors l) (xors (skipn n l)).
Proof.
  rewrite <- (firstn_skipn n l) at 2. rewrite xors_app.
  now rewrite N.lxor_assoc, N.lxor_nilpotent, N.lxor_0_r.
Qed.

Lemma skipn_to_bytes (d : StorageData) :
  well_formed d -> skipn 172 (to_bytes d) = reserved d.
Proof.
  intros W. pose proof (length_to_bytes W) as L. unfold sizeof_StorageData in L.
  pose proof (f_equal reserved (of_bytes_to_bytes W)) as E.
  cbn [reserved of_bytes] in E. unfold slice in E. rewrite <- E.
  symmetry. apply firstn_all2. rewrite length_skipn. lia.
Qed.

Lemma calculateChecksum_saved (d : StorageData) :
  length (pad_version (padding d)) = 3 ->
  calculateChecksum (set_checksum (calculateChecksum d) d)
  = N.lxor (others d) (calculateChecksum d).
Proof.
  intros Hpad. rewrite calculateChecksum_split by exact Hpad.
  cbn [checksum set_checksum].
  rewrite xors_le32_small by apply calculateChecksum_below_256.
  reflexivity.
Qed.

Lemma lxor_swap (x y z : N) : N.lxor x (N.lxor y z) = N.lxor y (N.lxor x z).
Proof. now rewrite <- !N.lxor_assoc, (N.lxor_comm x y). Qed.

Lemma others_defaults (p : Padding) :
  well_formed_padding p ->
  others (StorageData_new p) = N.lxor 82 (xors (padding_bytes p)).
Proof.
  intros P. pose proof (well_formed_defaults P) as W.
  unfold others, calculateChecksum. cbv zeta.
  change (sizeof_StorageData - sizeof_checksum) with (60 + 172).
  fold (xors (firstn (60 + 172) (to_bytes (set_checksum 0 (StorageData_new p))))).
  rewrite xors_firstn, <- skipn_skipn, (skipn_to_bytes W).
  change (xors (skipn 60 (reserved (set_checksum 0 (StorageData_new p))))) with 0%N.
  rewrite N.lxor_0_r.
  unfold to_bytes, NetworkConfig_bytes, padding_bytes.
  cbn [magic version checksum wifi network device reserved padding set_checksum
       StorageData_new].
  rewrite !xors_app.
  generalize (xors (pad_version p)) (xors (pad_wifi p)) (xors (pad_network p)).
  intros a b c. rewrite !N.lxor_assoc.
  repeat match goal with
         | |- context [N.lxor ?k (N.lxor c ?x)] => rewrite (lxor_swap k c x)
         end.
  repeat match goal with
         | |- context [N.lxor ?k (N.lxor b ?x)] => rewrite (lxor_swap k b x)
         end.
  repeat match goal with
         | |- context [N.lxor ?k (N.lxor a ?x)] => rewrite (lxor_swap k a x)
         end.
  do 2 f_equal. rewrite N.lxor_comm. f_equal.
Qed.

(** X9: [repairIfNeeded] answers false on a store that was not opened and
    leaves a record that validates alone.  A record that does not validate
    it replaces by the defaults, as [format] does, and answers true.  The
    padding of the record it leaves is that of the temporary
    [initializeDefaults] copies, [tmp]; the record validates only if those
    nine bytes XOR to 0x52, so not when they are all zero. *)
Theorem repairIfNeeded_writes_defaults (tmp : Padding) (s : StorageManager) :
  well_formed_padding tmp ->
  (_initialized s = false -> repairIfNeeded tmp s = (false, s))
  /\ (_initialized s = true -> validateData (_data s) = true ->
      repairIfNeeded tmp s = (true, s))
  /\ (_initialized s = true -> validateData (_data s) = false ->
      repairIfNeeded tmp s = (true, format tmp s)
      /\ wifi (_data (format tmp s)) = WiFiCredentials_new
      /\ network (_data (format tmp s)) = NetworkConfig_new
      /\ device (_data (format tmp s)) = DeviceConfig_new
      /\ padding (_data (format tmp s)) = tmp
      /\ (performIntegrityCheck (format tmp s) = true
          <-> xors (padding_bytes tmp) = 82%N)
      /\ (xors (padding_bytes tmp) = 0%N ->
          performIntegrityCheck (format tmp s) = false)).
Proof.
  intros P. unfold repairIfNeeded. splits.
  - now intros ->.
  - now intros -> ->.
  - intros I V. rewrite I, V. cbn [negb].
    assert (Hiff : performIntegrityCheck (format tmp s) = true
                   <-> xors (padding_bytes tmp) = 82%N).
    { unfold performIntegrityCheck, format, initializeDefaults, saveToEEPROM.
      cbn [snd _initialized _data set_data]. rewrite I. cbn [negb].
      set (d0 := set_checksum 0 (StorageData_new tmp)).
      assert (Hc : calculateChecksum d0 = N.lxor 82 (xors (padding_bytes tmp)))
        by (rewrite <- (others_defaults P); reflexivity).
      unfold validateData. rewrite calculateChecksum_saved by apply P.
      cbn [magic version checksum wifi valid set_checksum d0 StorageData_new
           WiFiCredentials_new].
      change (others d0) with (calculateChecksum d0).
      rewrite N.lxor_nilpotent, Hc.
      change (negb (STORAGE_MAGIC =? STORAGE_MAGIC)%N) with false.
      change (negb (STORAGE_VERSION =? STORAGE_VERSION)%N) with false.
      change (truthy c_false) with false. cbv iota.
      destruct (N.eqb_spec (N.lxor 82 (xors (padding_bytes tmp))) 0) as [E|E];
        cbn [negb].
      + split; [intros _ | reflexivity].
        apply N.lxor_eq in E. now symmetry.
      + split; [discriminate|]. intros H. exfalso. apply E.
        rewrite H. apply N.lxor_nilpotent. }
    splits; try reflexivity.
    + exact Hiff.
    + intros Z. destruct (performIntegrityCheck (format tmp s)); [|reflexivity].
      destruct Hiff as (Hiff & _). rewrite Z in Hiff. discriminate (Hiff eq_refl).
Qed.

Lemma repairIfNeeded_writes_defaults_witness :
  well_formed_padding zero_padding
  /\ _initialized configured = true
  /\ validateData (_data configured) = false
  /\ fst (repairIfNeeded zero_padding configured) = true
  /\ xors (padding_bytes zero_padding) = 0%N
  /\ performIntegrityCheck (snd (repairIfNeeded zero_padding configured)) = false.
Proof.
  assert (H1 : well_formed_padding zero_padding) by (repeat split).
  assert (H2 : _initialized configured = true) by reflexivity.
  assert (H3 : validateData (_data configured) = false) by (vm_compute; reflexivity).
  assert (H4 : xors (padding_bytes zero_padding) = 0%N) by reflexivity.
  destruct (@repairIfNeeded_writes_defaults zero_padding configured H1) as (_ & _ & H).
  destruct (H H2 H3) as (E & _ & _ & _ & _ & _ & Hz).
  splits; [exact H1 | exact H2 | exact H3 | | exact H4 |].
  - now rewrite E.
  - rewrite E. cbn [snd]. exact (Hz H4).
Defined.

End DefaultRecord.

Section Transposition.
Import Bytes CString Storage.

Lemma nth_poke_same (i : nat) (b d : byte) (m : list byte) :
  i < length m -> nth i (poke i b m) d = b.
Proof.
  intros H. unfold poke.
  assert (Hl : length (firstn i m) = i) by (rewrite length_firstn; lia).
  rewrite app_nth2 by lia. rewrite Hl, Nat.sub_diag. reflexivity.
Qed.

(** X10: exchanging two bytes of a persisted record, both past the ssid and
    inside the range the checksum loop covers (the password, the network
    and the device configuration, the reserved bytes), the [valid] flag
    apart, never changes what [validateData] answers: the XOR does not
    depend on the order of the bytes. *)
Theorem transposition_undetected (m : list byte) (i j : nat) :
  length m = sizeof_StorageData ->
  44 <= i < 232 -> 44 <= j < 232 -> i <> 108 -> j <> 108 ->
  validateData (of_bytes (swap i j m)) = validateData (of_bytes m).
Proof.
  unfold sizeof_StorageData. intros Hlen Hi Hj Hvi Hvj. unfold swap.
  set (m1 := poke i (nth j m x00) m).
  assert (L1 : length m1 = 236) by (unfold m1; rewrite length_poke; lia).
  assert (L2 : length (poke j (nth i m x00) m1) = 236)
    by (rewrite length_poke; lia).
  assert (Hj1 : nth j m1 x00 = nth j m x00).
  { unfold m1. destruct (Nat.eq_dec j i) as [->|Hne].
    - apply nth_poke_same. lia.
    - apply nth_poke_other; [lia | exact Hne]. }
  unfold validateData.
  rewrite !calculateChecksum_of_bytes by assumption.
  cbn [magic version checksum wifi valid ssid of_bytes].
  rewrite (@xors_slice_poke 232 j) by lia.
  unfold m1 at 4. rewrite (@xors_slice_poke 232 i) by lia.
  rewrite Hj1.
  rewrite !(@slice_poke_outside _ _ j) by lia.
  rewrite !(@byte_at_poke_other _ j) by lia.
  unfold m1.
  rewrite !(@slice_poke_outside _ _ i) by lia.
  rewrite !(@byte_at_poke_other _ i) by lia.
  replace (N.lxor (N.lxor (xors (slice 0 232 m))
                          (N.lxor (Byte.to_N (nth i m x00)) (Byte.to_N (nth j m x00))))
                  (N.lxor (Byte.to_N (nth j m x00)) (Byte.to_N (nth i m x00))))
    with (xors (slice 0 232 m)); [reflexivity|].
  apply N.bits_inj. intros t. rewrite !N.lxor_spec.
  repeat match goal with
         | |- context [N.testbit ?x t] => destruct (N.testbit x t)
         end; reflexivity.
Qed.

Lemma transposition_undetected_witness :
  length (slice 0 236 (cells (EEPROM healthy))) = sizeof_StorageData
  /\ nth 44 (cells (EEPROM healthy)) x00 = x73
  /\ nth 45 (cells (EEPROM healthy)) x00 = x65
  /\ c_str (password (wifi (of_bytes (swap 44 45 (slice 0 236 (cells (EEPROM healthy)))))))
     = [x65; x73; x63; x72; x65; x74]
  /\ validateData (of_bytes (swap 44 45 (slice 0 236 (cells (EEPROM healthy))))) = true.
Proof.
  assert (Hlen : length (slice 0 236 (cells (EEPROM healthy))) = sizeof_StorageData)
    by reflexivity.
  splits; [exact Hlen | reflexivity | reflexivity | vm_compute; reflexivity |].
  rewrite (@transposition_undetected _ 44 45 Hlen) by lia.
  vm_compute. reflexivity.
Defined.

End Transposition.

Section StoredSsid.
Import Bytes CString Storage.

Lemma firstn_strlen (a : list byte) : firstn (strlen a) a = c_str a.
Proof.
  unfold strlen. induction a as [|c a IH]; cbn [c_str]; [reflexivity|].
  destruct (Byte.eqb c x00); cbn [length firstn]; [reflexivity|].
  now rewrite IH.
Qed.

Lemma printable_test (c : byte) :
  negb ((Byte.to_N c <? 32)%N || (126 <? Byte.to_N c)%N) = true <-> printable c.
Proof.
  unfold printable.
  destruct (N.ltb_spec (Byte.to_N c) 32), (N.ltb_spec 126 (Byte.to_N c));
    cbn; split; intros; try discriminate; try lia; reflexivity.
Qed.

(** [isValidSSID] accepts the strings of 1 to 31 printable characters. *)
Lemma isValidSSID_iff (a : list byte) :
  isValidSSID a = true
  <-> (1 <= strlen a <= 31 /\ Forall printable (c_str a)).
Proof.
  unfold isValidSSID. cbv zeta. rewrite firstn_strlen.
  destruct (Nat.eqb_spec (strlen a) 0) as [E|E]; cbn [orb].
  - split; [discriminate | lia].
  - destruct (Nat.ltb_spec 31 (strlen a)) as [L|L].
    + split; [discriminate | lia].
    + rewrite forallb_forall, Forall_forall. split.
      * intros H. split; [lia|]. intros c Hc. apply printable_test. now apply H.
      * intros (_ & H) c Hc. apply printable_test. now apply H.
Qed.

(** X11: [saveWiFiCredentials] stores an ssid without looking at it, and
    [validateData] rejects a record whose ssid is empty or, in its first
    31 characters, not printable: such a call succeeds and leaves a store
    that has credentials and is corrupted. *)
Theorem saveWiFiCredentials_stores_rejected_ssid
        (p : list byte) (pw : option (list byte)) (s : StorageManager) :
  _initialized s = true ->
  let r := saveWiFiCredentials (Some p) pw s in
  fst r = true
  /\ hasWiFiCredentials (snd r) = true
  /\ (isValidSSID (ssid (wifi (_data (snd r)))) = true
      <-> (strlen p <> 0 /\ Forall printable (firstn 31 (c_str p))))
  /\ (isValidSSID (ssid (wifi (_data (snd r)))) = false ->
      validateData (_data (snd r)) = false
      /\ isCorrupted (snd r) = true
      /\ performIntegrityCheck (snd r) = false).
Proof.
  intros I. cbv zeta. unfold saveWiFiCredentials. rewrite I. cbn [negb].
  unfold saveToEEPROM. cbn [fst snd _data set_data].
  unfold hasWiFiCredentials, isCorrupted, performIntegrityCheck.
  cbn [_initialized _data wifi ssid valid set_checksum set_wifi set_data].
  rewrite I. cbn [negb andb].
  splits; try reflexivity.
  - rewrite isValidSSID_iff. unfold strlen.
    rewrite (c_str_bounded_copy p MAX_SSID_LENGTH).
    change (MAX_SSID_LENGTH - 1) with 31. rewrite length_firstn.
    split.
    + intros (H1 & H2). split; [lia | exact H2].
    + intros (H1 & H2). split; [lia | exact H2].
  - intros V.
    match goal with
    | |- validateData ?d = false /\ _ => assert (E : validateData d = false)
    end.
    { unfold validateData.
      cbn [magic version checksum wifi ssid valid set_checksum set_wifi].
      rewrite V. change (truthy c_true) with true. cbn [negb].
      repeat match goal with
             | |- context [if ?b then _ else _] => destruct b
             end; reflexivity. }
    rewrite E. splits; reflexivity.
Qed.

Lemma saveWiFiCredentials_stores_rejected_ssid_witness :
  _initialized opened = true
  /\ fst (saveWiFiCredentials (Some [x09]) (Some secret) opened) = true
  /\ isCorrupted (snd (saveWiFiCredentials (Some [x09]) (Some secret) opened)) = true.
Proof.
  assert (I : _initialized opened = true) by reflexivity.
  destruct (@saveWiFiCredentials_stores_rejected_ssid [x09] (Some secret) opened I)
    as (H1 & _ & _ & H4).
  splits; [exact I | exact H1 |].
  apply H4. vm_compute. reflexivity.
Defined.

End StoredSsid.

Section LoadAfterSave.
Import Bytes CString Storage.

(** X12: what is saved is what is loaded: on an open store each save succeeds
    and the matching load returns the argument saved, the other parts of
    the record staying as they were; [loadWiFiCredentials] answers with
    the [valid] flag of the credentials; on a store that was not opened
    every load fails and assigns nothing.  ([pad] is the padding of the
    [NetworkConfig] copied.) *)
Theorem load_returns_what_was_saved
        (s : StorageManager) (w : WiFiCredentials) (n : NetworkConfig)
        (x : DeviceConfig) (pad : list byte) :
  (_initialized s = false ->
     loadWiFiCredentials s = (false, None)
     /\ loadNetworkConfig s = (false, None)
     /\ loadDeviceConfig s = (false, None)
     /\ loadAll s = (false, None))
  /\ (_initialized s = true ->
      (let r := saveNetworkConfig n pad s in
       fst r = true
       /\ loadNetworkConfig (snd r) = (true, Some n)
       /\ loadWiFiCredentials (snd r) = loadWiFiCredentials s
       /\ loadDeviceConfig (snd r) = loadDeviceConfig s)
      /\ (let r := saveDeviceConfig x s in
          fst r = true
          /\ loadDeviceConfig (snd r) = (true, Some x)
          /\ loadWiFiCredentials (snd r) = loadWiFiCredentials s
          /\ loadNetworkConfig (snd r) = loadNetworkConfig s)
      /\ (let r := saveAll w n pad x s in
          fst r = true
          /\ loadAll (snd r) = (true, Some (w, n, x))
          /\ loadWiFiCredentials (snd r) = (truthy (valid w), Some w)
          /\ hasWiFiCredentials (snd r) = truthy (valid w))
      /\ loadAll (clearAll pad s)
         = (true, Some (WiFiCredentials_new, NetworkConfig_new, DeviceConfig_new))
      /\ loadWiFiCredentials (clearWiFiCredentials s)
         = (false, Some WiFiCredentials_new)).
Proof.
  unfold loadWiFiCredentials, loadNetworkConfig, loadDeviceConfig, loadAll,
    hasWiFiCredentials, saveNetworkConfig, saveDeviceConfig, saveAll, clearAll,
    clearWiFiCredentials.
  split; intros I; rewrite I; cbn [negb].
  - splits; reflexivity.
  - cbv zeta. unfold saveToEEPROM.
    cbn [fst snd _initialized _data set_data]. rewrite I. cbn [negb andb].
    splits; reflexivity.
Qed.

Lemma load_returns_what_was_saved_witness :
  _initialized opened = true
  /\ loadNetworkConfig (snd (saveNetworkConfig static_address [x01; x02; x03] opened))
     = (true, Some static_address).
Proof.
  split; [reflexivity|].
  destruct (@load_returns_what_was_saved opened WiFiCredentials_new static_address
              DeviceConfig_new [x01; x02; x03]) as (_ & H).
  destruct (H eq_refl) as ((_ & H2 & _) & _).
  exact H2.
Defined.

End LoadAfterSave.

Section AttemptLimit.
Import Manager.

Lemma counter_kept_refl (m : PicoWiFiManager) : counter_kept m m.
Proof. split; auto. Qed.

Lemma counter_kept_trans (a b c : PicoWiFiManager) :
  counter_kept a b -> counter_kept b c -> counter_kept a c.
Proof.
  intros (A1 & A2) (B1 & B2). split; [congruence|].
  destruct B2 as [B2|B2]; [rewrite B2; exact A2 | now right].
Qed.

Lemma counter_kept_limit (m m' : PicoWiFiManager) :
  counter_kept m m' -> within_limit m -> within_limit m'.
Proof.
  unfold within_limit. intros (C & [A|A]) H; rewrite C, A; [exact H | lia].
Qed.

Lemma setStatus_counter (st : ConnectionStatus) (m : PicoWiFiManager) :
  counter_kept m (setStatus st m).
Proof. unfold setStatus, counter_kept. case_ifs; split; auto. Qed.

Lemma stopConfigPortal_counter (m : PicoWiFiManager) :
  counter_kept m (stopConfigPortal m).
Proof.
  unfold stopConfigPortal, portal_stop, counter_kept. case_ifs; split; auto.
Qed.

Lemma portal_stop_counter (m : PicoWiFiManager) : counter_kept m (portal_stop m).
Proof. unfold portal_stop, counter_kept. case_ifs; split; auto. Qed.

Lemma startConfigPortal_counter (softAP : bool) (m : PicoWiFiManager) :
  counter_kept m (snd (startConfigPortal softAP m)).
Proof.
  unfold startConfigPortal, startConfigPortal_as, portal_start, setStatus,
    counter_kept.
  destruct softAP; cbn; case_ifs; split; auto.
Qed.

Lemma connectWiFi_counter (ssid pw : option (list byte)) (joined : bool)
      (m : PicoWiFiManager) :
  counter_kept m (snd (connectWiFi ssid pw joined m)).
Proof.
  unfold connectWiFi, setStatus, counter_kept.
  destruct ssid as [s|]; [|split; auto].
  destruct (CString.strlen s =? 0); [split; auto|].
  destruct joined; cbn; case_ifs; split; auto.
Qed.

Lemma reset_counter (pad : list byte) (m : PicoWiFiManager) :
  counter_kept m (state_of (reset pad m)).
Proof.
  unfold reset. cbv zeta. cbn [state_of].
  eapply counter_kept_trans; [apply stopConfigPortal_counter|].
  unfold counter_kept. cbn [_storage emit].
  destruct (_storage (stopConfigPortal m)); split; auto.
Qed.

Lemma portal_onConnect_counter (ssid pw : list byte) (joined : bool)
      (m : PicoWiFiManager) :
  counter_kept m (portal_onConnect ssid pw joined m).
Proof.
  unfold portal_onConnect.
  pose proof (connectWiFi_counter (Some ssid) (Some pw) joined m) as H.
  destruct (connectWiFi (Some ssid) (Some pw) joined m) as [connected m1].
  cbn [snd] in H. destruct connected; [|exact H].
  eapply counter_kept_trans; [exact H|].
  eapply counter_kept_trans; [|apply setStatus_counter].
  eapply counter_kept_trans; [|apply stopConfigPortal_counter].
  destruct (_storage m1); split; auto.
Qed.

Lemma portal_handle_counter (t : Tick) (m : PicoWiFiManager) :
  counter_kept m (state_of (portal_handle t m)).
Proof.
  unfold portal_handle. destruct (_active (_portal m)); [|apply counter_kept_refl].
  destruct (http_request t) as [[ssid pw|]|]; cbn [and_then state_of].
  - destruct (length (CString.c_str ssid) =? 0); cbn [and_then state_of].
    + destruct (portal_timed_out t);
        [apply portal_stop_counter | apply counter_kept_refl].
    + destruct (portal_timed_out t); [|apply portal_onConnect_counter].
      eapply counter_kept_trans;
        [apply portal_onConnect_counter | apply portal_stop_counter].
  - apply reset_counter.
  - destruct (portal_timed_out t);
      [apply portal_stop_counter | apply counter_kept_refl].
Qed.

Lemma checkResetButton_counter (t : Tick) (m : PicoWiFiManager) :
  counter_kept m (state_of (checkResetButton t m)).
Proof.
  unfold checkResetButton.
  destruct (resetPin (_config m) =? 255)%N; [apply counter_kept_refl|].
  destruct (pin_low t && negb (pressed m)); [split; auto|].
  destruct (negb (pin_low t) && pressed m); [|apply counter_kept_refl].
  cbv zeta.
  destruct (3000 <? sub32 (millis_button t)
                          (pressStart (set_button (pressStart m) false m)))%N.
  - eapply counter_kept_trans; [|apply reset_counter]. split; auto.
  - destruct (100 <? sub32 (millis_button t)
                            (pressStart (set_button (pressStart m) false m)))%N;
      [|split; auto].
    destruct (negb (_configMode (set_button (pressStart m) false m)));
      cbn [state_of]; [|split; auto].
    eapply counter_kept_trans; [|apply startConfigPortal_counter]. split; auto.
Qed.

Lemma handleReconnection_limit (t : Tick) (m : PicoWiFiManager) :
  within_limit m ->
  within_limit (handleReconnection t m)
  /\ _config (handleReconnection t m) = _config m.
Proof.
  intros H. unfold handleReconnection.
  destruct (link_up t || _configMode m); [now split|]. cbv zeta.
  destruct (sub32 (millis_reconnect t) (_lastReconnectAttempt m) <? 10000)%N;
    [now split|].
  destruct (N.leb_spec (maxReconnectAttempts (_config m)) (_reconnectAttempts m))
    as [L|L].
  - pose proof (startConfigPortal_counter (softAP_succeeds t) m) as C.
    split; [now apply (counter_kept_limit C) | apply C].
  - set (m1 := set_reconnect (millis_reconnect t mod two32)
                              ((_reconnectAttempts m + 1) mod 256)%N m).
    assert (H1 : within_limit m1).
    { unfold within_limit, m1. cbn [_reconnectAttempts _config set_reconnect].
      pose proof (N.Div0.mod_le (_reconnectAttempts m + 1) 256). lia. }
    assert (C1 : _config m1 = _config m) by reflexivity.
    destruct (_storage m1) as [s|]; [|now split].
    destruct (Storage.loadWiFiCredentials s) as [[|] [credentials|]];
      try now split.
    destruct (Bytes.truthy (Storage.valid credentials)); [|now split].
    pose proof (connectWiFi_counter (Some (Storage.ssid credentials))
                  (Some (Storage.password credentials)) (join_succeeds t) m1) as C.
    split; [now apply (counter_kept_limit C) | rewrite <- C1; apply C].
Qed.

Lemma loop_limit (t : Tick) (m : PicoWiFiManager) :
  within_limit m ->
  within_limit (state_of (loop t m)) /\ _config (state_of (loop t m)) = _config m.
Proof.
  intros H. unfold loop. destruct (_isInitialized m); cbn [negb]; [|now split].
  pose proof (portal_handle_counter t m) as C1.
  destruct (portal_handle t m) as [m1|m1]; cbn [and_then state_of] in *;
    [|split; [now apply (counter_kept_limit C1) | apply C1]].
  pose proof (checkResetButton_counter t m1) as C2.
  pose proof (counter_kept_trans C1 C2) as C.
  destruct (checkResetButton t m1) as [m2|m2]; cbn [and_then state_of] in *;
    [|split; [now apply (counter_kept_limit C) | apply C]].
  destruct (negb (_configMode m2) && autoReconnect (_config m2));
    [|split; [now apply (counter_kept_limit C) | apply C]].
  destruct (@handleReconnection_limit t m2) as (L & E);
    [now apply (counter_kept_limit C)|].
  split; [exact L | rewrite E; apply C].
Qed.

(** X13: however the passes of the loop go (portal requests, button, link,
    joins that work or fail), the attempt counter never passes
    [maxReconnectAttempts], and the configuration is not touched. *)
Theorem attempts_stay_within_limit (ts : list Tick) (m : PicoWiFiManager) :
  within_limit m ->
  within_limit (state_of (run ts m))
  /\ _config (state_of (run ts m)) = _config m.
Proof.
  revert m. induction ts as [|t ts IH]; intros m H; cbn [run state_of].
  - now split.
  - destruct (loop_limit t H) as (L & E).
    destruct (loop t m) as [m1|m1]; cbn [and_then state_of] in *.
    + destruct (IH m1 L) as (L' & E'). split; [exact L' | congruence].
    + now split.
Qed.

Lemma attempts_stay_within_limit_witness :
  within_limit provisioned
  /\ within_limit (state_of (run [outage 20000; outage 60000; outage 100000;
                                  outage 140000; outage 180000] provisioned)).
Proof.
  assert (H : within_limit provisioned) by (vm_compute; discriminate).
  split; [exact H|].
  exact (proj1 (@attempts_stay_within_limit
                  [outage 20000; outage 60000; outage 100000; outage 140000;
                   outage 180000] provisioned H)).
Defined.

End AttemptLimit.

Section ConfigModeKept.
Import Manager.

Lemma radio_silent_app (e1 e2 : list Event) :
  radio_silent e1 -> radio_silent e2 -> radio_silent (e1 ++ e2).
Proof.
  unfold radio_silent. intros (A1 & A2) (B1 & B2).
  rewrite !count_app. lia.
Qed.

Lemma stopConfigPortal_silent (m : PicoWiFiManager) :
  exists ev, emitted m (stopConfigPortal m) ev /\ radio_silent ev.
Proof.
  unfold stopConfigPortal, portal_stop, emitted, radio_silent.
  case_ifs; first [ exists []; now rewrite app_nil_r
                  | rewrite <- ?app_assoc; eexists; repeat split; reflexivity ].
Qed.

Lemma reset_trace (pad : list byte) (m : PicoWiFiManager) :
  exists m' ev,
    reset pad m = Restarted m'
    /\ trace m' = trace m ++ ev ++ [WiFi_disconnect; Restart]
    /\ radio_silent ev.
Proof.
  destruct (stopConfigPortal_silent m) as (ev & E & S).
  unfold reset. cbv zeta. eexists; exists ev. split; [reflexivity|].
  split; [|exact S]. unfold emitted in E. cbn [_storage emit].
  destruct (_storage (stopConfigPortal m));
    cbn [trace emit set_storage]; rewrite E, <- !app_assoc; reflexivity.
Qed.

Lemma kept_running (m x : PicoWiFiManager) (ev : list Event) :
  emitted m x ev -> radio_silent ev -> _configMode x = true ->
  _status x = _status m -> _reconnectAttempts x = _reconnectAttempts m ->
  exists ev0,
    emitted m (state_of (Running x)) ev0
    /\ radio_silent ev0
    /\ (forall m', Running x = Running m' ->
          _configMode m' = true /\ _status m' = _status m
          /\ _reconnectAttempts m' = _reconnectAttempts m)
    /\ (forall m', Running x = Restarted m' ->
          exists ev', ev0 = ev' ++ [WiFi_disconnect; Restart]).
Proof.
  intros E S C St A. exists ev. splits; try assumption.
  - intros m' [= <-]. now splits.
  - discriminate.
Qed.

Lemma emitted_nothing (m : PicoWiFiManager) : emitted m m [] /\ radio_silent [].
Proof. unfold emitted. rewrite app_nil_r. now repeat split. Qed.

Lemma loop_config_mode (t : Tick) (m : PicoWiFiManager) :
  _configMode m = true -> unattended t ->
  exists ev,
    emitted m (state_of (loop t m)) ev
    /\ radio_silent ev
    /\ (forall m', loop t m = Running m' ->
          _configMode m' = true /\ _status m' = _status m
          /\ _reconnectAttempts m' = _reconnectAttempts m)
    /\ (forall m', loop t m = Restarted m' ->
          exists ev', ev = ev' ++ [WiFi_disconnect; Restart]).
Proof.
  intros Hcm Hq. unfold unattended in Hq. unfold loop.
  destruct (_isInitialized m); cbn [negb and_then state_of].
  2:{ destruct (emitted_nothing m). now apply kept_running with []. }
  assert (H1 : exists m1 ev1,
             portal_handle t m = Running m1
             /\ emitted m m1 ev1 /\ radio_silent ev1
             /\ _configMode m1 = true /\ _status m1 = _status m
             /\ _reconnectAttempts m1 = _reconnectAttempts m).
  { unfold portal_handle. rewrite Hq. cbn [and_then].
    destruct (_active (_portal m)) eqn:Ha; [destruct (portal_timed_out t)|].
    - destruct (portal_stop_frame m) as (_ & F1 & F2 & _ & F3 & ev & E & J & P & _).
      exists (portal_stop m), ev. unfold radio_silent.
      splits; try assumption; try reflexivity; congruence.
    - exists m, []. destruct (emitted_nothing m). splits; auto.
    - exists m, []. destruct (emitted_nothing m). splits; auto. }
  destruct H1 as (m1 & ev1 & P1 & E1 & S1 & C1 & St1 & A1).
  rewrite P1. cbn [and_then].
  unfold checkResetButton.
  destruct (resetPin (_config m1) =? 255)%N; cbn [and_then state_of].
  { rewrite C1. cbn [negb andb]. now apply kept_running with ev1. }
  destruct (pin_low t && negb (pressed m1)); cbn [and_then state_of].
  { cbn [_configMode set_button]. rewrite C1. cbn [negb andb].
    now apply kept_running with ev1. }
  destruct (negb (pin_low t) && pressed m1); cbn [and_then state_of].
  2:{ rewrite C1. cbn [negb andb]. now apply kept_running with ev1. }
  cbv zeta. cbn [pressStart _configMode set_button]. rewrite C1. cbn [negb].
  destruct (3000 <? sub32 (millis_button t) (pressStart m1))%N.
  - destruct (reset_trace (temporary t) (set_button (pressStart m1) false m1))
      as (m' & ev & R & T & S).
    rewrite R. cbn [and_then state_of]. cbn [trace set_button] in T.
    exists (ev1 ++ ev ++ [WiFi_disconnect; Restart]).
    unfold emitted in *. rewrite T, E1, <- !app_assoc.
    splits; try reflexivity.
    + apply radio_silent_app; [exact S1|].
      apply radio_silent_app; [exact S | now split].
    + discriminate.
    + intros _ _. exists (ev1 ++ ev). now rewrite <- app_assoc.
  - destruct (100 <? sub32 (millis_button t) (pressStart m1))%N;
      cbn [and_then state_of _configMode set_button]; rewrite ?C1; cbn [negb andb];
      now apply kept_running with ev1.
Qed.

(** X14: in config mode, as long as nobody uses the portal's pages, the loop
    starts no join and raises no access point, whatever the button, the
    link and the portal's timeout do; the manager stays in config mode
    with its status and attempt counter, unless a long press of the
    button ends the run in a factory reset. *)
Theorem config_mode_kept_while_unattended (ts : list Tick) (m : PicoWiFiManager) :
  _configMode m = true -> Forall unattended ts ->
  exists ev,
    emitted m (state_of (run ts m)) ev
    /\ radio_silent ev
    /\ (forall m', run ts m = Running m' ->
          _configMode m' = true /\ _status m' = _status m
          /\ _reconnectAttempts m' = _reconnectAttempts m)
    /\ (forall m', run ts m = Restarted m' ->
          exists ev', ev = ev' ++ [WiFi_disconnect; Restart]).
Proof.
  intros Hcm HF. revert m Hcm.
  induction HF as [|t ts Ht _ IH]; intros m Hcm; cbn [run state_of].
  - destruct (emitted_nothing m). now apply kept_running with [].
  - destruct (@loop_config_mode t m Hcm Ht) as (ev1 & E1 & S1 & K1 & R1).
    destruct (loop t m) as [m1|m1]; cbn [and_then state_of] in *.
    + destruct (K1 m1 eq_refl) as (C1 & St1 & A1).
      destruct (IH m1 C1) as (ev2 & E2 & S2 & K2 & R2).
      exists (ev1 ++ ev2). splits.
      * now apply emitted_trans with m1.
      * now apply radio_silent_app.
      * intros m' Hr. destruct (K2 m' Hr) as (H1 & H2 & H3).
        splits; congruence.
      * intros m' Hr. destruct (R2 m' Hr) as (ev' & ->).
        exists (ev1 ++ ev'). now rewrite <- app_assoc.
    + exists ev1. splits; try assumption; discriminate.
Qed.

Lemma config_mode_kept_while_unattended_witness :
  _configMode unboxed = true
  /\ Forall unattended [portal_timeout 400000; outage 500000; button true 600000;
                        button false 601000]
  /\ exists m',
       run [portal_timeout 400000; outage 500000; button true 600000;
            button false 601000] unboxed = Running m'
       /\ _configMode m' = true.
Proof.
  assert (H1 : _configMode unboxed = true) by reflexivity.
  assert (H2 : Forall unattended [portal_timeout 400000; outage 500000;
                                  button true 600000; button false 601000])
    by (repeat constructor).
  splits; [exact H1 | exact H2 |].
  destruct (@config_mode_kept_while_unattended _ unboxed H1 H2)
    as (ev & _ & _ & K & _).
  destruct (run [portal_timeout 400000; outage 500000; button true 600000;
                 button false 601000] unboxed) as [m'|m'] eqn:E.
  - exists m'. split; [reflexivity|]. apply (K m' eq_refl).
  - vm_compute in E. discriminate.
Defined.

End ConfigModeKept.

(** Reads members back through the member updates. *)
Ltac fields :=
  cbn [Manager._config Manager._status Manager._portal Manager._storage
       Manager._isInitialized Manager._configMode Manager._lastReconnectAttempt
       Manager._reconnectAttempts Manager._onConfigStart Manager._onConfigEnd
       Manager._onConnect Manager._onStatusChange Manager.pressStart
       Manager.pressed Manager.trace Manager.emit Manager.set_status
       Manager.set_portal Manager.set_storage Manager.set_isInitialized
       Manager.set_configMode Manager.set_reconnect Manager.set_button
       Manager.set_config Manager._active fst snd].

Ltac count_events :=
  unfold Manager.count in *;
  rewrite <- ?app_assoc, ?filter_app, ?length_app; cbn [filter length
    Manager.is_join Manager.is_portal_start Manager.is_status
    Manager.is_notification Manager.status_eqb app]; lia.

Section PortalRequest.
Import Manager.

Lemma connectWiFi_usable (s : list byte) (pw : option (list byte)) (joined : bool)
      (m : PicoWiFiManager) :
  CString.strlen s <> 0 -> fst (connectWiFi (Some s) pw joined m) = joined.
Proof.
  intros H. unfold connectWiFi.
  destruct (Nat.eqb_spec (CString.strlen s) 0); [contradiction|].
  destruct joined; reflexivity.
Qed.

Lemma connectWiFi_unusable (ssid pw : option (list byte)) (joined : bool)
      (m : PicoWiFiManager) :
  usable ssid = false -> connectWiFi ssid pw joined m = (false, m).
Proof.
  unfold usable, connectWiFi. destruct ssid as [s|]; [|reflexivity].
  destruct (CString.strlen s =? 0); [reflexivity | discriminate].
Qed.

(** Everything a join leaves as it was, and the one [WiFi.begin]. *)
Lemma connectWiFi_effect (s : list byte) (pw : option (list byte)) (joined : bool)
      (m : PicoWiFiManager) :
  CString.strlen s <> 0 ->
  let m' := snd (connectWiFi (Some s) pw joined m) in
  same_setup m m'
  /\ _portal m' = _portal m
  /\ _configMode m' = _configMode m
  /\ _onConfigStart m' = _onConfigStart m
  /\ _onConfigEnd m' = _onConfigEnd m
  /\ _onConnect m' = _onConnect m
  /\ _status m' = (if joined then CONNECTED else DISCONNECTED)
  /\ (joined = true -> _reconnectAttempts m' = 0%N)
  /\ (joined = false -> _reconnectAttempts m' = _reconnectAttempts m)
  /\ exists ev, emitted m m' ev
                /\ count is_join ev = 1 /\ count is_portal_start ev = 0.
Proof.
  intros Hs. unfold connectWiFi.
  destruct (Nat.eqb_spec (CString.strlen s) 0) as [E|_]; [contradiction|].
  unfold setStatus, same_setup, emitted.
  destruct joined; cbn; case_ifs; splits; try reflexivity;
    try discriminate; intros; frame_goal.
Qed.

Lemma saveWiFiCredentials_stored (ssid pw : list byte) (s : Storage.StorageManager) :
  Storage._initialized s = true ->
  let s' := snd (Storage.saveWiFiCredentials (Some ssid) (Some pw) s) in
  Storage.hasWiFiCredentials s' = true
  /\ CString.c_str (Storage.ssid (Storage.wifi (Storage._data s')))
     = firstn 31 (CString.c_str ssid)
  /\ CString.c_str (Storage.password (Storage.wifi (Storage._data s')))
     = firstn 63 (CString.c_str pw).
Proof.
  intros I. cbv zeta. unfold Storage.saveWiFiCredentials, Storage.hasWiFiCredentials.
  rewrite I. cbn [negb]. unfold Storage.saveToEEPROM.
  cbn [snd Storage._initialized Storage._data Storage.set_data Storage.wifi
       Storage.set_checksum Storage.set_wifi Storage.ssid Storage.password
       Storage.valid].
  rewrite I. splits.
  - reflexivity.
  - apply (c_str_bounded_copy ssid Storage.MAX_SSID_LENGTH).
  - apply (c_str_bounded_copy pw Storage.MAX_PASSWORD_LENGTH).
Qed.

(** X15: a connect request the portal serves.  With an empty ssid nothing
    happens.  Otherwise one join is started: if it fails, nothing is
    stored, the manager stays in config mode with the portal up, and its
    status is DISCONNECTED; if it works, the credentials submitted are
    stored (the ssid cut at 31 bytes, the password at 63), the portal is
    stopped, config mode ends and the status is CONNECTED. *)
Theorem portal_connect_request
        (t : Tick) (m : PicoWiFiManager) (s : Storage.StorageManager)
        (ssid pw : list byte) :
  _storage m = Some s -> Storage._initialized s = true ->
  _configMode m = true -> _active (_portal m) = true ->
  http_request t = Some (ConnectRequest ssid pw) -> portal_timed_out t = false ->
  exists m',
    portal_handle t m = Running m'
    /\ (CString.strlen ssid = 0 -> m' = m)
    /\ (CString.strlen ssid <> 0 -> portal_join_succeeds t = false ->
        _storage m' = Some s
        /\ _configMode m' = true
        /\ _active (_portal m') = true
        /\ _status m' = DISCONNECTED
        /\ count is_join (trace m') = S (count is_join (trace m)))
    /\ (CString.strlen ssid <> 0 -> portal_join_succeeds t = true ->
        exists s',
          _storage m' = Some s'
          /\ Storage.hasWiFiCredentials s' = true
          /\ CString.c_str (Storage.ssid (Storage.wifi (Storage._data s')))
             = firstn 31 (CString.c_str ssid)
          /\ CString.c_str (Storage.password (Storage.wifi (Storage._data s')))
             = firstn 63 (CString.c_str pw)
          /\ _configMode m' = false
          /\ _active (_portal m') = false
          /\ _status m' = CONNECTED
          /\ _reconnectAttempts m' = 0%N
          /\ count is_join (trace m') = S (count is_join (trace m))).
Proof.
  intros Hs Hi Hcm Ha Hreq Hto.
  unfold portal_handle. rewrite Ha, Hreq, Hto.
  fold (CString.strlen ssid).
  destruct (Nat.eqb_spec (CString.strlen ssid) 0) as [E|E]; cbn [and_then].
  - exists m. splits; [reflexivity | reflexivity | contradiction | contradiction].
  - eexists. split; [reflexivity|]. split; [contradiction|].
    unfold portal_onConnect.
    pose proof (@connectWiFi_usable ssid (Some pw) (portal_join_succeeds t) m E) as F.
    destruct (@connectWiFi_effect ssid (Some pw) (portal_join_succeeds t) m E)
      as ((_ & S2 & _) & P & C & _ & CE & _ & St & A1 & A2 & ev & Ev & J & _).
    destruct (connectWiFi (Some ssid) (Some pw) (portal_join_succeeds t) m)
      as [connected m1].
    cbn [fst snd] in *. subst connected. unfold emitted in Ev.
    split; intros _ Hj; rewrite Hj in *.
    + splits; try congruence. rewrite Ev, count_app, J. lia.
    + rewrite S2, Hs.
      destruct (@saveWiFiCredentials_stored ssid pw s Hi) as (K1 & K2 & K3).
      set (s' := snd (Storage.saveWiFiCredentials (Some ssid) (Some pw) s)) in *.
      clearbody s'. exists s'.
      unfold stopConfigPortal, portal_stop. fields. rewrite C, Hcm, P, Ha.
      cbn [negb]. fields. rewrite CE.
      assert (Q : forall x : PicoWiFiManager,
                 _status x = CONNECTED -> setStatus CONNECTED x = x).
      { intros x Hx. rewrite <- Hx. apply setStatus_same. }
      destruct (_onConfigEnd m); rewrite Q by (fields; exact St); fields;
        (splits; try reflexivity; try assumption; try (now apply A1));
        rewrite Ev; count_events.
Qed.

Lemma portal_connect_request_witness :
  _storage unboxed = Some opened
  /\ _configMode unboxed = true
  /\ exists m',
       portal_handle (provisioning 5000) unboxed = Running m'
       /\ option_map Storage.hasWiFiCredentials (_storage m') = Some true
       /\ _configMode m' = false
       /\ _status m' = CONNECTED.
Proof.
  assert (Hs : _storage unboxed = Some opened) by (vm_compute; reflexivity).
  assert (Hcm : _configMode unboxed = true) by reflexivity.
  splits; [exact Hs | exact Hcm |].
  destruct (@portal_connect_request (provisioning 5000) unboxed opened home secret
              Hs eq_refl Hcm eq_refl eq_refl eq_refl) as (m' & H1 & _ & _ & H4).
  destruct H4 as (s' & K1 & K2 & _ & _ & K5 & _ & K7 & _).
  - intros H. vm_compute in H. discriminate.
  - reflexivity.
  - exists m'. rewrite K1. cbn [option_map]. rewrite K2. now splits.
Defined.

End PortalRequest.

Section AutoConnect.
Import Manager.

(** X16: [autoConnect(ssid, password)] on a manager that is initialized.  It
    answers true exactly when the join worked or the access point of the
    setup portal came up.  A null or empty ssid starts no join.  After a
    join that worked the status is CONNECTED and no access point was
    raised; otherwise the portal is started: CONFIG_MODE with the portal
    up, or, the access point failing, ERROR outside config mode. *)
Theorem autoConnect_outcomes
        (ssid pw : option (list byte)) (tmp : Storage.Padding)
        (fresh : Storage.StorageManager)
        (joined softAP : bool) (m : PicoWiFiManager) :
  _isInitialized m = true ->
  let r := autoConnect_to ssid pw tmp fresh joined softAP m in
  fst r = (usable ssid && joined) || softAP
  /\ (usable ssid = false -> count is_join (trace (snd r)) = count is_join (trace m))
  /\ (usable ssid = true ->
      count is_join (trace (snd r)) = S (count is_join (trace m)))
  /\ (usable ssid && joined = true ->
      fst r = true
      /\ _status (snd r) = CONNECTED
      /\ _reconnectAttempts (snd r) = 0%N
      /\ _configMode (snd r) = _configMode m
      /\ count is_portal_start (trace (snd r)) = count is_portal_start (trace m))
  /\ (usable ssid && joined = false ->
      count is_portal_start (trace (snd r)) = S (count is_portal_start (trace m))
      /\ _configMode (snd r) = softAP
      /\ _active (_portal (snd r)) = (softAP || _active (_portal m))
      /\ _status (snd r) = (if softAP then CONFIG_MODE else ERROR)).
Proof.
  intros Hi. cbv zeta. unfold autoConnect_to. rewrite Hi. cbn [negb].
  destruct (usable ssid) eqn:U.
  - destruct ssid as [s|]; [|discriminate]. unfold usable in U.
    assert (E : CString.strlen s <> 0)
      by (destruct (Nat.eqb_spec (CString.strlen s) 0); [discriminate | assumption]).
    pose proof (@connectWiFi_usable s pw joined m E) as F.
    destruct (@connectWiFi_effect s pw joined m E)
      as (_ & P & C & _ & _ & _ & St & A1 & _ & ev & Ev & J & Q).
    destruct (connectWiFi (Some s) pw joined m) as [connected m1].
    cbn [fst snd] in *. subst connected. unfold emitted in Ev.
    destruct joined; cbn [andb orb negb fst snd].
    + splits; try reflexivity; try discriminate.
      * intros _. rewrite Ev. count_events.
      * intros _. splits; auto. rewrite Ev. count_events.
    + destruct (startConfigPortal_frame softAP m1) as (_ & C' & ev' & Ev' & J' & Q').
      unfold emitted in Ev'.
      assert (K : fst (startConfigPortal softAP m1) = softAP
                  /\ _active (_portal (snd (startConfigPortal softAP m1)))
                     = (softAP || _active (_portal m1))
                  /\ _status (snd (startConfigPortal softAP m1))
                     = (if softAP then CONFIG_MODE else ERROR)).
      { unfold startConfigPortal, startConfigPortal_as, portal_start.
        destruct softAP; cbn [negb fst snd]; fields;
          rewrite ?setStatus_status; splits; try reflexivity.
        unfold setStatus; case_ifs; reflexivity. }
      destruct K as (K1 & K2 & K3).
      splits; try discriminate.
      * exact K1.
      * intros _. rewrite Ev', Ev. count_events.
      * intros _. splits; try assumption; [rewrite Ev', Ev; count_events|].
        now rewrite K2, P.
  - rewrite (connectWiFi_unusable ssid pw joined m U). cbn [andb orb].
    destruct (startConfigPortal_frame softAP m) as (_ & C' & ev' & Ev' & J' & Q').
    unfold emitted in Ev'.
    assert (K : fst (startConfigPortal softAP m) = softAP
                /\ _active (_portal (snd (startConfigPortal softAP m)))
                   = (softAP || _active (_portal m))
                /\ _status (snd (startConfigPortal softAP m))
                   = (if softAP then CONFIG_MODE else ERROR)).
    { unfold startConfigPortal, startConfigPortal_as, portal_start.
      destruct softAP; cbn [negb fst snd]; fields;
        rewrite ?setStatus_status; splits; try reflexivity.
      unfold setStatus; case_ifs; reflexivity. }
    destruct K as (K1 & K2 & K3).
    splits; try discriminate.
    + exact K1.
    + intros _. rewrite Ev'. count_events.
    + intros _. splits; try assumption. rewrite Ev'. count_events.
Qed.

Lemma autoConnect_outcomes_witness :
  _isInitialized provisioned = true
  /\ fst (autoConnect_to (Some home) (Some secret) Storage.zero_padding
            (Storage.StorageManager_new Storage.zero_padding Storage.erased)
            false true provisioned) = true
  /\ _status (snd (autoConnect_to (Some home) (Some secret) Storage.zero_padding
                     (Storage.StorageManager_new Storage.zero_padding Storage.erased)
                     false true provisioned)) = CONFIG_MODE.
Proof.
  assert (Hi : _isInitialized provisioned = true) by reflexivity.
  destruct (@autoConnect_outcomes (Some home) (Some secret) Storage.zero_padding
              (Storage.StorageManager_new Storage.zero_padding Storage.erased)
              false true provisioned Hi) as (H1 & _ & _ & _ & H5).
  destruct (H5 eq_refl) as (_ & _ & _ & H9).
  splits; [exact Hi | exact H1 | exact H9].
Defined.

(** X17: [begin] never fails: it answers true, leaves the manager initialized
    with an open store, and a second call changes nothing.  A first call
    leaves the status DISCONNECTED. *)
Theorem begin_always_succeeds
        (tmp tmp' : Storage.Padding) (fresh again : Storage.StorageManager)
        (m : PicoWiFiManager) :
  let r := begin tmp fresh m in
  fst r = true
  /\ _isInitialized (snd r) = true
  /\ begin tmp' again (snd r) = (true, snd r)
  /\ (_isInitialized m = true -> snd r = m)
  /\ (_isInitialized m = false ->
      _status (snd r) = DISCONNECTED
      /\ _configMode (snd r) = _configMode m
      /\ exists s, _storage (snd r) = Some s
                   /\ Storage._initialized s = true
                   /\ s = snd (Storage.begin 512 tmp fresh)).
Proof.
  cbv zeta.
  assert (B : forall f, fst (Storage.begin 512 tmp f) = true) by reflexivity.
  unfold begin. destruct (_isInitialized m) eqn:Hi.
  - cbn [fst snd]. rewrite Hi. splits; try reflexivity. discriminate.
  - pose proof (B fresh) as Bf.
    destruct (Storage.begin 512 tmp fresh) as [ok s] eqn:Eb. cbn [fst] in Bf. subst ok.
    cbn [negb fst snd]. fields.
    splits; try reflexivity; try discriminate.
    intros _. rewrite setStatus_status. splits; try reflexivity.
    + unfold setStatus. case_ifs; reflexivity.
    + exists s. splits; try reflexivity.
      * unfold setStatus. case_ifs; reflexivity.
      * apply (f_equal snd) in Eb. cbn [snd] in Eb. now subst s.
Qed.

Lemma firstn_blank (n : nat) (l : list byte) :
  Forall (fun b => b = xff) l -> n <= length l -> firstn n l = repeat xff n.
Proof.
  intros F. revert n. induction F as [|b l -> _ IH]; intros [|n] L;
    cbn in *; try reflexivity; try lia.
  f_equal. apply IH. lia.
Qed.

(** [begin] over an erased EEPROM: the record read does not validate and
    the defaults are written. *)
Lemma begin_blank (tmp p : Storage.Padding) (e : Storage.EEPROMClass) :
  blank e ->
  Storage._data (snd (Storage.begin 512 tmp (Storage.StorageManager_new p e)))
  = Storage.set_checksum (Storage.calculateChecksum (Storage.StorageData_new tmp))
                         (Storage.StorageData_new tmp).
Proof.
  intros B.
  assert (C : Storage.cells (Storage.EEPROM_begin 512 e) = repeat xff 512).
  { unfold Storage.EEPROM_begin. cbn [Storage.cells].
    apply firstn_blank.
    - apply Forall_app. split; [exact B | apply Forall_forall].
      intros b Hb. now apply repeat_spec in Hb.
    - rewrite length_app, repeat_length. lia. }
  unfold Storage.begin, Storage.loadFromEEPROM, Storage.EEPROM_get.
  cbn [Storage.EEPROM Storage.StorageManager_new].
  change (Storage.size (Storage.EEPROM_begin 512 e)) with 512.
  change (Storage.EEPROM_START_ADDRESS + Storage.sizeof_StorageData <=? 512) with true.
  cbv iota. rewrite C.
  change (Storage.validateData
            (Storage._data
               (Storage.set_data
                  (Storage.of_bytes
                     (Bytes.slice Storage.EEPROM_START_ADDRESS
                        Storage.sizeof_StorageData (repeat xff 512)))
                  {| Storage._initialized := false; Storage._eepromSize := 512;
                     Storage._data := Storage.StorageData_new p;
                     Storage.EEPROM := Storage.EEPROM_begin 512 e |})))
    with false.
  reflexivity.
Qed.

(** X5: [autoConnect()] on a manager not yet initialized, over an erased
    EEPROM, whatever the padding of the new storage object and of the
    temporary of [StorageManager::begin] holds: the manager is
    initialized, no credentials are found and no join is started; the
    setup portal is started once, and the call answers what
    [WiFi.softAP] answers: true in CONFIG_MODE with the portal up, or
    false with status ERROR outside config mode. *)
Theorem autoConnect_fresh_device
        (tmp p : Storage.Padding) (e : Storage.EEPROMClass)
        (joined softAP : bool) (m : PicoWiFiManager) :
  _isInitialized m = false -> blank e ->
  let r := autoConnect tmp (Storage.StorageManager_new p e) joined softAP m in
  fst r = softAP
  /\ _isInitialized (snd r) = true
  /\ _status (snd r) = (if softAP then CONFIG_MODE else ERROR)
  /\ _configMode (snd r) = softAP
  /\ _active (_portal (snd r)) = (softAP || _active (_portal m))
  /\ count is_join (trace (snd r)) = count is_join (trace m)
  /\ count is_portal_start (trace (snd r)) = S (count is_portal_start (trace m))
  /\ option_map Storage.hasWiFiCredentials (_storage (snd r)) = Some false.
Proof.
  intros Hi B. cbv zeta.
  pose proof (begin_blank tmp p B) as D.
  assert (I0 : Storage._initialized
                 (snd (Storage.begin 512 tmp (Storage.StorageManager_new p e))) = true)
    by reflexivity.
  assert (Bt : fst (Storage.begin 512 tmp (Storage.StorageManager_new p e)) = true)
    by reflexivity.
  unfold autoConnect, begin. rewrite Hi. cbn [negb].
  destruct (Storage.begin 512 tmp (Storage.StorageManager_new p e)) as [ok s].
  cbn [fst snd] in Bt, D, I0. subst ok. cbn [negb].
  set (m1 := set_isInitialized true
               (setStatus DISCONNECTED (set_storage (Some s) m))).
  assert (S1 : _storage m1 = Some s).
  { unfold m1. fields. now destruct (setStatus_frame DISCONNECTED
                                      (set_storage (Some s) m))
      as ((_ & -> & _) & _). }
  assert (V : Bytes.truthy (Storage.valid (Storage.wifi (Storage._data s))) = false)
    by (rewrite D; reflexivity).
  assert (L : Storage.loadWiFiCredentials s
              = (false, Some (Storage.wifi (Storage._data s)))).
  { unfold Storage.loadWiFiCredentials. rewrite I0. cbn [negb]. now rewrite V. }
  rewrite S1, L.
  destruct (startConfigPortal_frame softAP m1) as ((_ & St & I1 & _) & C' & ev' & Ev' & J' & Q').
  assert (K : fst (startConfigPortal softAP m1) = softAP
              /\ _active (_portal (snd (startConfigPortal softAP m1)))
                 = (softAP || _active (_portal m1))
              /\ _status (snd (startConfigPortal softAP m1))
                 = (if softAP then CONFIG_MODE else ERROR)).
  { unfold startConfigPortal, startConfigPortal_as, portal_start.
    destruct softAP; cbn [negb fst snd]; fields;
      rewrite ?setStatus_status; splits; try reflexivity.
    unfold setStatus; case_ifs; reflexivity. }
  destruct K as (K1 & K2 & K3).
  destruct (setStatus_frame DISCONNECTED (set_storage (Some s) m))
    as (_ & _ & P0 & _ & _ & ev0 & Ev0 & J0 & Q0).
  assert (T1 : trace m1 = trace m ++ ev0) by (unfold m1; fields; exact Ev0).
  assert (A1 : _portal m1 = _portal m) by (unfold m1; fields; exact P0).
  unfold emitted in Ev'.
  splits.
  - exact K1.
  - rewrite I1. reflexivity.
  - exact K3.
  - exact C'.
  - now rewrite K2, A1.
  - rewrite Ev', T1. count_events.
  - rewrite Ev', T1. count_events.
  - rewrite St, S1. cbn [option_map]. unfold Storage.hasWiFiCredentials.
    rewrite V. now rewrite andb_false_r.
Qed.

Lemma autoConnect_fresh_device_witness :
  _isInitialized (PicoWiFiManager_new PicoWiFiConfig_new) = false
  /\ blank Storage.erased
  /\ fst (autoConnect Storage.zero_padding
                      (Storage.StorageManager_new Storage.zero_padding Storage.erased)
                      true false (PicoWiFiManager_new PicoWiFiConfig_new)) = false
  /\ _status (snd (autoConnect Storage.zero_padding
                      (Storage.StorageManager_new Storage.zero_padding Storage.erased)
                      true false (PicoWiFiManager_new PicoWiFiConfig_new))) = ERROR.
Proof.
  assert (H1 : _isInitialized (PicoWiFiManager_new PicoWiFiConfig_new) = false)
    by reflexivity.
  assert (H2 : blank Storage.erased) by constructor.
  destruct (@autoConnect_fresh_device Storage.zero_padding Storage.zero_padding
              Storage.erased true false (PicoWiFiManager_new PicoWiFiConfig_new)
              H1 H2) as (R1 & _ & R3 & _).
  splits; [exact H1 | exact H2 | exact R1 | exact R3].
Defined.

End AutoConnect.

Section PortalLifecycle.
Import Manager.



End PortalLifecycle.

Section Lamp.
Import Manager LED.

Lemma watch_blinking (I : N) (status : ConnectionStatus) (times : list N) :
  interval_of status = Some I ->
  forall l : Lamp,
    ledPin l <> 255%N ->
    apart I (_lastLEDUpdate l) (snd (watch status times l))
    /\ alternate (negb (_ledState l)) (snd (watch status times l)).
Proof.
  intros HI. induction times as [|now rest IH]; intros l Hpin; cbn [watch].
  - now split.
  - assert (E : updateLED status now l = blink I now l).
    { unfold updateLED. destruct (N.eqb_spec (ledPin l) 255); [contradiction|].
      destruct status; try discriminate; injection HI as <-; reflexivity. }
    rewrite E. unfold blink.
    destruct (N.leb_spec I (sub32 now (_lastLEDUpdate l))) as [G|G].
    + cbv zeta.
      specialize (IH {| ledPin := ledPin l; _lastLEDUpdate := (now mod two32)%N;
                        _ledState := negb (_ledState l) |} Hpin).
      destruct (watch status rest _) as [l2 ws']. cbn [snd map app] in *.
      cbn [apart alternate level _lastLEDUpdate _ledState] in *.
      destruct IH as (IH1 & IH2). splits; auto.
    + specialize (IH l Hpin).
      destruct (watch status rest l) as [l2 ws']. cbn [snd map app] in *.
      exact IH.
Qed.

(** X20: the LED over a series of calls of [updateLED] in one status.  With
    [ledPin] 255 nothing is ever written.  In a status that blinks
    (CONNECTING every 200 ms, CONFIG_MODE every 100 ms, ERROR every
    1000 ms) each write toggles the level and comes at least the interval
    after the write before it, by the 32-bit clock.  In the other
    statuses every call writes the same level, HIGH when CONNECTED, LOW
    otherwise, and the blink state is not touched. *)
Theorem led_blinks_at_its_interval
        (status : ConnectionStatus) (times : list N) (l : Lamp) :
  (ledPin l = 255%N -> watch status times l = (l, []))
  /\ (ledPin l <> 255%N ->
      (forall I, interval_of status = Some I ->
         apart I (_lastLEDUpdate l) (snd (watch status times l))
         /\ alternate (negb (_ledState l)) (snd (watch status times l)))
      /\ (interval_of status = None ->
          watch status times l
          = (l, map (fun now => (now, {| pin := ledPin l;
                                         level := status_eqb status CONNECTED |}))
                    times))).
Proof.
  splits.
  - intros Hpin. induction times as [|now rest IH]; cbn [watch]; [reflexivity|].
    unfold updateLED. rewrite Hpin. cbn. now rewrite IH.
  - intros Hpin. split.
    + intros I HI. now apply watch_blinking.
    + intros HN. induction times as [|now rest IH]; cbn [watch]; [reflexivity|].
      unfold updateLED. destruct (N.eqb_spec (ledPin l) 255); [contradiction|].
      destruct status; try discriminate; rewrite IH; reflexivity.
Qed.

End Lamp.

Section PortalLife.
Import Manager Portal.

Lemma handles_stopped (times : list N) (p : ConfigPortal) :
  _active p = false -> handles times p = (p, []).
Proof.
  intros H. induction times as [|now rest IH]; cbn [handles]; [reflexivity|].
  unfold handle. rewrite H. cbn [andb]. now rewrite IH.
Qed.

(** X21: a portal that is up, over a series of calls of [handle] in which
    no request is served: it is stopped by the first call that finds the
    timeout positive and more than the timeout elapsed since [start] on
    the 32-bit clock, the access point is taken down once, and later
    calls do nothing; if no call finds that, in particular with a timeout
    of 0, the portal stays up. *)
Theorem portal_stops_once_after_timeout (times : list N) (p : ConfigPortal) :
  _active p = true -> _server p = true ->
  let late := existsb (fun now => expired now p) times in
  _active (fst (handles times p)) = negb late
  /\ snd (handles times p) = (if late then [WiFi_softAPdisconnect] else [])
  /\ _timeout (fst (handles times p)) = _timeout p
  /\ _startTime (fst (handles times p)) = _startTime p
  /\ (_timeout p = 0%N -> late = false).
Proof.
  intros Ha Hs. cbv zeta.
  induction times as [|now rest IH]; cbn [handles existsb].
  - splits; try reflexivity; assumption.
  - unfold handle at 1 2 3 4. rewrite Ha, Hs. cbn [andb].
    destruct (expired now p) eqn:E; cbn [orb].
    + unfold stop. rewrite Ha. rewrite handles_stopped by reflexivity.
      cbn [fst snd app _active _timeout _startTime].
      splits; try reflexivity. intros Z. unfold expired in E. rewrite Z in E.
      discriminate.
    + destruct (handles rest p) as [p2 ev'] eqn:H. cbn [fst snd app] in *.
      exact IH.
Qed.

Lemma portal_stops_once_after_timeout_witness :
  let p := snd (fst (start home (Some secret) true 1000%N ConfigPortal_new)) in
  _active p = true
  /\ _server p = true
  /\ _active (fst (handles [2000; 301000; 301001; 400000]%N p)) = false
  /\ snd (handles [2000; 301000; 301001; 400000]%N p) = [WiFi_softAPdisconnect]
  /\ _active (fst (handles [2000; 301000; 301001; 400000]%N (setTimeout 0%N p))) = true.
Proof.
  cbv zeta.
  set (p := snd (fst (start home (Some secret) true 1000%N ConfigPortal_new))).
  assert (Ha : _active p = true) by reflexivity.
  assert (Hs : _server p = true) by reflexivity.
  destruct (@portal_stops_once_after_timeout [2000; 301000; 301001; 400000]%N p Ha Hs)
    as (H1 & H2 & _).
  destruct (@portal_stops_once_after_timeout [2000; 301000; 301001; 400000]%N
              (setTimeout 0%N p) Ha Hs) as (H3 & _ & _ & _ & H4).
  splits; [exact Ha | exact Hs | | |].
  - rewrite H1. vm_compute. reflexivity.
  - rewrite H2. vm_compute. reflexivity.
  - rewrite H3, H4; reflexivity.
Defined.

End PortalLife.

Section SignalQuality.
Import Bytes Scan Scanner.

(** X22: [getSignalQuality] is a percentage that grows with the signal: 0 up
    to -100 dBm, 100 from -50 dBm; and the five words of
    [formatSignalStrength] are bands of it: Excellent at 100, Good from
    80, Fair from 60, Weak from 40, Very Weak below. *)
Theorem getSignalQuality_is_a_monotone_percentage (a b : ScannedNetwork) :
  (0 <= getSignalQuality a <= 100)%Z
  /\ ((rssi a <= rssi b)%Z -> (getSignalQuality a <= getSignalQuality b)%Z)
  /\ (getSignalQuality a = 0%Z <-> (rssi a <= -100)%Z)
  /\ (getSignalQuality a = 100%Z <-> (-50 <= rssi a)%Z)
  /\ (NetworkUtils.formatSignalStrength (rssi a) = text "Excellent"%string
      <-> getSignalQuality a = 100%Z)
  /\ (NetworkUtils.formatSignalStrength (rssi a) = text "Good"%string
      <-> (80 <= getSignalQuality a < 100)%Z)
  /\ (NetworkUtils.formatSignalStrength (rssi a) = text "Fair"%string
      <-> (60 <= getSignalQuality a < 80)%Z)
  /\ (NetworkUtils.formatSignalStrength (rssi a) = text "Weak"%string
      <-> (40 <= getSignalQuality a < 60)%Z)
  /\ (NetworkUtils.formatSignalStrength (rssi a) = text "Very Weak"%string
      <-> (getSignalQuality a < 40)%Z).
Proof.
  unfold getSignalQuality, NetworkUtils.formatSignalStrength.
  destruct (Z.leb_spec (rssi a) (-100)), (Z.leb_spec (-50) (rssi a)),
    (Z.leb_spec (rssi b) (-100)), (Z.leb_spec (-50) (rssi b)),
    (Z.leb_spec (-60) (rssi a)), (Z.leb_spec (-70) (rssi a)),
    (Z.leb_spec (-80) (rssi a)); try lia;
    splits; try lia;
    (split; [try discriminate; try lia; intros _; lia
            | try lia; intros; try reflexivity; lia]).
Qed.

End SignalQuality.

Section ScannerFilters.
Import Bytes Scan Scanner.

Lemma equals_eq (a b : list byte) : equals a b = true <-> a = b.
Proof.
  revert b. induction a as [|x a IH]; intros [|y b]; cbn [equals];
    try (split; [discriminate | discriminate]); [now split|].
  rewrite andb_true_iff, IH. split.
  - intros (H & ->). apply Byte.byte_dec_bl in H. now subst.
  - intros [= -> ->]. split; [apply Byte.byte_dec_lb|]; reflexivity.
Qed.

Lemma equals_refl (a : list byte) : equals a a = true.
Proof. now apply equals_eq. Qed.

Lemma validateSSID_nonempty (s : list byte) :
  validateSSID s = true -> 1 <= length s <= 32.
Proof.
  unfold validateSSID.
  destruct (Nat.eqb_spec (length s) 0), (Nat.ltb_spec 32 (length s));
    cbn [orb]; try discriminate. lia.
Qed.

Lemma shouldIncludeNetwork_config (sc sc' : NetworkScanner) (n : ScannedNetwork) :
  _config sc' = _config sc ->
  shouldIncludeNetwork sc' n = shouldIncludeNetwork sc n.
Proof. intros E. unfold shouldIncludeNetwork. now rewrite E. Qed.

Lemma shouldIncludeNetwork_true (sc : NetworkScanner) (n : ScannedNetwork) :
  shouldIncludeNetwork sc n = true
  <-> (hidden n && negb (showHidden (_config sc)) = false
       /\ (minSignalQuality (_config sc) <= getSignalQuality n)%Z
       /\ validateSSID (ssid n) = true).
Proof.
  unfold shouldIncludeNetwork.
  destruct (hidden n && negb (showHidden (_config sc))).
  - split; [discriminate | intros (H & _); discriminate].
  - destruct (Z.ltb_spec (getSignalQuality n) (minSignalQuality (_config sc))).
    + split; [discriminate | intros (_ & H' & _); lia].
    + destruct (validateSSID (ssid n)); cbn [negb].
      * split; [intros _; splits; auto | reflexivity].
      * split; [discriminate | intros (_ & _ & H'); discriminate].
Qed.

Lemma hidden_hides (air : Air) (k : nat) :
  (hidden (scanned air k) = true -> validateSSID (ssid (scanned air k)) = false)
  /\ hidden (scanned air k) = (length (ssid (scanned air k)) =? 0).
Proof.
  split; [|reflexivity]. cbn [hidden scanned ssid]. intros H.
  apply Nat.eqb_eq in H. unfold validateSSID. now rewrite H.
Qed.

(** X23: a network the scan reports without a name is marked hidden, and
    [shouldIncludeNetwork] drops it whatever [showHidden] says, because
    [validateSSID] rejects the empty name: the setting has no effect on
    what a scan keeps. *)
Theorem hidden_networks_are_never_kept
        (sc : NetworkScanner) (air : Air) (i : nat) (b : bool) :
  (hidden (scanned air i) = true -> shouldIncludeNetwork sc (scanned air i) = false)
  /\ (shouldIncludeNetwork sc (scanned air i) = true ->
      hidden (scanned air i) = false
      /\ 1 <= length (ssid (scanned air i)) <= 32
      /\ (minSignalQuality (_config sc) <= getSignalQuality (scanned air i))%Z)
  /\ shouldIncludeNetwork (with_showHidden b sc) (scanned air i)
     = shouldIncludeNetwork sc (scanned air i).
Proof.
  assert (Hh : hidden (scanned air i) = true -> validateSSID (ssid (scanned air i)) = false).
  { cbn [hidden scanned ssid]. intros H. apply Nat.eqb_eq in H.
    unfold validateSSID. rewrite H. reflexivity. }
  splits.
  - intros H. specialize (Hh H). unfold shouldIncludeNetwork. rewrite Hh.
    cbn [negb]. case_ifs; reflexivity.
  - intros H. apply shouldIncludeNetwork_true in H. destruct H as (_ & Q & V).
    split; [|split; [now apply validateSSID_nonempty | exact Q]].
    destruct (hidden (scanned air i)); [|reflexivity].
    rewrite Hh in V by reflexivity. discriminate.
  - unfold shouldIncludeNetwork, with_showHidden, setConfig.
    cbn [_config set_config showHidden minSignalQuality].
    destruct (hidden (scanned air i)) eqn:H; cbn [andb]; [|reflexivity].
    rewrite (Hh eq_refl). cbn [negb]. case_ifs; reflexivity.
Qed.

End ScannerFilters.

Ltac scan_fields :=
  cbn [Scanner._config Scanner._networks Scanner._lastScanTime
       Scanner._scanInProgress Scanner._asyncScanStarted Scanner._lastError
       Scanner._onScanComplete Scanner._onScanError Scanner.notices
       Scanner.set_config Scanner.set_scanInProgress Scanner.set_lastError
       Scanner.set_networks Scanner.notify fst snd].

Section InsertionSort.
Import Bytes Scan Scanner.

Lemma insert_perm (cmp : ScannedNetwork -> ScannedNetwork -> bool)
      (x : ScannedNetwork) (l : list ScannedNetwork) :
  Permutation (x :: l) (insert cmp x l).
Proof.
  induction l as [|y l IH]; cbn [insert]; [reflexivity|].
  destruct (cmp x y); [reflexivity|].
  rewrite perm_swap. now constructor.
Qed.

Lemma insert_sorted (cmp : ScannedNetwork -> ScannedNetwork -> bool)
      (x : ScannedNetwork) (l : list ScannedNetwork) :
  strict_weak cmp ->
  StronglySorted (fun a b => cmp b a = false) l ->
  StronglySorted (fun a b => cmp b a = false) (insert cmp x l).
Proof.
  intros (Irr & Tr & Ntr). induction 1 as [|y l S IH F]; cbn [insert].
  - constructor; constructor.
  - destruct (cmp x y) eqn:C.
    + constructor; [now constructor|].
      assert (Hyx : cmp y x = false).
      { destruct (cmp y x) eqn:D; [|reflexivity].
        rewrite <- (Irr x). symmetry. now apply Tr with y. }
      constructor; [exact Hyx|].
      eapply Forall_impl; [|exact F]. intros z Hz. cbn beta in *.
      destruct (cmp z x) eqn:D; [|reflexivity].
      rewrite <- Hz. symmetry. now apply Tr with x.
    + constructor; [exact IH|].
      eapply Permutation_Forall; [apply insert_perm|].
      now constructor.
Qed.

Lemma insertion_sort_sorts : sorts insertion_sort.
Proof.
  intros cmp l. split.
  - induction l as [|x l IH]; cbn [insertion_sort]; [reflexivity|].
    rewrite <- insert_perm. now constructor.
  - intros SW. induction l as [|x l IH]; cbn [insertion_sort]; [constructor|].
    now apply insert_sorted.
Qed.

End InsertionSort.

Section ScanOutcome.
Import Bytes Scan Scanner.

Variable std_sort :
  (ScannedNetwork -> ScannedNetwork -> bool) -> list ScannedNetwork
  -> list ScannedNetwork.

(** X24: a scan is refused only while one is in progress, and none ever is
    between two calls: [startScan] on a scanner that is not scanning fails
    exactly when the radio's scan fails.  Then the networks of the last
    scan and its time are kept, so [getResults] still returns them, the
    error is "Scan failed" and the error callback, if registered, is
    invoked once.  When the radio's scan works the error is cleared and
    the completion callback gets the number of networks kept. *)
Theorem startScan_fails_only_with_the_radio (air : Air) (sc : NetworkScanner) :
  _scanInProgress sc = false ->
  let r := startScan std_sort air sc in
  _scanInProgress (snd r) = false
  /\ isScanComplete (snd r) = true
  /\ _config (snd r) = _config sc
  /\ (fst r = false <-> (networkCount air < 0)%Z)
  /\ ((networkCount air < 0)%Z ->
      _networks (snd r) = _networks sc
      /\ _lastScanTime (snd r) = _lastScanTime sc
      /\ getLastError (snd r) = text "Scan failed"%string
      /\ notices (snd r)
         = notices sc ++ (if _onScanError sc
                          then [ScanError (text "Scan failed"%string)] else [])
      /\ forall now, fst (getResults std_sort true now air sc) = _networks sc)
  /\ ((0 <= networkCount air)%Z ->
      getLastError (snd r) = []
      /\ _lastScanTime (snd r) = (millis air mod Manager.two32)%N
      /\ notices (snd r)
         = notices sc ++ (if _onScanComplete sc
                          then [ScanComplete (length (_networks (snd r)))] else [])).
Proof.
  intros Hp. cbv zeta. unfold getResults, startScan. rewrite Hp.
  unfold performScan, isScanComplete, getLastError, setError.
  destruct (Z.ltb_spec (networkCount air) 0) as [L|L]; scan_fields.
  - splits; try reflexivity; try lia.
    + destruct (_onScanError sc); reflexivity.
    + intros _. splits; try reflexivity;
        destruct (_onScanError sc); scan_fields; rewrite ?app_nil_r; reflexivity.
  - cbv zeta. scan_fields.
    splits; try (destruct (_onScanComplete sc); reflexivity).
    + split; [destruct (_onScanComplete sc); discriminate | lia].
    + lia.
    + intros _.
      destruct (_onScanComplete sc); scan_fields; rewrite ?app_nil_r;
        splits; reflexivity.
Qed.

(** What the loop of [performScan] collects: networks that pass the
    filter, read at indices the scan reported, never more than
    [maxResults] unless that many were there before. *)
Lemma collect_spec (sc : NetworkScanner) (air : Air) (left : nat) :
  forall (i : nat) (acc : list ScannedNetwork),
    Forall (fun n => shouldIncludeNetwork sc n = true
                     /\ exists k, k < i + left /\ n = scanned air k) acc ->
    Forall (fun n => shouldIncludeNetwork sc n = true
                     /\ exists k, k < i + left /\ n = scanned air k)
           (collect sc air i left acc)
    /\ length (collect sc air i left acc)
       <= Nat.max (length acc) (maxResults (_config sc))
    /\ length (collect sc air i left acc) <= length acc + left.
Proof.
  induction left as [|left IH]; intros i acc H; cbn [collect].
  - splits; [exact H | lia | lia].
  - destruct (Nat.ltb_spec (length acc) (maxResults (_config sc))) as [L|L];
      [|splits; [exact H | lia | lia]].
    cbv zeta.
    assert (Hw : Forall (fun n => shouldIncludeNetwork sc n = true
                                  /\ exists k, k < S i + left /\ n = scanned air k) acc).
    { eapply Forall_impl; [|exact H]. intros n (A & k & B & C).
      split; [exact A|]. exists k. split; [lia | exact C]. }
    destruct (shouldIncludeNetwork sc (scanned air i)) eqn:E.
    + destruct (IH (S i) (acc ++ [scanned air i])) as (I1 & I2 & I3).
      { apply Forall_app. split; [exact Hw|]. constructor; [|constructor].
        split; [exact E|]. exists i. split; [lia | reflexivity]. }
      rewrite length_app in I2, I3. cbn [length] in I2, I3.
      replace (i + S left) with (S i + left) by lia.
      splits; [exact I1 | lia | lia].
    + destruct (IH (S i) acc Hw) as (I1 & I2 & I3).
      replace (i + S left) with (S i + left) by lia.
      splits; [exact I1 | lia | lia].
Qed.

Lemma unique_after_keeps {A} (same : A -> A -> bool) (P : A -> Prop) (l : list A) :
  Forall P l ->
  forall kept, Forall P (unique_after same kept l)
               /\ length (unique_after same kept l) <= length l.
Proof.
  induction 1 as [|x l Hx _ IH]; intros kept; cbn [unique_after length].
  - split; [constructor | lia].
  - destruct (same kept x).
    + destruct (IH kept) as (I1 & I2). split; [exact I1 | lia].
    + destruct (IH x) as (I1 & I2). split; [now constructor | cbn [length]; lia].
Qed.

Lemma unique_keeps {A} (same : A -> A -> bool) (P : A -> Prop) (l : list A) :
  Forall P l -> Forall P (unique same l) /\ length (unique same l) <= length l.
Proof.
  intros H. destruct H as [|x l Hx H]; cbn [unique length].
  - split; [constructor | lia].
  - destruct (unique_after_keeps same H x) as (I1 & I2).
    split; [now constructor | lia].
Qed.

Lemma StronglySorted_weaken {A} (R R' : A -> A -> Prop) (l : list A) :
  (forall a b, R a b -> R' a b) -> StronglySorted R l -> StronglySorted R' l.
Proof.
  intros W. induction 1 as [|a l _ IH F]; constructor; [exact IH|].
  eapply Forall_impl; [|exact F]. intros b. apply W.
Qed.

Lemma compareBySignal_strict_weak : strict_weak compareBySignal.
Proof.
  unfold strict_weak, compareBySignal. splits.
  - intros a. apply Z.ltb_irrefl.
  - intros a b c. rewrite !Z.ltb_lt. lia.
  - intros a b c. rewrite !Z.ltb_ge. lia.
Qed.

(** X25: the networks a scan keeps: at most [maxResults] and at most as many as
    the radio reported; each one read from the radio at an index below
    the count, not hidden, named with 1 to 32 printable characters and
    with a signal quality of [minSignalQuality] or more, so that
    [filterResults] changes nothing; and, [sortBySignal] set, the
    strongest first. *)
Theorem scan_keeps_filtered_networks (air : Air) (sc : NetworkScanner) :
  sorts std_sort ->
  _scanInProgress sc = false -> (0 <= networkCount air)%Z ->
  let r := startScan std_sort air sc in
  let found := _networks (snd r) in
  fst r = true
  /\ length found <= maxResults (_config sc)
  /\ (Z.of_nat (length found) <= networkCount air)%Z
  /\ Forall (fun n => exists k, (Z.of_nat k < networkCount air)%Z
                                /\ n = scanned air k) found
  /\ Forall (fun n => hidden n = false
                      /\ validateSSID (ssid n) = true
                      /\ (minSignalQuality (_config sc) <= getSignalQuality n)%Z)
            found
  /\ filterResults (snd r) found = found
  /\ (sortBySignal (_config sc) = true ->
      StronglySorted (fun a b => (rssi b <= rssi a)%Z) found).
Proof.
  intros Hsort Hp Hc. cbv zeta. unfold startScan. rewrite Hp.
  set (sc0 := set_lastError [] (set_scanInProgress true sc)).
  assert (C0 : _config sc0 = _config sc) by reflexivity.
  unfold performScan. destruct (Z.ltb_spec (networkCount air) 0) as [L|_]; [lia|].
  cbv zeta.
  set (P := fun n : ScannedNetwork =>
              shouldIncludeNetwork sc0 n = true
              /\ exists k, k < 0 + Z.to_nat (networkCount air) /\ n = scanned air k).
  destruct (@collect_spec sc0 air (Z.to_nat (networkCount air)) 0 [])
    as (F0 & L0 & L0'); [constructor|].
  fold P in F0. cbn [length Nat.max] in L0, L0'.
  set (found := collect sc0 air 0 (Z.to_nat (networkCount air)) []) in *.
  set (found1 := if Scan.removeDuplicates (_config sc0)
                 then removeDuplicates sc0 found else found).
  assert (F1 : Forall P found1 /\ length found1 <= length found).
  { unfold found1, removeDuplicates.
    destruct (Scan.removeDuplicates (_config sc0)); cbn [negb];
      [now apply unique_keeps | split; [exact F0 | lia]]. }
  destruct F1 as (F1 & L1).
  set (found2 := if sortBySignal (_config sc0)
                 then sortResults std_sort sc0 found1 else found1).
  assert (F2 : Forall P found2 /\ length found2 = length found1
               /\ (sortBySignal (_config sc0) = true ->
                   StronglySorted (fun a b => (rssi b <= rssi a)%Z) found2)).
  { unfold found2, sortResults.
    destruct (sortBySignal (_config sc0)).
    - destruct (Hsort compareBySignal found1) as (Pm & Srt).
      splits.
      + eapply Permutation_Forall; [exact Pm | exact F1].
      + symmetry. now apply Permutation_length.
      + intros _. eapply StronglySorted_weaken;
          [|apply Srt, compareBySignal_strict_weak].
        intros a b. unfold compareBySignal. cbn beta. rewrite Z.ltb_ge. lia.
    - splits; [exact F1 | reflexivity | discriminate]. }
  destruct F2 as (F2 & L2 & S2).
  assert (E : forall x : NetworkScanner,
             _networks (if _onScanComplete x
                        then notify (ScanComplete (length found2)) x else x)
             = _networks x
             /\ _config (if _onScanComplete x
                         then notify (ScanComplete (length found2)) x else x)
                = _config x).
  { intros x. destruct (_onScanComplete x); split; reflexivity. }
  cbn [fst snd].
  rewrite !(proj1 (E _)). scan_fields. rewrite C0 in *.
  splits.
  - reflexivity.
  - lia.
  - lia.
  - eapply Forall_impl; [|exact F2]. intros n (_ & k & Hk & ->).
    exists k. split; [lia | reflexivity].
  - eapply Forall_impl; [|exact F2]. intros n (Hn & k & Hk & En).
    apply shouldIncludeNetwork_true in Hn. destruct Hn as (H1 & H2 & H3).
    rewrite C0 in H2. splits; try assumption.
    subst n. destruct (hidden (scanned air k)) eqn:Hh; [|reflexivity].
    destruct (@hidden_hides air k) as (Hv & _). rewrite Hv in H3 by exact Hh.
    discriminate.
  - unfold filterResults. apply forallb_filter_id. apply forallb_forall.
    rewrite Forall_forall in F2. intros n Hn. destruct (F2 n Hn) as (Hs & _).
    erewrite shouldIncludeNetwork_config; [exact Hs|].
    destruct (_onScanComplete sc0); reflexivity.
  - exact S2.
Qed.

End ScanOutcome.

Section ScanWitness.
Import Bytes Scan Scanner.

Lemma startScan_fails_only_with_the_radio_witness :
  _scanInProgress (onScanError NetworkScanner_new) = false
  /\ fst (startScan insertion_sort jammed (onScanError NetworkScanner_new)) = false
  /\ notices (snd (startScan insertion_sort jammed (onScanError NetworkScanner_new)))
     = [ScanError (text "Scan failed"%string)].
Proof.
  assert (Hp : _scanInProgress (onScanError NetworkScanner_new) = false)
    by reflexivity.
  destruct (@startScan_fails_only_with_the_radio insertion_sort jammed
              (onScanError NetworkScanner_new) Hp) as (_ & _ & _ & H4 & H5 & _).
  assert (Hn : (networkCount jammed < 0)%Z) by (cbn; lia).
  destruct (H5 Hn) as (_ & _ & _ & H9 & _).
  splits; [exact Hp | now apply H4 | exact H9].
Defined.

Lemma scan_keeps_filtered_networks_witness :
  sorts insertion_sort
  /\ _scanInProgress NetworkScanner_new = false
  /\ (0 <= networkCount street)%Z
  /\ map ssid (_networks (snd (startScan insertion_sort street NetworkScanner_new)))
     = [text "home"%string; text "home"%string; text "cafe"%string]
  /\ StronglySorted (fun a b => (rssi b <= rssi a)%Z)
       (_networks (snd (startScan insertion_sort street NetworkScanner_new))).
Proof.
  assert (H1 : sorts insertion_sort) by exact insertion_sort_sorts.
  assert (H2 : _scanInProgress NetworkScanner_new = false) by reflexivity.
  assert (H3 : (0 <= networkCount street)%Z) by (cbn; lia).
  destruct (@scan_keeps_filtered_networks insertion_sort street NetworkScanner_new
              H1 H2 H3) as (_ & _ & _ & _ & _ & _ & H).
  splits; [exact H1 | exact H2 | exact H3 | vm_compute; reflexivity |].
  apply H. reflexivity.
Defined.

End ScanWitness.

Section Duplicates.
Import Bytes Scan Scanner.

Lemma unique_after_no_twins (l : list ScannedNetwork) :
  forall kept,
    no_twins (kept :: unique_after (fun a b => equals (ssid a) (ssid b)) kept l).
Proof.
  induction l as [|x l IH]; intros kept; cbn [unique_after]; [exact I|].
  destruct (equals (ssid kept) (ssid x)) eqn:E; [apply IH|].
  cbn [no_twins]. split; [|apply IH].
  intros H. apply equals_eq in H. congruence.
Qed.

Lemma unique_after_id (l : list ScannedNetwork) :
  forall kept,
    no_twins (kept :: l) ->
    unique_after (fun a b => equals (ssid a) (ssid b)) kept l = l.
Proof.
  induction l as [|x l IH]; intros kept H; cbn [unique_after]; [reflexivity|].
  cbn [no_twins] in H. destruct H as (Hne & H).
  destruct (equals (ssid kept) (ssid x)) eqn:E.
  - apply equals_eq in E. contradiction.
  - f_equal. now apply IH.
Qed.

Lemma unique_after_ssids (l : list ScannedNetwork) :
  forall kept s,
    In s (map ssid (kept :: unique_after (fun a b => equals (ssid a) (ssid b)) kept l))
    <-> In s (map ssid (kept :: l)).
Proof.
  induction l as [|x l IH]; intros kept s; cbn [unique_after]; [reflexivity|].
  destruct (equals (ssid kept) (ssid x)) eqn:E.
  - apply equals_eq in E. rewrite IH. cbn [map In]. rewrite E. tauto.
  - specialize (IH x s). cbn [map In] in *. tauto.
Qed.

(** X26: [removeDuplicates] takes out a network only when the one just before
    it has the same ssid.  With the setting off it changes nothing; with
    it on, no two neighbours of the result share an ssid, every ssid is
    still there, and a list without such neighbours, whatever ssids
    repeat further apart, is returned as it is. *)
Theorem removeDuplicates_drops_neighbours_only
        (sc : NetworkScanner) (l : list ScannedNetwork) :
  (Scan.removeDuplicates (_config sc) = false -> removeDuplicates sc l = l)
  /\ (Scan.removeDuplicates (_config sc) = true ->
      no_twins (removeDuplicates sc l)
      /\ (no_twins l -> removeDuplicates sc l = l)
      /\ (forall s, In s (map ssid (removeDuplicates sc l)) <-> In s (map ssid l))
      /\ length (removeDuplicates sc l) <= length l).
Proof.
  unfold removeDuplicates. split; intros ->; cbn [negb]; [reflexivity|].
  destruct l as [|x l]; cbn [unique].
  - splits; [exact I | reflexivity | reflexivity | lia].
  - splits.
    + apply unique_after_no_twins.
    + intros H. f_equal. now apply unique_after_id.
    + apply unique_after_ssids.
    + pose proof (@unique_after_keeps _ (fun a b => equals (ssid a) (ssid b))
                    (fun _ => True) l) as K.
      destruct (K ltac:(now apply Forall_forall) x) as (_ & K2).
      cbn [length]. lia.
Qed.

End Duplicates.

Section Cache.
Import Bytes Scan Scanner.

Variable std_sort :
  (ScannedNetwork -> ScannedNetwork -> bool) -> list ScannedNetwork
  -> list ScannedNetwork.

Lemma sub32_0 (now : N) : (now < Manager.two32)%N -> Manager.sub32 now 0 = now.
Proof.
  intros H. unfold Manager.sub32, Manager.two32 in *.
  rewrite (N.mod_small now) by exact H. rewrite (N.mod_small 0) by lia.
  rewrite N.sub_0_r.
  replace (now + 4294967296)%N with (now + 1 * 4294967296)%N by lia.
  rewrite N.Div0.mod_add. now apply N.mod_small.
Qed.

(** X27: a scanner that was just made, or whose cache was just cleared, has a
    scan time of 0, and the cache counts as valid while the clock reads
    less than [cacheTimeout]: until then [getResults] starts no scan and
    returns no network; from then on it scans. *)
Theorem empty_cache_counts_as_valid (now : N) (air : Air) (sc : NetworkScanner) :
  (now < Manager.two32)%N ->
  clearCache NetworkScanner_new = NetworkScanner_new
  /\ _networks (clearCache sc) = []
  /\ isCacheValid now (clearCache sc) = (now <? cacheTimeout (_config sc))%N
  /\ ((now < cacheTimeout (_config sc))%N ->
      getResults std_sort false now air (clearCache sc) = ([], clearCache sc))
  /\ ((cacheTimeout (_config sc) <= now)%N ->
      getResults std_sort false now air (clearCache sc)
      = (_networks (snd (startScan std_sort air (clearCache sc))),
         snd (startScan std_sort air (clearCache sc)))).
Proof.
  intros Hn.
  assert (V : isCacheValid now (clearCache sc) = (now <? cacheTimeout (_config sc))%N).
  { unfold isCacheValid, clearCache. scan_fields. now rewrite sub32_0. }
  splits; try reflexivity.
  - exact V.
  - intros H. unfold getResults. rewrite V.
    destruct (N.ltb_spec now (cacheTimeout (_config sc))); [reflexivity | lia].
  - intros H. unfold getResults. rewrite V.
    destruct (N.ltb_spec now (cacheTimeout (_config sc))); [lia | reflexivity].
Qed.

End Cache.

Section CacheWitness.
Import Bytes Scan Scanner.

Lemma empty_cache_counts_as_valid_witness :
  (12000 < Manager.two32)%N
  /\ (0 < networkCount street)%Z
  /\ getResults insertion_sort false 12000 street NetworkScanner_new
     = ([], NetworkScanner_new).
Proof.
  assert (H : (12000 < Manager.two32)%N) by reflexivity.
  splits; [exact H | reflexivity |].
  destruct (@empty_cache_counts_as_valid insertion_sort 12000 street
              NetworkScanner_new H) as (_ & _ & _ & K & _).
  apply K. reflexivity.
Defined.

End CacheWitness.

Section Lookups.
Import Bytes Scan Scanner.

Lemma find_first_spec (s : list byte) (l : list ScannedNetwork) :
  (fst (find_first s l) = false
   /\ find_first s l = (false, None)
   /\ ~ In s (map ssid l))
  \/ (exists before n after,
        l = before ++ n :: after
        /\ ssid n = s
        /\ ~ In s (map ssid before)
        /\ find_first s l = (true, Some n)).
Proof.
  induction l as [|x l IH]; cbn [find_first].
  - left. splits; auto.
  - destruct (equals (ssid x) s) eqn:E.
    + right. apply equals_eq in E. exists [], x, l. splits; auto.
    + assert (Hne : ssid x <> s).
      { intros H. apply equals_eq in H. congruence. }
      destruct IH as [(A & B & C)|(before & n & after & A & B & C & D)].
      * left. splits; auto. cbn [map In]. tauto.
      * right. exists (x :: before), n, after.
        splits; auto; [cbn [app]; now f_equal | cbn [map In]; tauto].
Qed.

(** X28: looking a network up.  By ssid: the first network of the last scan
    with that ssid, whose signal [getNetworkRSSI] returns; when there is
    none, [findNetwork] answers false and [getNetworkRSSI] -100.  By
    index: the network at that place, and for an index that is negative
    or past the end a default network with an empty ssid and -100 dBm. *)
Theorem lookups_by_ssid_and_index
        (s : list byte) (index : Z) (sc : NetworkScanner) :
  (isNetworkVisible s sc = true <-> In s (map ssid (_networks sc)))
  /\ (isNetworkVisible s sc = false ->
      findNetwork s sc = (false, None) /\ getNetworkRSSI s sc = (-100)%Z)
  /\ (isNetworkVisible s sc = true ->
      exists before n after,
        _networks sc = before ++ n :: after
        /\ ssid n = s
        /\ ~ In s (map ssid before)
        /\ findNetwork s sc = (true, Some n)
        /\ getNetworkRSSI s sc = rssi n)
  /\ ((index < 0 \/ getNetworkCount sc <= index)%Z ->
      getNetwork index sc = ScannedNetwork_new)
  /\ ((0 <= index < getNetworkCount sc)%Z ->
      nth_error (_networks sc) (Z.to_nat index) = Some (getNetwork index sc)).
Proof.
  unfold isNetworkVisible, getNetworkRSSI, findNetwork, getNetwork, getNetworkCount.
  destruct (find_first_spec s (_networks sc))
    as [(A & B & C)|(before & n & after & A & B & C & D)].
  - rewrite B. cbn [fst]. splits.
    + split; [discriminate | contradiction].
    + intros _. now split.
    + discriminate.
    + intros H.
      destruct (Z.leb_spec 0 index), (Z.ltb_spec index (Z.of_nat (length (_networks sc))));
        cbn [andb]; try reflexivity; lia.
    + intros H.
      destruct (Z.leb_spec 0 index), (Z.ltb_spec index (Z.of_nat (length (_networks sc))));
        cbn [andb]; try lia.
      apply nth_error_nth'. lia.
  - rewrite D. cbn [fst]. splits.
    + split; [intros _ | reflexivity]. rewrite A, map_app, in_app_iff.
      right. left. exact B.
    + discriminate.
    + intros _. exists before, n, after. splits; auto.
    + intros H.
      destruct (Z.leb_spec 0 index), (Z.ltb_spec index (Z.of_nat (length (_networks sc))));
        cbn [andb]; try reflexivity; lia.
    + intros H.
      destruct (Z.leb_spec 0 index), (Z.ltb_spec index (Z.of_nat (length (_networks sc))));
        cbn [andb]; try lia.
      apply nth_error_nth'. lia.
Qed.

End Lookups.

Section SsidRules.
Import Bytes CString.

Lemma c_str_no_nul_id (s : list byte) :
  Forall (fun c => c <> x00) s -> c_str s = s.
Proof.
  induction 1 as [|c s Hc _ IH]; cbn [c_str]; [reflexivity|].
  destruct (Byte.eqb c x00) eqn:E.
  - apply Byte.byte_dec_bl in E. contradiction.
  - now rewrite IH.
Qed.

Lemma validateSSID_iff (s : list byte) :
  Scanner.validateSSID s = true <-> (1 <= length s <= 32 /\ Forall printable s).
Proof.
  unfold Scanner.validateSSID.
  destruct (Nat.eqb_spec (length s) 0) as [E|E]; cbn [orb].
  - split; [discriminate | lia].
  - destruct (Nat.ltb_spec 32 (length s)) as [L|L].
    + split; [discriminate | lia].
    + rewrite forallb_forall, Forall_forall. split.
      * intros H. split; [lia|]. intros c Hc. apply printable_test. now apply H.
      * intros (_ & H) c Hc. apply printable_test. now apply H.
Qed.

(** X29: the three tests of an ssid.  On a string without a NUL inside, the
    store's [isValidSSID] accepts what the scanner's [validateSSID]
    accepts except at 32 characters, and [NetworkUtils::isValidSSID]
    accepts all of that.  So a network with a name of 32 characters is
    listed by a scan, but [saveWiFiCredentials] keeps only the first 31
    characters of its name. *)
Theorem ssid_rules_differ_at_32
        (s : list byte) (pw : option (list byte)) (st : Storage.StorageManager) :
  Forall (fun c => c <> x00) s ->
  (Storage.isValidSSID s = true
   <-> (Scanner.validateSSID s = true /\ length s <> 32))
  /\ (Scanner.validateSSID s = true -> NetworkUtils.isValidSSID s = true)
  /\ (Scanner.validateSSID s = true -> length s = 32 ->
      Storage._initialized st = true ->
      let r := Storage.saveWiFiCredentials (Some s) pw st in
      fst r = true
      /\ c_str (Storage.ssid (Storage.wifi (Storage._data (snd r)))) = firstn 31 s
      /\ c_str (Storage.ssid (Storage.wifi (Storage._data (snd r)))) <> s
      /\ Storage.isValidSSID (Storage.ssid (Storage.wifi (Storage._data (snd r))))
         = true).
Proof.
  intros Hn. pose proof (c_str_no_nul_id Hn) as Hc. splits.
  - rewrite isValidSSID_iff, validateSSID_iff. unfold strlen. rewrite Hc.
    split; [intros (H1 & H2) | intros ((H1 & H2) & H3)]; splits; auto; lia.
  - rewrite validateSSID_iff. unfold NetworkUtils.isValidSSID. intros (H & _).
    destruct (Nat.ltb_spec 0 (length s)), (Nat.leb_spec (length s) 32);
      try reflexivity; lia.
  - intros V L I. cbv zeta. apply validateSSID_iff in V. destruct V as (_ & V).
    unfold Storage.saveWiFiCredentials. rewrite I. cbn [negb].
    unfold Storage.saveToEEPROM.
    cbn [fst snd Storage._data Storage.set_data Storage.wifi Storage.set_checksum
         Storage.set_wifi Storage.ssid].
    pose proof (c_str_bounded_copy s Storage.MAX_SSID_LENGTH) as K.
    change (Storage.MAX_SSID_LENGTH - 1) with 31 in K. rewrite Hc in K.
    splits.
    + reflexivity.
    + exact K.
    + rewrite K. intros E. apply (f_equal (@length byte)) in E.
      rewrite length_firstn in E. lia.
    + apply isValidSSID_iff. unfold strlen. rewrite K, length_firstn.
      split; [lia|]. now apply Forall_firstn.
Qed.

Lemma ssid_rules_differ_at_32_witness :
  Forall (fun c => c <> x00) (repeat x61 32)
  /\ Scanner.validateSSID (repeat x61 32) = true
  /\ Storage.isValidSSID (repeat x61 32) = false
  /\ c_str (Storage.ssid (Storage.wifi (Storage._data
              (snd (Storage.saveWiFiCredentials (Some (repeat x61 32)) None opened)))))
     = repeat x61 31.
Proof.
  assert (H : Forall (fun c => c <> x00) (repeat x61 32))
    by (repeat constructor; discriminate).
  destruct (@ssid_rules_differ_at_32 (repeat x61 32) None opened H)
    as (_ & _ & K).
  destruct (K eq_refl eq_refl eq_refl) as (_ & K2 & _).
  splits; [exact H | reflexivity | reflexivity | exact K2].
Defined.

End SsidRules.

Section Bssid.
Import Bytes Scan Scanner.

Lemma octet_digits (b : byte) :
  exists hi lo,
    toUpperCase ((if (Byte.to_N b <? 16)%N then [x30] else []) ++ String_HEX b)
    = [hi; lo]
    /\ upper_hex hi /\ upper_hex lo.
Proof.
  destruct b; (eexists; eexists; split; [reflexivity|]);
    unfold upper_hex; cbn; lia.
Qed.

Lemma toUpperCase_app (a b : list byte) :
  toUpperCase (a ++ b) = toUpperCase a ++ toUpperCase b.
Proof. apply map_app. Qed.

Lemma octet_upper (j : nat) (b : byte) :
  exists hi lo,
    toUpperCase (octet j b) = (if 0 <? j then [x3a] else []) ++ [hi; lo]
    /\ upper_hex hi /\ upper_hex lo.
Proof.
  destruct (octet_digits b) as (hi & lo & E & A & B). exists hi, lo.
  unfold octet. rewrite toUpperCase_app, E.
  split; [destruct (0 <? j); reflexivity | now split].
Qed.

(** X30: the text [performScan] builds from the six bytes [WiFi.BSSID] fills
    in: 17 characters, six pairs of digits and capital letters A to F
    with a colon between them.  The bytes are those of the call without
    an index, so every network of one scan gets the same text. *)
Theorem bssid_string_format (mac : list byte) (air : Air) (i k : nat) :
  length (bssid_string mac) = 17
  /\ (forall j, j < 17 ->
        (j mod 3 = 2 -> nth j (bssid_string mac) x00 = x3a)
        /\ (j mod 3 <> 2 -> upper_hex (nth j (bssid_string mac) x00)))
  /\ bssid (scanned air i) = bssid_string (WiFi_BSSID air)
  /\ bssid (scanned air i) = bssid (scanned air k).
Proof.
  assert (E : exists h0 l0 h1 l1 h2 l2 h3 l3 h4 l4 h5 l5,
             bssid_string mac
             = [h0; l0; x3a; h1; l1; x3a; h2; l2; x3a; h3; l3; x3a; h4; l4; x3a;
                h5; l5]
             /\ Forall upper_hex [h0; l0; h1; l1; h2; l2; h3; l3; h4; l4; h5; l5]).
  { unfold bssid_string. cbn [seq flat_map]. rewrite !toUpperCase_app.
    destruct (octet_upper 0 (nth 0 mac x00)) as (h0 & l0 & E0 & A0 & B0).
    destruct (octet_upper 1 (nth 1 mac x00)) as (h1 & l1 & E1 & A1 & B1).
    destruct (octet_upper 2 (nth 2 mac x00)) as (h2 & l2 & E2 & A2 & B2).
    destruct (octet_upper 3 (nth 3 mac x00)) as (h3 & l3 & E3 & A3 & B3).
    destruct (octet_upper 4 (nth 4 mac x00)) as (h4 & l4 & E4 & A4 & B4).
    destruct (octet_upper 5 (nth 5 mac x00)) as (h5 & l5 & E5 & A5 & B5).
    exists h0, l0, h1, l1, h2, l2, h3, l3, h4, l4, h5, l5.
    rewrite E0, E1, E2, E3, E4, E5. split; [reflexivity|].
    repeat (apply Forall_cons; [assumption|]). apply Forall_nil. }
  destruct E as (h0 & l0 & h1 & l1 & h2 & l2 & h3 & l3 & h4 & l4 & h5 & l5 & E & F).
  rewrite E. splits; try reflexivity.
  intros j Hj.
  repeat match goal with
         | H : Forall _ (_ :: _) |- _ => inversion H; subst; clear H
         end.
  do 17 (destruct j as [|j];
         [cbn; split; intros; try assumption; try reflexivity;
          try discriminate; exfalso; auto |]).
  lia.
Qed.

End Bssid.
